(** * teagram: the config editor, the BotFather token manager and the utilities

    A shallow embedding of [teagram/utils.py], [teagram/modules/config.py]
    and [teagram/bot/token_manager.py], followed by the properties of these
    functions.

    Conventions of the embedding.
    - A Python [str] is a [string] whose characters are the code points
      below 256; [str.lower], [str.isspace], [str.split] and the classes of
      the regular expressions act on these code points as CPython does.
      The fixed display texts of the user interface are kept as the bytes
      of their source literals.
    - A Python exception is a value of [exn]; a call that can raise returns
      a [result].  Code that also changes an object or talks to the outside
      runs in the monad [M], which threads the state and stops at the first
      exception, keeping the changes made before it.
    - Objects of the framework that these three files only use (the
      database, the config descriptor, the conversation) are modelled from
      their description and marked as such. *)

From Stdlib Require Import ZArith NArith Ascii String List Lia Bool.
From stdpp Require Import base option list strings gmap pretty.

(** ** Exceptions and results *)

Inductive exn : Type :=
  | ValueError (format arg : string)
  | KeyError (key : string)
  | IndexError
  | TypeError
  | AttributeError
  | FileNotFoundError (path : string)
  | UserIsBlockedError
  | NoReply
  | OtherError (name : string).

Inductive result (A : Type) : Type :=
  | Ok (a : A)
  | Raise (e : exn).
Arguments Ok {A} a.
Arguments Raise {A} e.

(** The state-and-exception monad of the effectful functions. *)
Definition M (S A : Type) : Type := S -> result A * S.

Definition ret {S A} (a : A) : M S A := fun s => (Ok a, s).
Definition raise {S A} (e : exn) : M S A := fun s => (Raise e, s).
Definition bind {S A B} (m : M S A) (k : A -> M S B) : M S B :=
  fun s => match m s with
           | (Ok a, s') => k a s'
           | (Raise e, s') => (Raise e, s')
           end.
Definition gets {S A} (f : S -> A) : M S A := fun s => (Ok (f s), s).
Definition modify {S} (f : S -> S) : M S unit := fun s => (Ok tt, f s).
Definition lift {S A} (r : result A) : M S A := fun s => (r, s).
(** [try: m except e: h] for the exceptions selected by [catches]. *)
Definition try_except {S A} (m : M S A) (catches : exn -> bool)
    (h : exn -> M S A) : M S A :=
  fun s => match m s with
           | (Ok a, s') => (Ok a, s')
           | (Raise e, s') => if catches e then h e s' else (Raise e, s')
           end.

(** Loops whose body can [break] or [return]. *)
Inductive flow (R : Type) : Type :=
  | Next
  | Break
  | Return (r : R).
Arguments Next {R}.
Arguments Break {R}.
Arguments Return {R} r.

(** [for x in items: body]: how the loop was left, [Next] standing for a
    loop that ran to its end. *)
Fixpoint for_each {S A R} (items : list A) (body : A -> M S (flow R))
  : M S (flow R) :=
  match items with
  | [] => ret Next
  | x :: rest =>
      bind (body x) (fun f =>
        match f with
        | Next => for_each rest body
        | Break => ret Break
        | Return r => ret (Return r)
        end)
  end.

Declare Scope py_scope.
Delimit Scope py_scope with py.
Notation "'let!' x ':=' m 'in' k" := (bind m (fun x => k))
  (at level 10, x name, m at level 100, k at level 200) : py_scope.
Notation "'let!' ' pat ':=' m 'in' k" :=
  (bind m (fun x => match x with pat => k end))
  (at level 10, pat pattern, m at level 100, k at level 200) : py_scope.
Notation "'exec' m 'in' k" := (bind m (fun _ => k))
  (at level 10, m at level 100, k at level 200) : py_scope.

(** ** Python strings *)

Module PyStr.

Definition code (c : ascii) : N := N_of_ascii c.

Definition in_range (lo hi : N) (c : ascii) : bool :=
  ((lo <=? code c) && (code c <=? hi))%N.

(** The cased capitals below U+0100: A-Z, and the Latin-1 capitals
    U+00C0-U+00DE without the multiplication sign U+00D7. *)
Definition is_upper (c : ascii) : bool :=
  in_range 65 90 c || (in_range 192 222 c && negb (code c =? 215)%N).

Definition lower_char (c : ascii) : ascii :=
  if is_upper c then ascii_of_N (code c + 32) else c.

(** [s.lower()] on the code points below 256: each cased capital there
    has one small letter, which is also below 256, and every other
    character is left as it is. *)
Fixpoint lower (s : string) : string :=
  match s with
  | EmptyString => EmptyString
  | String c s' => String (lower_char c) (lower s')
  end.

(** [c.isspace()]: TAB-CR, FS-US, space, NEL and NBSP. *)
Definition isspace (c : ascii) : bool :=
  in_range 9 13 c || in_range 28 32 c
  || (code c =? 133)%N || (code c =? 160)%N.

Definition is_digit (c : ascii) : bool := in_range 48 57 c.
Definition is_ascii_alpha (c : ascii) : bool :=
  in_range 65 90 c || in_range 97 122 c.
Definition is_alnum (c : ascii) : bool := is_digit c || is_ascii_alpha c.

Definition len (s : string) : nat := String.length s.

(** [s.startswith(p)] *)
Definition startswith (s p : string) : bool := String.prefix p s.

(** [s.endswith(p)] *)
Definition endswith (s p : string) : bool :=
  (String.length p <=? String.length s)%nat
  && String.eqb
       (String.substring (String.length s - String.length p)
                         (String.length p) s) p.

(** [s[n:]] *)
Fixpoint drop (n : nat) (s : string) : string :=
  match n, s with
  | O, _ => s
  | S n', String _ s' => drop n' s'
  | S _, EmptyString => EmptyString
  end.

(** [s[:n]] *)
Fixpoint take (n : nat) (s : string) : string :=
  match n, s with
  | S n', String c s' => String c (take n' s')
  | _, _ => EmptyString
  end.

(** [sub in s] *)
Fixpoint contains (sub s : string) : bool :=
  startswith s sub ||
  match s with
  | EmptyString => false
  | String _ s' => contains sub s'
  end.

(** [s.lstrip()] *)
Fixpoint lstrip (s : string) : string :=
  match s with
  | String c s' => if isspace c then lstrip s' else s
  | EmptyString => EmptyString
  end.

(** The leading run of non-blank characters and what follows it. *)
Fixpoint span_word (s : string) : string * string :=
  match s with
  | String c s' =>
      if isspace c then (EmptyString, s)
      else let '(w, r) := span_word s' in (String c w, r)
  | EmptyString => (EmptyString, EmptyString)
  end.

(** [s.split(maxsplit=1)]: blanks are skipped, one word is cut, and what
    remains after the following blanks, when not empty, is the second
    item, trailing blanks included. *)
Definition split_maxsplit1 (s : string) : list string :=
  match lstrip s with
  | EmptyString => []
  | s1 =>
      let '(w, r) := span_word s1 in
      match lstrip r with
      | EmptyString => [w]
      | r' => [w; r']
      end
  end.

(** [s.split()]: the words of [s]; [cur] is the word being read. *)
Fixpoint words_from (cur : string) (s : string) : list string :=
  match s with
  | EmptyString => match cur with EmptyString => [] | _ => [cur] end
  | String c s' =>
      if isspace c then
        match cur with
        | EmptyString => words_from EmptyString s'
        | _ => cur :: words_from EmptyString s'
        end
      else words_from (cur +:+ String c EmptyString) s'
  end.
Definition split (s : string) : list string := words_from EmptyString s.

(** [s.split(sep)] for a one-character separator: never empty. *)
Fixpoint split_on (sep : ascii) (s : string) : list string :=
  match s with
  | EmptyString => [EmptyString]
  | String c s' =>
      if Ascii.eqb c sep then EmptyString :: split_on sep s'
      else match split_on sep s' with
           | w :: ws => String c w :: ws
           | [] => [String c EmptyString]
           end
  end.

(** [s.replace(old, new)] for a non-empty [old]: the occurrences are
    taken from the left and do not overlap; [skip] counts the characters
    of the occurrence being replaced that are still to be passed. *)
Fixpoint replace_from (old new : string) (skip : nat) (s : string) : string :=
  match s with
  | EmptyString => EmptyString
  | String c s' =>
      match skip with
      | S k => replace_from old new k s'
      | O =>
          if startswith s old
          then new +:+ replace_from old new (len old - 1) s'
          else String c (replace_from old new O s')
      end
  end.
Definition replace (old new s : string) : string := replace_from old new O s.

(** [l[-1]] and [l[-2]] *)
Definition index_last {A} (l : list A) : result A :=
  match last l with Some x => Ok x | None => Raise IndexError end.
Definition index_last2 {A} (l : list A) : result A :=
  match rev l with _ :: x :: _ => Ok x | _ => Raise IndexError end.

End PyStr.

(** ** Python values *)

(** The dynamically typed values that the three files store, read from the
    database, decode from JSON or YAML, and render. *)
#[local] Set Warnings "-register-all".
Inductive PyVal : Type :=
  | VNone
  | VBool (b : bool)
  | VInt (z : Z)
  | VStr (s : string)
  | VList (items : list PyVal)
  | VTuple (items : list PyVal)
  | VDict (entries : list (string * PyVal)).

(** [bool(v)] *)
Definition truthy (v : PyVal) : bool :=
  match v with
  | VNone => false
  | VBool b => b
  | VInt z => negb (z =? 0)%Z
  | VStr s => negb (String.eqb s "")
  | VList l | VTuple l => match l with [] => false | _ => true end
  | VDict d => match d with [] => false | _ => true end
  end.

(** [type(v).__name__] *)
Definition type_name (v : PyVal) : string :=
  match v with
  | VNone => "NoneType"
  | VBool _ => "bool"
  | VInt _ => "int"
  | VStr _ => "str"
  | VList _ => "list"
  | VTuple _ => "tuple"
  | VDict _ => "dict"
  end.

(** [v[k]] for a string key: only a dict can be subscripted by a string. *)
Definition getitem (v : PyVal) (k : string) : result PyVal :=
  match v with
  | VDict d =>
      match List.find (fun kv => String.eqb (fst kv) k) d with
      | Some kv => Ok (snd kv)
      | None => Raise (KeyError k)
      end
  | _ => Raise TypeError
  end.

(** What the interpreter and its libraries provide and these files call:
    [str()] of a container, the YAML loader, and [int()] of a string. *)
Class PythonRuntime : Type := {
  str_container : PyVal -> string;
  yaml_safe_load : string -> result PyVal;
  int_of_str : string -> result Z
}.

(** [str(v)], as in an f-string field. *)
Definition py_str `{PythonRuntime} (v : PyVal) : string :=
  match v with
  | VNone => "None"
  | VBool true => "True"
  | VBool false => "False"
  | VInt z => pretty z
  | VStr s => s
  | _ => str_container v
  end.

(** ** The key-value settings store *)

(** Modelled from the spec: the [Database] class of the package is not among
    these files; it is a store with [get(namespace, key, default)] and
    [set(namespace, key, value)], namespaced by module name. *)
Module Database.
Abbreviation t := (gmap (string * string) PyVal).

Definition get (db : t) (namespace key : string) (default : PyVal) : PyVal :=
  match db !! (namespace, key) with
  | Some v => v
  | None => default
  end.

Definition set (db : t) (namespace key : string) (value : PyVal) : t :=
  <[(namespace, key) := value]> db.
End Database.

(** ** The random source *)

(** [random.choice] draws from the generator; the generator is the sequence
    of its future draws and a cursor into it. *)
Record Rng : Type := { draws : nat -> nat; cursor : nat }.

Definition ascii_letters : string :=
  "abcdefghijklmnopqrstuvwxyzABCDEFGHIJKLMNOPQRSTUVWXYZ".
Definition digits : string := "0123456789".

Definition choice (seq : string) (r : Rng) : ascii * Rng :=
  (default "000"%char
     (String.get (draws r (cursor r) mod PyStr.len seq)%nat seq),
   {| draws := draws r; cursor := S (cursor r) |}).

(** ** teagram/utils.py *)

Module Utils.

(** *** get_full_command *)

(** [message.text = str(message.text)]: a message without text has
    [None] there, and [str(None)] is the four letters. *)
Definition str_of_text (text : option string) : string :=
  match text with
  | Some s => s
  | None => "None"
  end.

(** The condition of the [if] inside the loop. *)
Definition prefix_matches (text prefix : string) : bool :=
  negb (String.eqb text "")
  && (PyStr.len prefix <? PyStr.len text)%nat
  && PyStr.startswith text prefix.

(** [command, *args = items] *)
Definition unpack_command (items : list string)
  : result (string * list string) :=
  match items with
  | command :: args => Ok (command, args)
  | [] => Raise (ValueError "not enough values to unpack" "")
  end.

(** The [for ... else] loop: [None] when the loop ends without [break],
    otherwise the unpacking done at the first prefix that matches. *)
Fixpoint scan_prefixes (text : string) (prefixes : list string)
  : option (result (string * list string)) :=
  match prefixes with
  | [] => None
  | prefix :: rest =>
      if prefix_matches text prefix
      then Some (unpack_command
                   (PyStr.split_maxsplit1
                      (PyStr.drop (PyStr.len prefix) text)))
      else scan_prefixes text rest
  end.

(** The function for a stored list of strings, the value that the
    framework keeps under this key. *)
Definition get_full_command_with (prefixes : list string)
    (message_text : option string) : result (string * string * string) :=
  let text := str_of_text message_text in
  match scan_prefixes text prefixes with
  | None => Ok ("", "", "")
  | Some (Raise e) => Raise e
  | Some (Ok (command, args)) =>
      Ok (List.hd "" prefixes,
          PyStr.lower command,
          match last args with Some a => a | None => "" end)
  end.

(** The stored value is whatever the database holds, and the loop takes
    its items as they come: an item is looked at only when the loop
    reaches it. *)

(** [for prefix in prefixes]: the characters of a string, the items of
    a list or tuple, the keys of a dict; nothing else can be iterated. *)
Fixpoint chars_of (s : string) : list string :=
  match s with
  | EmptyString => []
  | String c s' => String c EmptyString :: chars_of s'
  end.

Definition iterate (v : PyVal) : result (list PyVal) :=
  match v with
  | VStr s => Ok (List.map VStr (chars_of s))
  | VList items | VTuple items => Ok items
  | VDict entries => Ok (List.map (fun kv => VStr (fst kv)) entries)
  | VNone | VBool _ | VInt _ => Raise TypeError
  end.

(** [len(v)] *)
Definition py_len (v : PyVal) : result nat :=
  match v with
  | VStr s => Ok (PyStr.len s)
  | VList items | VTuple items => Ok (List.length items)
  | VDict entries => Ok (List.length entries)
  | VNone | VBool _ | VInt _ => Raise TypeError
  end.

(** [text.startswith(v)]: [v] is a string, or a tuple whose items are
    tried in order, each having to be a string when its turn comes. *)
Fixpoint startswith_tuple (text : string) (items : list PyVal)
  : result bool :=
  match items with
  | [] => Ok false
  | VStr p :: rest =>
      if PyStr.startswith text p then Ok true
      else startswith_tuple text rest
  | _ :: _ => Raise TypeError
  end.

Definition py_startswith (text : string) (v : PyVal) : result bool :=
  match v with
  | VStr p => Ok (PyStr.startswith text p)
  | VTuple items => startswith_tuple text items
  | _ => Raise TypeError
  end.

(** The condition of the [if] for an item of any type: an empty text
    ends it before [len(prefix)] is asked for, and [startswith] is
    called only for a text longer than the item. *)
Definition item_matches (text : string) (prefix : PyVal) : result bool :=
  if String.eqb text "" then Ok false
  else
    match py_len prefix with
    | Raise e => Raise e
    | Ok n =>
        if (n <? PyStr.len text)%nat then py_startswith text prefix
        else Ok false
    end.

(** The loop over the items: as [scan_prefixes], and an item that cannot
    be measured or compared ends the loop with its exception. *)
Fixpoint scan_items (text : string) (items : list PyVal)
  : option (result (string * list string)) :=
  match items with
  | [] => None
  | prefix :: rest =>
      match item_matches text prefix with
      | Raise e => Some (Raise e)
      | Ok false => scan_items text rest
      | Ok true =>
          Some (match py_len prefix with
                | Ok n =>
                    unpack_command
                      (PyStr.split_maxsplit1 (PyStr.drop n text))
                | Raise e => Raise e
                end)
      end
  end.

(** [prefixes[0]] *)
Definition first_item (v : PyVal) : result PyVal :=
  match v with
  | VStr (String c _) => Ok (VStr (String c EmptyString))
  | VList (x :: _) | VTuple (x :: _) => Ok x
  | VStr EmptyString | VList [] | VTuple [] => Raise IndexError
  | VDict _ => Raise (KeyError "0")
  | VNone | VBool _ | VInt _ => Raise TypeError
  end.

Definition get_full_command (db : Database.t)
    (message_text : option string) : result (PyVal * string * string) :=
  let text := str_of_text message_text in
  let prefixes :=
    Database.get db "teagram.loader" "prefixes" (VList [VStr "."]) in
  match iterate prefixes with
  | Raise e => Raise e
  | Ok items =>
      match scan_items text items with
      | None => Ok (VStr "", "", "")
      | Some (Raise e) => Raise e
      | Some (Ok (command, args)) =>
          match first_item prefixes with
          | Raise e => Raise e
          | Ok first =>
              Ok (first,
                  PyStr.lower command,
                  match last args with Some a => a | None => "" end)
          end
      end
  end.

(** *** get_display_name *)

Inductive Entity : Type :=
  | User (first_name last_name : option string)
  | Chat (title : option string).

Definition str_truthy (o : option string) : bool :=
  match o with
  | Some s => negb (String.eqb s "")
  | None => false
  end.

(** [getattr(entity, "title", None) or (entity.first_name or "" + (...))]:
    [+] binds tighter than [or], so the last name is only appended to the
    empty string; a chat has no [first_name]. *)
Definition get_display_name (entity : Entity) : result string :=
  match entity with
  | Chat title =>
      if str_truthy title then Ok (default "" title)
      else Raise AttributeError
  | User first_name last_name =>
      if str_truthy first_name then Ok (default "" first_name)
      else Ok ("" +:+ (if str_truthy last_name
                       then " " +:+ default "" last_name else ""))
  end.

(** *** random_id *)

Fixpoint random_id (length : nat) (r : Rng) : string * Rng :=
  match length with
  | O => ("", r)
  | S n =>
      let '(c, r1) := choice (ascii_letters +:+ digits) r in
      let '(s, r2) := random_id n r1 in
      (String c s, r2)
  end.

(** *** get_langpack *)

Record World : Type := {
  db : Database.t;
  files : gmap string string
}.

Definition db_get (namespace key : string) (default : PyVal)
  : M World PyVal :=
  gets (fun w => Database.get (db w) namespace key default).

Definition db_set (namespace key : string) (value : PyVal)
  : M World unit :=
  modify (fun w => {| db := Database.set (db w) namespace key value;
                      files := files w |}).

(** [with open(path) as file] followed by reading it. *)
Definition open_file (path : string) : M World string :=
  fun w => match files w !! path with
           | Some content => (Ok content, w)
           | None => (Raise (FileNotFoundError path), w)
           end.

(** [depth] is the number of frames the interpreter still allows. The
    value of the inner call is dropped: the first branch has no
    [return], so it falls through to the implicit [None]. *)
Fixpoint get_langpack `{PythonRuntime} (depth : nat) : M World PyVal :=
  match depth with
  | O => raise (OtherError "RecursionError")
  | S depth' =>
      (let! lang := db_get "teagram.loader" "lang" VNone in
       if negb (truthy lang) then
         exec db_set "teagram.loader" "lang" (VStr "en") in
         exec get_langpack depth' in
         ret VNone
       else
         let! file := open_file
                        ("teagram/langpacks/" +:+ py_str lang +:+ ".yml") in
         let! pack := lift (yaml_safe_load file) in
         ret pack)%py
  end.

(** *** paste_neko *)

(** What the POST to the paste service comes to: the request fails
    before any response, or a response arrives with a status and a body
    that [paste.json()] decodes or refuses. *)
Inductive HttpReply : Type :=
  | NoResponse (e : exn)
  | Response (status : Z) (json : result PyVal).

Definition Network : Type := string -> PyVal -> HttpReply.

(** The body of the [try]: post, [raise_for_status], decode. *)
Definition upload (net : Network) (code : string) : result PyVal :=
  match net "https://nekobin.com/api/documents"
            (VDict [("content", VStr code)]) with
  | NoResponse e => Raise e
  | Response status json =>
      if (400 <=? status)%Z then Raise (OtherError "ClientResponseError")
      else json
  end.

(** [except Exception] takes every exception of the [try] body; the
    [else] clause runs outside of its protection. *)
Definition paste_neko `{PythonRuntime} (net : Network) (code : string)
  : result string :=
  match upload net code with
  | Raise _ => Ok "Pasting failed"
  | Ok result =>
      match getitem result "result" with
      | Raise e => Raise e
      | Ok inner =>
          match getitem inner "key" with
          | Raise e => Raise e
          | Ok key => Ok ("nekobin.com/" +:+ py_str key +:+ ".py")
          end
      end
  end.

(** *** get_chat and answer *)

(** A chat is referred to by its id, when the chat of the message is
    loaded, or by the peer of the message. *)
Inductive ChatRef : Type :=
  | ById (id : Z)
  | ByPeer (peer : Z).

(** A message of the client: [id], [chat] ([None] when not loaded) and
    [_chat_peer]. *)
Record Msg : Type := {
  msg_id : Z;
  msg_chat : option Z;
  msg_chat_peer : Z
}.

(** [message.chat.id if message.chat else None or message._chat_peer]: the
    conditional binds weaker than [or]. *)
Definition get_chat (message : Msg) : ChatRef :=
  match msg_chat message with
  | Some id => ById id
  | None => ByPeer (msg_chat_peer message)
  end.

(** The first argument of [answer]: a message or a list of messages. *)
Inductive Target : Type :=
  | OneMessage (m : Msg)
  | MessageList (l : list Msg).

(** The response: a [str], or any other object (a file-like object). *)
Inductive ResponseValue : Type :=
  | RText (s : string)
  | RObject (descr : string).

(** The calls made on the Telegram client. *)
Inductive Call : Type :=
  | EditMessage (chat : ChatRef) (id : Z) (text parse_mode : string)
  | Reply (to : Z) (text parse_mode : string)
  | SendFile (chat : ChatRef) (file : ResponseValue) (caption parse_mode : string)
      (reply_to : Z)
  | DeleteMessages (chat : ChatRef) (id : Z).

(** The client: the calls it has carried out, the calls it refuses and
    with which exception, and the id of the next message it creates. *)
Record Client : Type := {
  calls : list Call;
  refuses : Call -> option exn;
  next_id : Z
}.

(** A call that is refused raises and is not carried out. *)
Definition perform (c : Call) : M Client unit :=
  fun cl => match refuses cl c with
            | Some e => (Raise e, cl)
            | None => (Ok tt,
                       {| calls := calls cl ++ [c]; refuses := refuses cl;
                          next_id := next_id cl |})
            end.

(** The message a reply or an upload creates, in the chat of [origin]. *)
Definition new_message (origin : Msg) : M Client Msg :=
  fun cl => (Ok {| msg_id := next_id cl; msg_chat := msg_chat origin;
                   msg_chat_peer := msg_chat_peer origin |},
             {| calls := calls cl; refuses := refuses cl;
                next_id := (next_id cl + 1)%Z |}).

Definition every_exception (e : exn) : bool := true.

(** [message._client] is read before the test for a list, and a list has no
    such attribute. The keyword arguments passed through are left out. *)
Definition answer (message : Target) (response : ResponseValue)
    (photo document : bool) (caption parse_mode : string)
  : M Client (list Msg) :=
  match message with
  | MessageList _ => raise AttributeError
  | OneMessage message =>
      (let chat := get_chat message in
       let! messages :=
         (match response with
          | RText text =>
              if negb (photo || document) then
                let! msg :=
                  try_except
                    (exec perform (EditMessage chat (msg_id message) text
                                     parse_mode) in
                     ret message)
                    every_exception
                    (fun _ =>
                       exec perform (Reply (msg_id message) text parse_mode) in
                       new_message message) in
                ret [msg]
              else ret []
          | RObject _ => ret []
          end) in
       if photo || document then
         exec perform (SendFile chat response caption parse_mode
                         (msg_id message)) in
         let! sent := new_message message in
         exec perform (DeleteMessages chat (msg_id message)) in
         ret (messages ++ [sent])
       else ret messages)%py
  end.

End Utils.

(** ** teagram/bot/token_manager.py *)

Module TokenManager.

(** *** The three regular expressions, as [re.search] runs them *)

(** [.*?] up to the lookahead [(?=close)]: the shortest run of characters
    other than the newline that is followed by [close]. *)
Fixpoint lazy_until (close : string) (s : string) : option string :=
  if PyStr.startswith s close then Some ""
  else match s with
       | EmptyString => None
       | String c s' =>
           if Ascii.eqb c "010" then None
           else option_map (String c) (lazy_until close s')
       end.

(** [(?<=<code>)] at position [i] of [text]. *)
Definition behind_code (text : string) (i : nat) : bool :=
  (6 <=? i)%nat && String.eqb (String.substring (i - 6) 6 text) "<code>".

(** [re.search(r"(?<=<code>)(.*?)(?=</code>)", text)]: the match at the
    leftmost position that has one; [s] is [text[i:]]. The value is
    [group(0)]. *)
Fixpoint search_code_from (text : string) (i : nat) (s : string)
  : option string :=
  match (if behind_code text i then lazy_until "</code>" s else None) with
  | Some m => Some m
  | None =>
      match s with
      | EmptyString => None
      | String _ s' => search_code_from text (S i) s'
      end
  end.
Definition search_code (text : string) : option string :=
  search_code_from text 0 text.

(** [[0-9a-zA-Z_-]] *)
Definition token_char (c : ascii) : bool :=
  PyStr.is_digit c || PyStr.is_ascii_alpha c
  || Ascii.eqb c "_" || Ascii.eqb c "-".

(** [n] characters of a class. *)
Fixpoint repeat_class (cls : ascii -> bool) (n : nat) (s : string) : bool :=
  match n with
  | O => true
  | S n' =>
      match s with
      | String c s' => cls c && repeat_class cls n' s'
      | EmptyString => false
      end
  end.

Fixpoint digit_run (s : string) : nat :=
  match s with
  | String c s' => if PyStr.is_digit c then S (digit_run s') else O
  | EmptyString => O
  end.

(** [:[0-9a-zA-Z_-]{35}] *)
Definition colon_secret (s : string) : bool :=
  match s with
  | String c s' => Ascii.eqb c ":" && repeat_class token_char 35 s'
  | EmptyString => false
  end.

(** [\d{1,}] is greedy: the whole run of digits first, then one digit
    fewer at each backtrack, never fewer than one. *)
Fixpoint backtrack_digits (k : nat) (s : string) : option nat :=
  match k with
  | O => None
  | S k' =>
      if colon_secret (PyStr.drop k s) then Some k
      else backtrack_digits k' s
  end.

Definition match_token_at (s : string) : option string :=
  match backtrack_digits (digit_run s) s with
  | Some k => Some (PyStr.take (k + 1 + 35) s)
  | None => None
  end.

(** [re.search(r"\d{1,}:[0-9a-zA-Z_-]{35}", text)] *)
Fixpoint search_token (s : string) : option string :=
  match match_token_at s with
  | Some m => Some m
  | None =>
      match s with
      | EmptyString => None
      | String _ s' => search_token s'
      end
  end.

(** [@teagram_[0-9a-zA-Z]{6}_bot] at the head of [s]. *)
Definition match_bot_at (s : string) : bool :=
  PyStr.startswith s "@teagram_"
  && repeat_class PyStr.is_alnum 6 (PyStr.drop 9 s)
  && PyStr.startswith (PyStr.drop 15 s) "_bot".

(** [re.search(r"@teagram_[0-9a-zA-Z]{6}_bot", text)], as a truth value. *)
Fixpoint search_bot (s : string) : bool :=
  match_bot_at s ||
  match s with
  | EmptyString => false
  | String _ s' => search_bot s'
  end.

(** *** The conversation with BotFather *)

Record Message : Type := {
  text : string;
  (** the rows of buttons, each button by its label *)
  reply_markup : option (list (list string))
}.

Inductive Sent : Type :=
  | SentText (s : string)
  | SentMedia (path media_type : string)
  | Unblocked (peer : string).

Inductive Level : Type := INFO | WARNING | ERROR | SUCCESS.

Record World : Type := {
  (** the replies BotFather will give, in order *)
  inbox : list Message;
  (** what was sent to it, in order *)
  outbox : list Sent;
  (** whether the account has blocked BotFather *)
  blocked : bool;
  log : list (Level * string);
  rng : Rng;
  (** [self._manager.me] *)
  me : Utils.Entity;
  (** [self.bot_username] *)
  bot_username : option string
}.

Definition send (x : Sent) (w : World) : World :=
  {| inbox := inbox w; outbox := outbox w ++ [x]; blocked := blocked w;
     log := log w; rng := rng w; me := me w;
     bot_username := bot_username w |}.

Definition logger (lvl : Level) (msg : string) : M World unit :=
  modify (fun w =>
    {| inbox := inbox w; outbox := outbox w; blocked := blocked w;
       log := log w ++ [(lvl, msg)]; rng := rng w; me := me w;
       bot_username := bot_username w |}).

(** Modelled from the spec: [fsm.Conversation] is not among these files.
    [ask] sends a message, and fails with [UserIsBlockedError] while the
    account has blocked the peer; [get_response] waits for the next
    message of the peer, and with none coming the wait does not end
    ([NoReply]). *)
Definition ask (s : string) : M World unit :=
  fun w => if blocked w then (Raise UserIsBlockedError, w)
           else (Ok tt, send (SentText s) w).

Definition ask_media (path media_type : string) : M World unit :=
  fun w => if blocked w then (Raise UserIsBlockedError, w)
           else (Ok tt, send (SentMedia path media_type) w).

Definition get_response : M World Message :=
  fun w => match inbox w with
           | m :: rest =>
               (Ok m,
                {| inbox := rest; outbox := outbox w; blocked := blocked w;
                   log := log w; rng := rng w; me := me w;
                   bot_username := bot_username w |})
           | [] => (Raise NoReply, w)
           end.

(** [await self._app(UnblockRequest('@BotFather'))] *)
Definition unblock (peer : string) : M World unit :=
  modify (fun w =>
    {| inbox := inbox w; outbox := outbox w ++ [Unblocked peer];
       blocked := false; log := log w; rng := rng w; me := me w;
       bot_username := bot_username w |}).

Definition random_id (length : nat) : M World string :=
  fun w => let '(s, r) := Utils.random_id length (rng w) in
           (Ok s,
            {| inbox := inbox w; outbox := outbox w; blocked := blocked w;
               log := log w; rng := r; me := me w;
               bot_username := bot_username w |}).

Definition set_bot_username (s : string) : M World unit :=
  modify (fun w =>
    {| inbox := inbox w; outbox := outbox w; blocked := blocked w;
       log := log w; rng := rng w; me := me w;
       bot_username := Some s |}).

Definition is_blocked_error (e : exn) : bool :=
  match e with UserIsBlockedError => true | _ => false end.

(** [time.sleep] only lets time pass. *)
Definition sleep : M World unit := ret tt.

(** The opening of both scripts. *)
Definition cancel : M World unit :=
  (exec try_except (ask "/cancel") is_blocked_error
          (fun _ => unblock "@BotFather") in
   exec get_response in
   ret tt)%py.

(** *** _create_bot *)

(** The script up to the reply to the chosen username: that username and
    the reply. *)
Definition request_username : M World (string * Message) :=
  (exec logger INFO "Starting the process of creating a new bot..." in
   exec cancel in
   exec ask "/newbot" in
   let! response := get_response in
   exec (if negb (forallb (fun phrase =>
                     negb (PyStr.contains phrase (text response)))
                   ["That I cannot do."; "Sorry"])
         then
           exec logger ERROR
             "An error occurred while creating the bot. @BotFather's response:" in
           exec logger ERROR (text response) in
           if PyStr.contains "too many attempts" (text response) then
             let! seconds :=
               lift (PyStr.index_last2 (PyStr.split (text response))) in
             logger ERROR
               ("Please try again after " +:+ seconds +:+ " seconds")
           else ret tt
         else ret tt) in
   let! name := (fun w => (Utils.get_display_name (me w), w)) in
   exec ask ("Teagram UserBot of " +:+ PyStr.take 45 name) in
   exec get_response in
   let! rid := random_id 6 in
   let bot_username := "teagram_" +:+ rid +:+ "_bot" in
   exec ask bot_username in
   exec sleep in
   let! response := get_response in
   ret (bot_username, response))%py.

(** [search = re.search(primary, text)], and the fallback pattern only
    when that is [None]; the value is [search.group(0)]. *)
Definition scrape_token (text : string) : option string :=
  match search_code text with
  | Some m => Some m
  | None => search_token text
  end.

(** The script after the token has been scraped. *)
Definition configure_bot (bot_username token : string)
  : M World (option string) :=
  (exec ask "/setuserpic" in
   exec get_response in
   exec ask ("@" +:+ bot_username) in
   exec get_response in
   exec ask_media "assets/bot_avatar.png" "photo" in
   exec get_response in
   exec ask "/setinline" in
   exec get_response in
   exec ask ("@" +:+ bot_username) in
   exec get_response in
   exec ask "teagram-command" in
   exec get_response in
   exec logger SUCCESS "Bot created successfully" in
   ret (Some token))%py.

(** The token, or [None]. *)
Definition _create_bot : M World (option string) :=
  (let! '(bot_username, response) := request_username in
   match scrape_token (text response) with
   | None =>
       exec logger ERROR
         "An error occurred while creating the bot. @BotFather's response:" in
       exec logger ERROR (text response) in
       ret None
   | Some token => configure_bot bot_username token
   end)%py.

(** *** _revoke_token *)

(** What the function returns: [None] (from [logger.error]), [False], or
    a string. *)
Inductive Revoked : Type :=
  | RNone
  | RFalse
  | RStr (s : string).

(** The inner loop over the buttons of one row. *)
Definition scan_row (row : list string) : M World (flow Revoked) :=
  for_each row (fun button =>
    if search_bot button then
      (exec set_bot_username button in
       exec ask button in
       ret Break)%py
    else ret Next).

(** The outer loop: [found] is true exactly when the inner loop was left
    by its [break]; the [else] belongs to [if found], inside the loop. *)
Definition scan_rows (rows : list (list string)) : M World (flow Revoked) :=
  for_each rows (fun row =>
    (let! inner := scan_row row in
     let found := match inner with Break => true | _ => false end in
     if found then ret Break
     else ret (Return RFalse))%py).

Definition _revoke_token : M World Revoked :=
  (exec cancel in
   exec ask "/revoke" in
   let! response := get_response in
   if PyStr.contains "/newbot" (text response) then
     exec logger ERROR "No created bots" in
     ret RNone
   else
     let! response :=
       (match reply_markup response with
        | Some _ => ret response
        | None =>
            exec logger WARNING "reply_markup not found" in
            exec sleep in
            get_response
        end) in
     let! rows :=
       (match reply_markup response with
        | Some rows => ret rows
        | None => raise AttributeError
        end) in
     let! left := scan_rows rows in
     match left with
     | Return r => ret r
     | _ =>
         exec sleep in
         let! response := get_response in
         match search_token (text response) with
         | Some token => ret (RStr token)
         | None =>
             let! token :=
               lift (PyStr.index_last (PyStr.split (text response))) in
             ret (RStr token)
         end
     end)%py.

End TokenManager.

(** ** teagram/modules/config.py *)

(** Modelled from the spec: the [Config] class of the [types] module is not
    among these files; it is the config descriptor of a plugin, which holds
    for every option its default, its documentation and its live value, and
    which is read like a dict of the live values. *)
Module Config.
Record ConfigValue : Type := {
  default_value : PyVal;
  doc : PyVal;
  value : PyVal
}.

(** The options in their order of declaration. *)
Definition t : Type := list (string * ConfigValue).

Definition lookup (c : t) (key : string) : option ConfigValue :=
  option_map snd (List.find (fun kv => String.eqb (fst kv) key) c).

Definition get_default (c : t) (key : string) : result PyVal :=
  match lookup c key with
  | Some cv => Ok (default_value cv)
  | None => Raise (KeyError key)
  end.

Definition get_doc (c : t) (key : string) : result PyVal :=
  match lookup c key with
  | Some cv => Ok (doc cv)
  | None => Raise (KeyError key)
  end.

(** [c.get(key)] *)
Definition get (c : t) (key : string) : PyVal :=
  match lookup c key with
  | Some cv => value cv
  | None => VNone
  end.

(** [c[key] = v] *)
Fixpoint setitem (c : t) (key : string) (v : PyVal) : t :=
  match c with
  | [] =>
      [(key, {| default_value := VNone; doc := VNone; value := v |})]
  | (k, cv) :: rest =>
      if String.eqb k key
      then (k, {| default_value := default_value cv; doc := doc cv;
                  value := v |}) :: rest
      else (k, cv) :: setitem rest key v
  end.

Definition keys (c : t) : list string := List.map fst c.
Definition items (c : t) : list (string * PyVal) :=
  List.map (fun kv => (fst kv, value (snd kv))) c.
End Config.

Module ConfigMod.

(** *** strtobool and validate *)

Definition true_words : list string := ["y"; "yes"; "t"; "true"; "on"; "1"].
Definition false_words : list string := ["n"; "no"; "f"; "false"; "off"; "0"].

(** [val in words] *)
Definition member (val : string) (words : list string) : bool :=
  existsb (String.eqb val) words.

Definition strtobool (val : string) : result Z :=
  let val := PyStr.lower val in
  if member val true_words then Ok 1%Z
  else if member val false_words then Ok 0%Z
  else Raise (ValueError "invalid truth value %r" val).

(** Both [except:] clauses are bare. *)
Definition validate `{PythonRuntime} (attribute : PyVal) : PyVal :=
  match attribute with
  | VStr s =>
      match int_of_str s with
      | Ok z => VInt z
      | Raise _ =>
          match strtobool s with
          | Ok z => VBool (negb (z =? 0)%Z)
          | Raise _ => attribute
          end
      end
  | _ => attribute
  end.

(** *** The objects the handlers work on *)

(** A non-routine member of a plugin object: a config descriptor, by the
    identity of the object, the database, or a plain value. *)
Inductive Attr : Type :=
  | AConfig (id : nat)
  | ADatabase
  | AValue (v : PyVal).

(** A plugin object: its name and what
    [getmembers(module, lambda a: not isroutine(a))] lists for it, in
    the order of the names. *)
Record Plugin : Type := {
  name : string;
  members : list (string * Attr)
}.

(** What the handlers inherit from [loader.Module] and the interpreter:
    the lookup of a plugin by a name, and the length of [str(module)]. *)
Class Loader : Type := {
  lookup : list Plugin -> string -> Plugin;
  str_len : Plugin -> nat
}.

Inductive Action : Type :=
  | CallbackData (data : string)
  | SwitchInlineQueryCurrentChat (query : string).

Record InlineKeyboardButton : Type := {
  label : string;
  action : Action
}.

Definition InlineKeyboardMarkup : Type := list (list InlineKeyboardButton).

Record CallbackQuery : Type := {
  from_user_id : Z;
  data : string;
  inline_message_id : string
}.

(** What a handler does to the outside. *)
Inductive Effect : Type :=
  | Answer (text : string)
  | EditMessageText (inline_message_id text : string)
      (reply_markup : InlineKeyboardMarkup).

(** An entry of [self.bot.cfg]. *)
Record PendingEdit : Type := {
  edit_cfg : Attr;
  edit_attr : string;
  edit_mod : Plugin
}.

(** The fields of the [ConfigMod] instance. [False] is [None] in
    [pending_module]; [config_db] is absent until [get_attrs] sets it. *)
Record Self : Type := {
  me : option Z;
  config : Attr;
  config_db : option Attr;
  pending : PyVal;
  pending_id : string;
  pending_module : option Plugin;
  _def : bool
}.

(** The instance and the objects it shares with the rest of the bot. *)
Record World : Type := {
  self : Self;
  strings : gmap string string;
  (** [self.manager.modules] *)
  modules : list Plugin;
  (** the config descriptors, by identity *)
  configs : gmap nat Config.t;
  db : Database.t;
  (** [self.bot.cfg], the shared pending-edit map *)
  bot_cfg : gmap string PendingEdit;
  rng : Rng;
  effects : list Effect
}.

Definition DEFAULT_ATTRS : list string :=
  ["manager"; "author"; "bot"; "callback_handlers";
   "command_handlers"; "inline_handlers"; "bot_username";
   "message_handlers"; "name"; "version"; "watcher_handlers";
   "boot_time"; "client"; "_client"; "loops"].

(** **** Field updates *)

Definition with_self (f : Self -> Self) (w : World) : World :=
  {| self := f (self w); strings := strings w; modules := modules w;
     configs := configs w; db := db w; bot_cfg := bot_cfg w;
     rng := rng w; effects := effects w |}.

Definition set_config (c : Attr) (d : Attr) (s : Self) : Self :=
  {| me := me s; config := c; config_db := Some d; pending := pending s;
     pending_id := pending_id s; pending_module := pending_module s;
     _def := _def s |}.

Definition set_pending (p : PyVal) (pid : string) (pm : option Plugin)
    (s : Self) : Self :=
  {| me := me s; config := config s; config_db := config_db s;
     pending := p; pending_id := pid; pending_module := pm;
     _def := _def s |}.

Definition set_def (b : bool) (s : Self) : Self :=
  {| me := me s; config := config s; config_db := config_db s;
     pending := pending s; pending_id := pending_id s;
     pending_module := pending_module s; _def := b |}.

Definition emit (e : Effect) : M World unit :=
  modify (fun w =>
    {| self := self w; strings := strings w; modules := modules w;
       configs := configs w; db := db w; bot_cfg := bot_cfg w;
       rng := rng w; effects := effects w ++ [e] |}).

Definition random_id (length : nat) : M World string :=
  fun w => let '(s, r) := Utils.random_id length (rng w) in
           (Ok s,
            {| self := self w; strings := strings w; modules := modules w;
               configs := configs w; db := db w; bot_cfg := bot_cfg w;
               rng := r; effects := effects w |}).

(** [self.strings[key]] *)
Definition string_of (key : string) : M World string :=
  fun w => match strings w !! key with
           | Some s => (Ok s, w)
           | None => (Raise (KeyError key), w)
           end.

(** [await call.answer(text)] *)
Definition answer (text : string) : M World unit := emit (Answer text).

(** The descriptor behind an attribute; anything else has none of the
    methods of a descriptor. *)
Definition the_config (a : Attr) : M World (nat * Config.t) :=
  fun w => match a with
           | AConfig id =>
               match configs w !! id with
               | Some c => (Ok (id, c), w)
               | None => (Raise AttributeError, w)
               end
           | _ => (Raise AttributeError, w)
           end.

Definition store_config (id : nat) (c : Config.t) : M World unit :=
  modify (fun w =>
    {| self := self w; strings := strings w; modules := modules w;
       configs := <[id := c]> (configs w); db := db w;
       bot_cfg := bot_cfg w; rng := rng w; effects := effects w |}).

(** [self.config_db.set(namespace, key, value)] *)
Definition config_db_set (namespace key : string) (v : PyVal)
  : M World unit :=
  modify (fun w =>
    {| self := self w; strings := strings w; modules := modules w;
       configs := configs w; db := Database.set (db w) namespace key v;
       bot_cfg := bot_cfg w; rng := rng w; effects := effects w |}).

Definition bot_cfg_set (key : string) (e : PendingEdit) : M World unit :=
  modify (fun w =>
    {| self := self w; strings := strings w; modules := modules w;
       configs := configs w; db := db w;
       bot_cfg := <[key := e]> (bot_cfg w); rng := rng w;
       effects := effects w |}).

(** A key of a descriptor is a string; any other key is not in it. *)
Definition as_key `{PythonRuntime} (k : PyVal) : M World string :=
  match k with
  | VStr s => ret s
  | _ => raise (KeyError (py_str k))
  end.

(** *** get_attrs *)

Definition is_dunder (key : string) : bool :=
  PyStr.startswith key "__" && PyStr.endswith key "__".

(** The first two members that are left are taken for the descriptor
    and the database, whatever they are. An empty list is returned as
    the value [[]]. *)
Definition get_attrs (module : Plugin) : M World Attr :=
  let attrs :=
    List.filter (fun kv => negb (is_dunder (fst kv))
                           && negb (member (fst kv) DEFAULT_ATTRS))
                (members module) in
  match attrs with
  | (_, first) :: (_, second) :: _ =>
      (exec modify (with_self (set_config first second)) in
       ret first)%py
  | _ => ret (AValue (VList []))
  end.

(** [attrs and isinstance(attrs, Config)] *)
Definition is_filled_config (a : Attr) : M World bool :=
  gets (fun w =>
    match a with
    | AConfig id =>
        match configs w !! id with
        | Some (_ :: _) => true
        | _ => false
        end
    | _ => false
    end).

(** [sorted(items, key=key)]: the sort is stable. *)
Fixpoint insert_by {A} (key : A -> nat) (x : A) (l : list A) : list A :=
  match l with
  | [] => [x]
  | y :: rest =>
      if (key x <=? key y)%nat then x :: l
      else y :: insert_by key x rest
  end.
Definition sorted_by {A} (key : A -> nat) (l : list A) : list A :=
  List.fold_right (insert_by key) [] l.

(** Every third button the row is added to the keyboard and the list of
    buttons is cleared. *)
Definition flush_row (count : nat) (buttons : list InlineKeyboardButton)
    (keyboard : InlineKeyboardMarkup)
  : list InlineKeyboardButton * InlineKeyboardMarkup :=
  if (count mod 3 =? 0)%nat then ([], keyboard ++ [buttons])
  else (buttons, keyboard).

(** The buttons that are left after the loop make the last row. *)
Definition last_row (buttons : list InlineKeyboardButton)
    (keyboard : InlineKeyboardMarkup) : InlineKeyboardMarkup :=
  match buttons with
  | [] => keyboard
  | _ => keyboard ++ [buttons]
  end.

(** The condition every handler starts with:
    [call.from_user.id != self.me]. *)
Definition not_owner (call : CallbackQuery) : M World bool :=
  gets (fun w =>
    match me (self w) with
    | Some owner => negb (from_user_id call =? owner)%Z
    | None => true
    end).

Definition reject : M World unit :=
  (let! text := string_of "noowner" in answer text)%py.

(** [self.pending, self.pending_id, self.pending_module =
     False, utils.random_id(50), False] *)
Definition reset_pending : M World unit :=
  (let! pid := random_id 50 in
   modify (with_self (set_pending (VBool false) pid None)))%py.

Definition newline : string := String "010"%char EmptyString.

Definition title : string := "☕ <b>Teagram modules | Config</b> ".

(** *** config_callback_handler (send_cfg) *)

Section Handlers.
Context `{PythonRuntime} `{Loader}.

(** The loop over the sorted modules. *)
Fixpoint module_buttons (call : CallbackQuery) (mods : list Plugin)
    (count : nat) (buttons : list InlineKeyboardButton)
    (keyboard : InlineKeyboardMarkup)
  : M World (list InlineKeyboardButton * InlineKeyboardMarkup) :=
  match mods with
  | [] => ret (buttons, keyboard)
  | module :: rest =>
      (let name := name module in
       let! found := gets (fun w => lookup (modules w) name) in
       let! attrs := get_attrs found in
       let! filled := is_filled_config attrs in
       if negb filled then
         module_buttons call rest count buttons keyboard
       else if PyStr.contains "config" (PyStr.lower name) then
         module_buttons call rest count buttons keyboard
       else
         let data := "mod_" +:+ name +:+ "|" +:+ inline_message_id call in
         let buttons :=
           buttons ++ [{| label := name; action := CallbackData data |}] in
         let '(buttons, keyboard) := flush_row count buttons keyboard in
         module_buttons call rest (count + 1) buttons keyboard)%py
  end.

Definition config_callback_handler (call : CallbackQuery) : M World unit :=
  (let! stranger := not_owner call in
   if stranger then reject
   else
     let inline_keyboard : InlineKeyboardMarkup := [] in
     let! mods := gets modules in
     exec emit (EditMessageText (inline_message_id call) title
                  inline_keyboard) in
     let! pending_now := gets (fun w => pending (self w)) in
     exec (if truthy pending_now then reset_pending else ret tt) in
     let! '(buttons, inline_keyboard) :=
       module_buttons call (sorted_by str_len mods) 1 [] inline_keyboard in
     let inline_keyboard := last_row buttons inline_keyboard in
     emit (EditMessageText (inline_message_id call) title
             inline_keyboard))%py.

(** *** answer_callback_handler (mod) *)

(** The callback data of an attribute button:
    [f'ch_attr_{mod.name.split(".")[-1]}_{name}']. *)
Definition short_name (module_name : string) : string :=
  List.last (PyStr.split_on "." module_name) "".

Definition ch_attr_data (module_name attribute : string) : string :=
  "ch_attr_" +:+ short_name module_name +:+ "_" +:+ attribute.

(** [for name in attrs]: the keys of a descriptor or of a dict, the
    characters of a string, the items of a list or tuple (none for the
    empty list that [get_attrs] returns), each under the name that the
    f-string of the callback data gives it. The buttons of a string, a
    list or a tuple are never sent, [attrs.items()] raising for these.
    A value without items cannot be iterated, and neither can the
    database, which has [get] and [set] only. *)
Definition iter_attrs (attrs : Attr) : M World (list string) :=
  match attrs with
  | AConfig _ =>
      (let! '(_, c) := the_config attrs in ret (Config.keys c))%py
  | AValue (VStr s) => ret (Utils.chars_of s)
  | AValue (VList items) | AValue (VTuple items) =>
      ret (List.map py_str items)
  | AValue (VDict entries) => ret (List.map fst entries)
  | AValue VNone | AValue (VBool _) | AValue (VInt _) | ADatabase =>
      raise TypeError
  end.

(** [attrs.items()]: the pairs of a descriptor or of a dict; nothing
    else has the method. *)
Definition attr_items (attrs : Attr) : M World (list (string * PyVal)) :=
  match attrs with
  | AValue (VDict entries) => ret entries
  | _ => (let! '(_, c) := the_config attrs in ret (Config.items c))%py
  end.

Fixpoint attribute_buttons (module_name : string) (names : list string)
    (count : nat) (buttons : list InlineKeyboardButton)
    (keyboard : InlineKeyboardMarkup)
  : list InlineKeyboardButton * InlineKeyboardMarkup :=
  match names with
  | [] => (buttons, keyboard)
  | name :: rest =>
      let buttons :=
        buttons ++ [{| label := name;
                       action := CallbackData
                                   (ch_attr_data module_name name) |}] in
      let '(buttons, keyboard) := flush_row count buttons keyboard in
      attribute_buttons module_name rest (count + 1) buttons keyboard
  end.

(** [sep.join(parts)] *)
Fixpoint join (sep : string) (parts : list string) : string :=
  match parts with
  | [] => ""
  | [p] => p
  | p :: rest => p +:+ sep +:+ join sep rest
  end.

(** [k, v = item]: a tuple or a list of two items, a string of two
    characters, or a dict of two keys. *)
Definition unpack_pair (item : PyVal) : result (PyVal * PyVal) :=
  match item with
  | VTuple [k; v] | VList [k; v] => Ok (k, v)
  | VStr (String k (String v EmptyString)) =>
      Ok (VStr (String k EmptyString), VStr (String v EmptyString))
  | VDict [(k, _); (v, _)] => Ok (VStr k, VStr v)
  | VTuple _ | VList _ | VStr _ | VDict _ =>
      Raise (ValueError "wrong number of values to unpack" "")
  | VNone | VBool _ | VInt _ => Raise TypeError
  end.

(** [f"{k}: {v}" for k, v in value] *)
Fixpoint pairs_text (items : list PyVal) : result (list string) :=
  match items with
  | [] => Ok []
  | item :: rest =>
      match unpack_pair item with
      | Ok (k, v) =>
          match pairs_text rest with
          | Ok l => Ok ((py_str k +:+ ": " +:+ py_str v) :: l)
          | Raise e => Raise e
          end
      | Raise e => Raise e
      end
  end.

(** One line of the attribute list. *)
Definition attribute_line (key : string) (value : PyVal)
  : M World string :=
  (let! formated :=
     match value with
     | VTuple items =>
         let! parts := lift (pairs_text items) in ret (join ", " parts)
     | _ => ret (py_str value)
     end in
   let! shown :=
     (if String.eqb formated "" then string_of "nospec"
      else ret formated) in
   ret ("➡ <i>" +:+ type_name value +:+ "</i> <b>" +:+ key
        +:+ "</b>: <code>" +:+ shown +:+ "</code>"))%py.

Fixpoint attribute_lines (items : list (string * PyVal))
  : M World (list string) :=
  match items with
  | [] => ret []
  | (key, value) :: rest =>
      (let! line := attribute_line key value in
       let! lines := attribute_lines rest in
       ret (line :: lines))%py
  end.

Definition answer_callback_handler (call : CallbackQuery) : M World unit :=
  (let! stranger := not_owner call in
   if stranger then reject
   else
     let data := data call in
     let keyboard : InlineKeyboardMarkup := [] in
     let! mod_ := gets (fun w => lookup (modules w) data) in
     let! attrs := get_attrs mod_ in
     let! names := iter_attrs attrs in
     let '(buttons, keyboard) :=
       attribute_buttons (name mod_) names 1 [] keyboard in
     let keyboard := last_row buttons keyboard in
     let! back := string_of "back" in
     let keyboard :=
       keyboard ++ [[{| label := back;
                        action := CallbackData "send_cfg" |}]] in
     let! items := attr_items attrs in
     let! attributes := attribute_lines items in
     let attributes_text := join newline attributes in
     emit (EditMessageText (inline_message_id call)
             ("<b>⚙ " +:+ name mod_ +:+ "</b>" +:+ newline +:+ newline
              +:+ attributes_text)
             keyboard))%py.

(** *** change_attribute_callback_handler (ch_attr_) *)

(** [data = call.data.replace('ch_attr_', '').split('_')], then
    [data[0]] and [data[1]]. *)
Definition parse_ch_attr (data : string) : result (string * string) :=
  match PyStr.split_on "_" (PyStr.replace "ch_attr_" "" data) with
  | module :: attribute :: _ => Ok (module, attribute)
  | _ => Raise IndexError
  end.

Definition change_attribute_callback_handler (call : CallbackQuery)
  : M World unit :=
  (let! stranger := not_owner call in
   if stranger then reject
   else
     let! '(module, attribute) := lift (parse_ch_attr (data call)) in
     let! module := gets (fun w => lookup (modules w) module) in
     let! attrs := get_attrs module in
     let! '(_, shown) := the_config attrs in
     let value := Config.get shown attribute in
     let! cfg := gets (fun w => config (self w)) in
     let! '(_, c) := the_config cfg in
     let! docs := lift (Config.get_doc c attribute) in
     let! default := lift (Config.get_default c attribute) in
     let! rid := random_id 3 in
     exec modify (with_self (set_pending (VStr attribute)
                               (PyStr.lower rid) (Some module))) in
     let! pid := gets (fun w => pending_id (self w)) in
     exec bot_cfg_set pid {| edit_cfg := cfg; edit_attr := attribute;
                             edit_mod := module |} in
     let! ch := string_of "ch" in
     let! def := string_of "def" in
     let! back := string_of "back" in
     let keyboard : InlineKeyboardMarkup :=
       [[ {| label := "✒ " +:+ ch;
             action := SwitchInlineQueryCurrentChat (pid +:+ " ") |};
          {| label := "↪ " +:+ def;
             action := CallbackData "change_def" |};
          {| label := back; action := CallbackData "send_cfg" |} ]] in
     let! attr_label := string_of "attr" in
     let! value_label := string_of "value" in
     let! value_text :=
       (if String.eqb (py_str value) "" then string_of "nospec"
        else ret (py_str value)) in
     let! def_label := string_of "def" in
     let! default_text :=
       (if truthy default then ret (py_str default)
        else string_of "nospec") in
     emit (EditMessageText (inline_message_id call)
             ("⚙ <b>" +:+ name module +:+ "</b>" +:+ newline
              +:+ "➡ <b>" +:+ attr_label +:+ "</b>: <code>" +:+ attribute
              +:+ "</code>" +:+ newline
              +:+ "➡ <b>" +:+ value_label +:+ "</b>: <code>"
              +:+ value_text +:+ "</code>" +:+ newline
              +:+ "↪ <b>" +:+ def_label +:+ "</b>: <code>"
              +:+ default_text +:+ "</code>" +:+ newline +:+ newline
              +:+ (if truthy docs
                   then "❔ <code>" +:+ py_str docs +:+ "</code>"
                   else ""))
             keyboard))%py.

(** *** _change_callback_handler (change) *)

Definition _change_callback_handler (call : CallbackQuery)
  : M World unit :=
  (let! stranger := not_owner call in
   if stranger then reject
   else if PyStr.contains "def" (data call) then
     let! cfg := gets (fun w => config (self w)) in
     let! '(id, c) := the_config cfg in
     let! pending_now := gets (fun w => pending (self w)) in
     let! key := as_key pending_now in
     let! attr := lift (Config.get_default c key) in
     exec store_config id (Config.setitem c key attr) in
     let! store := gets (fun w => config_db (self w)) in
     exec (match store with
           | Some ADatabase => ret tt
           | _ => raise AttributeError
           end) in
     let! module := gets (fun w => pending_module (self w)) in
     let! module_name :=
       (match module with
        | Some m => ret (name m)
        | None => raise AttributeError
        end) in
     exec config_db_set module_name key attr in
     exec reset_pending in
     exec modify (with_self (set_def false)) in
     let! text := string_of "chdef" in
     answer text
   else ret tt)%py.

End Handlers.

End ConfigMod.

(** ** Vocabulary of the statements *)

Module Spec.

(** *** Letter case *)

Definition is_lower_letter (c : ascii) : bool := PyStr.in_range 97 122 c.

(** The capital of a small letter. *)
Definition capital (c : ascii) : ascii :=
  ascii_of_N (PyStr.code c - 32).

(** [spelled word s]: [s] is [word] with some of its letters turned
    into capitals. *)
Inductive spelled : string -> string -> Prop :=
  | spelled_end : spelled "" ""
  | spelled_same c word s :
      spelled word s -> spelled (String c word) (String c s)
  | spelled_capital c word s :
      is_lower_letter c = true ->
      spelled word s -> spelled (String c word) (String (capital c) s).

(** Small letters and digits only. *)
Fixpoint plain (word : string) : bool :=
  match word with
  | EmptyString => true
  | String c rest =>
      (is_lower_letter c || PyStr.is_digit c) && plain rest
  end.

(** [s] is one of [words] in some letter case. *)
Definition any_case (words : list string) (s : string) : Prop :=
  exists word, In word words /\ spelled word s.

(** *** Fields of a string *)

Fixpoint has_char (c : ascii) (s : string) : bool :=
  match s with
  | EmptyString => false
  | String x rest => Ascii.eqb x c || has_char c rest
  end.

Fixpoint count_char (c : ascii) (s : string) : nat :=
  match s with
  | EmptyString => O
  | String x rest => (if Ascii.eqb x c then 1 else 0) + count_char c rest
  end.

(** [s] cut at its first [c]. *)
Fixpoint until_char (c : ascii) (s : string) : string :=
  match s with
  | EmptyString => EmptyString
  | String x rest =>
      if Ascii.eqb x c then EmptyString else String x (until_char c rest)
  end.

(** *** The config handlers *)

(** The world after a handler has only answered [text]. *)
Definition answered (text : string) (w : ConfigMod.World) : ConfigMod.World :=
  {| ConfigMod.self := ConfigMod.self w;
     ConfigMod.strings := ConfigMod.strings w;
     ConfigMod.modules := ConfigMod.modules w;
     ConfigMod.configs := ConfigMod.configs w;
     ConfigMod.db := ConfigMod.db w;
     ConfigMod.bot_cfg := ConfigMod.bot_cfg w;
     ConfigMod.rng := ConfigMod.rng w;
     ConfigMod.effects := ConfigMod.effects w ++ [ConfigMod.Answer text] |}.

(** A run from [w] that answered [text] and did nothing else: in
    particular the pending edit, in the instance and in the shared map,
    is as it was. *)
Definition only_answered (text : string) (w : ConfigMod.World)
    (run : result unit * ConfigMod.World) : Prop :=
  run = (Ok tt, answered text w)
  /\ ConfigMod.effects (snd run)
     = ConfigMod.effects w ++ [ConfigMod.Answer text]
  /\ ConfigMod.pending (ConfigMod.self (snd run))
     = ConfigMod.pending (ConfigMod.self w)
  /\ ConfigMod.pending_id (ConfigMod.self (snd run))
     = ConfigMod.pending_id (ConfigMod.self w)
  /\ ConfigMod.pending_module (ConfigMod.self (snd run))
     = ConfigMod.pending_module (ConfigMod.self w)
  /\ ConfigMod.bot_cfg (snd run) = ConfigMod.bot_cfg w
  /\ ConfigMod.self (snd run) = ConfigMod.self w
  /\ ConfigMod.configs (snd run) = ConfigMod.configs w
  /\ ConfigMod.db (snd run) = ConfigMod.db w.

(** The four callback handlers of the config UI: [send_cfg], [mod],
    [ch_attr_] and [change]. *)
Definition callback_handlers `{PythonRuntime} `{ConfigMod.Loader}
  : list (ConfigMod.CallbackQuery -> M ConfigMod.World unit) :=
  [ConfigMod.config_callback_handler;
   ConfigMod.answer_callback_handler;
   ConfigMod.change_attribute_callback_handler;
   ConfigMod._change_callback_handler].

(** *** Characters of a string *)

(** Every character of [s] satisfies [f]. *)
Fixpoint all_chars (f : ascii -> bool) (s : string) : bool :=
  match s with
  | EmptyString => true
  | String c rest => f c && all_chars f rest
  end.

(** [s] does not begin with a blank. *)
Definition no_leading_blank (s : string) : bool :=
  match s with
  | EmptyString => true
  | String c _ => negb (PyStr.isspace c)
  end.

(** *** The settings store after the language default was written *)

Definition healed (w : Utils.World) : Utils.World :=
  {| Utils.db :=
       Database.set (Utils.db w) "teagram.loader" "lang" (VStr "en");
     Utils.files := Utils.files w |}.

(** *** Frames of the config module *)

(** A member that [get_attrs] keeps: no dunder name, no reserved name. *)
Definition eligible (kv : string * ConfigMod.Attr) : bool :=
  negb (ConfigMod.is_dunder (fst kv))
  && negb (ConfigMod.member (fst kv) ConfigMod.DEFAULT_ATTRS).

(** [w'] differs from [w] at most in [self.config] and [self.config_db]. *)
Definition same_but_config (w w' : ConfigMod.World) : Prop :=
  ConfigMod.me (ConfigMod.self w') = ConfigMod.me (ConfigMod.self w)
  /\ ConfigMod.pending (ConfigMod.self w')
     = ConfigMod.pending (ConfigMod.self w)
  /\ ConfigMod.pending_id (ConfigMod.self w')
     = ConfigMod.pending_id (ConfigMod.self w)
  /\ ConfigMod.pending_module (ConfigMod.self w')
     = ConfigMod.pending_module (ConfigMod.self w)
  /\ ConfigMod._def (ConfigMod.self w') = ConfigMod._def (ConfigMod.self w)
  /\ ConfigMod.strings w' = ConfigMod.strings w
  /\ ConfigMod.modules w' = ConfigMod.modules w
  /\ ConfigMod.configs w' = ConfigMod.configs w
  /\ ConfigMod.db w' = ConfigMod.db w
  /\ ConfigMod.bot_cfg w' = ConfigMod.bot_cfg w
  /\ ConfigMod.rng w' = ConfigMod.rng w
  /\ ConfigMod.effects w' = ConfigMod.effects w.

(** The button of an attribute in the list of a module. *)
Definition attribute_button (module_name attribute : string)
  : ConfigMod.InlineKeyboardButton :=
  {| ConfigMod.label := attribute;
     ConfigMod.action :=
       ConfigMod.CallbackData (ConfigMod.ch_attr_data module_name attribute) |}.

(** [first] and [second] are, under the names [k0] and [k1], the first
    two members of [module] that have neither a dunder nor a reserved
    name: every member before them and between them has one. *)
Definition skipped (kv : string * ConfigMod.Attr) : Prop :=
  ConfigMod.is_dunder (fst kv) = true
  \/ In (fst kv) ConfigMod.DEFAULT_ATTRS.

Definition kept (key : string) : Prop :=
  ConfigMod.is_dunder key = false /\ ~ In key ConfigMod.DEFAULT_ATTRS.

Definition first_two (module : ConfigMod.Plugin)
    (k0 : string) (first : ConfigMod.Attr)
    (k1 : string) (second : ConfigMod.Attr) : Prop :=
  exists before between after,
    ConfigMod.members module
    = before ++ (k0, first) :: between ++ (k1, second) :: after
    /\ Forall skipped before /\ Forall skipped between
    /\ kept k0 /\ kept k1.

(** *** The two token patterns *)

(** [tagged text pre m post]: [m] stands in [text] between an opening and
    a closing tag and holds no line break, the one character that [.]
    does not match. *)
Definition tagged (text pre m post : string) : Prop :=
  text = pre +:+ "<code>" +:+ m +:+ "</code>" +:+ post
  /\ has_char "010" m = false.

(** What [re.search] finds for [(?<=<code>)(.*?)(?=</code>)]: of all the
    places where the pattern matches the leftmost one, and there, the
    quantifier being lazy, the shortest match. *)
Definition tag_match (text m : string) : Prop :=
  exists pre post,
    tagged text pre m post
    /\ forall pre' m' post',
         tagged text pre' m' post' ->
         (String.length pre < String.length pre')%nat
         \/ (String.length pre = String.length pre'
             /\ (String.length m <= String.length m')%nat).

Definition no_tag_match (text : string) : Prop :=
  forall pre m post, ~ tagged text pre m post.

(** The characters of [[0-9a-zA-Z_-]]. *)
Definition token_alphabet : string :=
  "0123456789abcdefghijklmnopqrstuvwxyzABCDEFGHIJKLMNOPQRSTUVWXYZ_-".

(** [m] is one digit or more, a colon, and 35 characters of the
    alphabet. *)
Definition raw_token (m : string) : Prop :=
  exists number secret,
    m = number +:+ ":" +:+ secret
    /\ number <> ""
    /\ all_chars (fun c => has_char c "0123456789") number = true
    /\ String.length secret = 35%nat
    /\ all_chars (fun c => has_char c token_alphabet) secret = true.

Definition raw (text pre m post : string) : Prop :=
  text = pre +:+ m +:+ post /\ raw_token m.

(** What [re.search] finds for [\d{1,}:[0-9a-zA-Z_-]{35}]: the match at
    the leftmost place that has one. A match is fixed by its place, the
    digits running up to the colon, so that nothing is left to the
    greedy quantifier. *)
Definition raw_match (text m : string) : Prop :=
  exists pre post,
    raw text pre m post
    /\ forall pre' m' post',
         raw text pre' m' post' ->
         (String.length pre <= String.length pre')%nat.

Definition no_raw_match (text : string) : Prop :=
  forall pre m post, ~ raw text pre m post.

End Spec.

(** ** Sample inputs *)

Module Samples.

(** A generator whose draws are 0, 1, 2, ... *)
Definition counting : Rng := {| draws := fun n => n; cursor := 0 |}.

Definition plain_message (t : string) : TokenManager.Message :=
  {| TokenManager.text := t; TokenManager.reply_markup := None |}.

(** A conversation with BotFather given by its replies. *)
Definition conversation (replies : list TokenManager.Message)
  : TokenManager.World :=
  {| TokenManager.inbox := replies;
     TokenManager.outbox := [];
     TokenManager.blocked := false;
     TokenManager.log := [];
     TokenManager.rng := counting;
     TokenManager.me := Utils.User (Some "Alice") None;
     TokenManager.bot_username := None |}.

Definition six_replies : list TokenManager.Message :=
  List.map plain_message
    ["Choose a bot."; "Send me the photo."; "Success!";
     "Choose a bot."; "Send me the placeholder."; "Success!"].

Definition opening : list TokenManager.Message :=
  List.map plain_message
    ["No active command."; "Alright, a new bot."; "Good. Now a username."].

(** The reply carries the token between the tags. *)
Definition creation_tagged : TokenManager.World :=
  conversation
    (opening
     ++ [plain_message
           "Done! <code>123456:ABCDEFGHIJKLMNOPQRSTUVWXYZabcdef012</code>"]
     ++ six_replies).

(** The reply quotes an old token bare and carries the new one between
    the tags. *)
Definition creation_both : TokenManager.World :=
  conversation
    (opening
     ++ [plain_message
           "Not 1:ABCDEFGHIJKLMNOPQRSTUVWXYZabcdef012 but <code>987654:zyxwvutsrqponmlkjihgfedcba_-ZYXWVUT</code>"]
     ++ six_replies).

(** The reply carries the bare token. *)
Definition creation_bare : TokenManager.World :=
  conversation
    (opening
     ++ [plain_message
           "Done! Token: 123456:ABCDEFGHIJKLMNOPQRSTUVWXYZabcdef012 keep it"]
     ++ six_replies).

(** The reply carries no token. *)
Definition creation_refused : TokenManager.World :=
  conversation
    (opening ++ [plain_message "This username is already taken."]).

(** BotFather lists the bots on two rows; the bot of the framework is on
    the second. *)
Definition revocation_second_row : TokenManager.World :=
  conversation
    [plain_message "No active command.";
     {| TokenManager.text := "Choose a bot to revoke its token.";
        TokenManager.reply_markup :=
          Some [["@shop_helper_bot"]; ["@teagram_abc123_bot"]] |};
     plain_message "Token revoked: 123456:ABCDEFGHIJKLMNOPQRSTUVWXYZabcdef012"].

(** The paste service answers 200 with a JSON object that has no
    [result]. *)
Definition odd_service : Utils.Network :=
  fun _ _ => Utils.Response 200 (Ok (VDict [("ok", VBool false)])).

(** A runtime: containers print as a mark, every file loads as a pack that
    holds its text, and only digit strings are integers. *)
Definition runtime : PythonRuntime :=
  {| str_container := fun _ => "<container>";
     yaml_safe_load := fun s => Ok (VDict [("text", VStr s)]);
     int_of_str := fun s =>
       match s with
       | "0" => Ok 0%Z
       | "1" => Ok 1%Z
       | _ => Raise (ValueError "invalid literal for int()" s)
       end |}.

(** A plugin with a descriptor of two options, and the world in which the
    owner (user 1000) is editing its [greeting]. *)
Definition greeter_config : Config.t :=
  [("greeting",
    {| Config.default_value := VStr "hello";
       Config.doc := VStr "How to greet";
       Config.value := VStr "good day" |});
   ("times",
    {| Config.default_value := VInt 1;
       Config.doc := VNone;
       Config.value := VInt 3 |})].

Definition greeter : ConfigMod.Plugin :=
  {| ConfigMod.name := "greeter";
     ConfigMod.members :=
       [("__doc__", ConfigMod.AValue (VStr "Greets"));
        ("config", ConfigMod.AConfig 0);
        ("db", ConfigMod.ADatabase);
        ("name", ConfigMod.AValue (VStr "greeter"))] |}.

(** The lookup takes the first plugin whose name occurs in the text. *)
Definition loader : ConfigMod.Loader :=
  {| ConfigMod.lookup := fun mods text =>
       match List.find
               (fun p => PyStr.contains (ConfigMod.name p) text) mods with
       | Some p => p
       | None => {| ConfigMod.name := ""; ConfigMod.members := [] |}
       end;
     ConfigMod.str_len := fun p => String.length (ConfigMod.name p) |}.

Definition editing : ConfigMod.World :=
  {| ConfigMod.self :=
       {| ConfigMod.me := Some 1000%Z;
          ConfigMod.config := ConfigMod.AConfig 0;
          ConfigMod.config_db := Some ConfigMod.ADatabase;
          ConfigMod.pending := VStr "greeting";
          ConfigMod.pending_id := "k3x";
          ConfigMod.pending_module := Some greeter;
          ConfigMod._def := false |};
     ConfigMod.strings :=
       <["noowner" := "You are not the owner"]>
         (<["chdef" := "Default value restored"]> ∅);
     ConfigMod.modules := [greeter];
     ConfigMod.configs := {[ 0%nat := greeter_config ]};
     ConfigMod.db := ∅;
     ConfigMod.bot_cfg :=
       {[ "k3x" := {| ConfigMod.edit_cfg := ConfigMod.AConfig 0;
                      ConfigMod.edit_attr := "greeting";
                      ConfigMod.edit_mod := greeter |} ]};
     ConfigMod.rng := counting;
     ConfigMod.effects := [] |}.

Definition press (user : Z) (data : string) : ConfigMod.CallbackQuery :=
  {| ConfigMod.from_user_id := user;
     ConfigMod.data := data;
     ConfigMod.inline_message_id := "m1" |}.

(** The same world before any attribute was picked, with the texts of the
    language pack. *)
Definition browsing : ConfigMod.World :=
  {| ConfigMod.self :=
       {| ConfigMod.me := Some 1000%Z;
          ConfigMod.config := ConfigMod.AValue VNone;
          ConfigMod.config_db := None;
          ConfigMod.pending := VBool false;
          ConfigMod.pending_id := "";
          ConfigMod.pending_module := None;
          ConfigMod._def := false |};
     ConfigMod.strings :=
       list_to_map
         [("noowner", "You are not the owner");
          ("chdef", "Default value restored");
          ("back", "Back"); ("ch", "Change"); ("def", "Default");
          ("attr", "Attribute"); ("value", "Value");
          ("nospec", "Not specified")];
     ConfigMod.modules := [greeter];
     ConfigMod.configs := {[ 0%nat := greeter_config ]};
     ConfigMod.db := ∅;
     ConfigMod.bot_cfg := ∅;
     ConfigMod.rng := counting;
     ConfigMod.effects := [] |}.

(** A settings store with the language [ru] and the file of its pack. *)
Definition russian : Utils.World :=
  {| Utils.db := Database.set ∅ "teagram.loader" "lang" (VStr "ru");
     Utils.files := {[ "teagram/langpacks/ru.yml" := "name: ru" ]} |}.

(** A settings store with an empty language and no pack file at all. *)
Definition no_packs : Utils.World :=
  {| Utils.db := Database.set ∅ "teagram.loader" "lang" (VStr "");
     Utils.files := ∅ |}.

(** Paste services: one that cannot be reached, one that answers 503, one
    whose body is not JSON, and one that works. *)
Definition unreachable : Utils.Network :=
  fun _ _ => Utils.NoResponse (OtherError "ClientConnectorError").
Definition overloaded : Utils.Network :=
  fun _ _ => Utils.Response 503 (Ok (VDict [])).
Definition garbled : Utils.Network :=
  fun _ _ => Utils.Response 200 (Raise (OtherError "ContentTypeError")).
Definition working : Utils.Network :=
  fun _ _ =>
    Utils.Response 201
      (Ok (VDict [("result", VDict [("key", VStr "abcdef"); ("length", VInt 3)]);
                  ("ok", VBool true)])).

(** A message in a loaded chat, and clients: one that carries out every
    call, one that refuses to edit. *)
Definition hello : Utils.Msg :=
  {| Utils.msg_id := 41%Z; Utils.msg_chat := Some 7%Z;
     Utils.msg_chat_peer := 7%Z |}.
Definition willing : Utils.Client :=
  {| Utils.calls := []; Utils.refuses := fun _ => None;
     Utils.next_id := 42%Z |}.
Definition no_edit : Utils.Client :=
  {| Utils.calls := [];
     Utils.refuses := fun c =>
       match c with
       | Utils.EditMessage _ _ _ _ => Some (OtherError "MessageIdInvalidError")
       | _ => None
       end;
     Utils.next_id := 42%Z |}.

(** Revocations: BotFather knows no bot; the bot of the framework is the
    second button of the first row; the grid never arrives; the grid has
    no row. *)
Definition revocation_no_bots : TokenManager.World :=
  conversation
    [plain_message "No active command.";
     plain_message "You have no bots yet. Use /newbot to create one."].

Definition token_reply : TokenManager.Message :=
  plain_message "Token revoked: 123456:ABCDEFGHIJKLMNOPQRSTUVWXYZabcdef012".

Definition revocation_first_row : TokenManager.World :=
  conversation
    [plain_message "No active command.";
     {| TokenManager.text := "Choose a bot to revoke its token.";
        TokenManager.reply_markup :=
          Some [["@shop_helper_bot"; "@teagram_abc123_bot"];
                ["@teagram_zzz999_bot"]] |};
     token_reply].

Definition revocation_no_grid : TokenManager.World :=
  conversation
    [plain_message "No active command.";
     plain_message "Choose a bot to revoke its token.";
     plain_message "Still loading."].

Definition revocation_empty_grid : TokenManager.World :=
  conversation
    [plain_message "No active command.";
     {| TokenManager.text := "Choose a bot to revoke its token.";
        TokenManager.reply_markup := Some [] |};
     plain_message "Pick one of your bots"].

(** The world of [editing] with no edit pending, and with a plain value
    where the database is expected. *)
Definition idle : ConfigMod.World :=
  {| ConfigMod.self :=
       {| ConfigMod.me := Some 1000%Z;
          ConfigMod.config := ConfigMod.AConfig 0;
          ConfigMod.config_db := Some ConfigMod.ADatabase;
          ConfigMod.pending := VBool false;
          ConfigMod.pending_id := "k3x";
          ConfigMod.pending_module := None;
          ConfigMod._def := false |};
     ConfigMod.strings := ConfigMod.strings editing;
     ConfigMod.modules := [greeter];
     ConfigMod.configs := {[ 0%nat := greeter_config ]};
     ConfigMod.db := ∅;
     ConfigMod.bot_cfg := ∅;
     ConfigMod.rng := counting;
     ConfigMod.effects := [] |}.

Definition no_store : ConfigMod.World :=
  {| ConfigMod.self :=
       {| ConfigMod.me := Some 1000%Z;
          ConfigMod.config := ConfigMod.AConfig 0;
          ConfigMod.config_db := Some (ConfigMod.AValue (VStr "greeter"));
          ConfigMod.pending := VStr "greeting";
          ConfigMod.pending_id := "k3x";
          ConfigMod.pending_module := Some greeter;
          ConfigMod._def := false |};
     ConfigMod.strings := ConfigMod.strings editing;
     ConfigMod.modules := [greeter];
     ConfigMod.configs := {[ 0%nat := greeter_config ]};
     ConfigMod.db := ∅;
     ConfigMod.bot_cfg := ∅;
     ConfigMod.rng := counting;
     ConfigMod.effects := [] |}.

End Samples.

(** * Properties *)

(** ** strtobool *)

Section Strtobool.
Import Spec ConfigMod.

Lemma lower_char_plain (c : ascii) :
  (is_lower_letter c || PyStr.is_digit c) = true -> PyStr.lower_char c = c.
Proof.
  destruct c as [[] [] [] [] [] [] [] []]; vm_compute; congruence.
Qed.

Lemma lower_char_capital (c : ascii) :
  is_lower_letter c = true -> PyStr.lower_char (capital c) = c.
Proof.
  destruct c as [[] [] [] [] [] [] [] []]; vm_compute; congruence.
Qed.

(** A character that lowers to a small letter or a digit is that
    character or the capital of that letter. *)
Lemma lower_char_inv (x : ascii) :
  let c := PyStr.lower_char x in
  (is_lower_letter c || PyStr.is_digit c) = true ->
  x = c \/ (is_lower_letter c = true /\ x = capital c).
Proof.
  destruct x as [[] [] [] [] [] [] [] []]; vm_compute; intros Hc;
    first [ left; reflexivity
          | right; split; reflexivity
          | discriminate Hc ].
Qed.

Lemma spelled_lower (word s : string) :
  plain word = true -> spelled word s -> PyStr.lower s = word.
Proof.
  intros Hplain Hs. induction Hs as [|c word s Hs IH|c word s Hc Hs IH].
  - reflexivity.
  - simpl in Hplain. apply andb_prop in Hplain as [Hc Hrest].
    simpl. rewrite (lower_char_plain c Hc), (IH Hrest). reflexivity.
  - simpl in Hplain. apply andb_prop in Hplain as [_ Hrest].
    simpl. rewrite (lower_char_capital c Hc), (IH Hrest). reflexivity.
Qed.

Lemma lower_spelled (s : string) :
  plain (PyStr.lower s) = true -> spelled (PyStr.lower s) s.
Proof.
  induction s as [|x s IH]; simpl; intros Hplain.
  - constructor.
  - apply andb_prop in Hplain as [Hc Hrest].
    destruct (lower_char_inv x Hc) as [Hx | [Hl Hx]].
    + rewrite <- Hx. apply spelled_same, IH, Hrest.
    + rewrite Hx at 2. apply spelled_capital; [exact Hl | apply IH, Hrest].
Qed.

Lemma member_In (val : string) (words : list string) :
  member val words = true <-> In val words.
Proof.
  unfold member. rewrite existsb_exists. split.
  - intros [w [Hin Heq]]. apply String.eqb_eq in Heq. subst. exact Hin.
  - intros Hin. exists val. split; [exact Hin | apply String.eqb_refl].
Qed.

Lemma words_plain (word : string) :
  In word (true_words ++ false_words) -> plain word = true.
Proof.
  simpl. intros H.
  repeat (destruct H as [<- | H]; [reflexivity |]). destruct H.
Qed.

(** Being a keyword in some letter case is lowering to the keyword. *)
Lemma any_case_lower (words : list string) (s : string) :
  (forall w, In w words -> In w (true_words ++ false_words)) ->
  any_case words s <-> In (PyStr.lower s) words.
Proof.
  intros Hsub. split.
  - intros [word [Hin Hsp]].
    rewrite (spelled_lower word s (words_plain word (Hsub word Hin)) Hsp).
    exact Hin.
  - intros Hin. exists (PyStr.lower s). split; [exact Hin |].
    apply lower_spelled, words_plain, Hsub, Hin.
Qed.

(** The three branches, by the lowered string. *)
Lemma strtobool_by_lower (val : string) :
  (In (PyStr.lower val) true_words -> strtobool val = Ok 1%Z)
  /\ (In (PyStr.lower val) false_words -> strtobool val = Ok 0%Z)
  /\ (~ In (PyStr.lower val) true_words ->
      ~ In (PyStr.lower val) false_words ->
      strtobool val
      = Raise (ValueError "invalid truth value %r" (PyStr.lower val))).
Proof.
  unfold strtobool.
  destruct (member (PyStr.lower val) true_words) eqn:Et;
    [apply member_In in Et | ];
    (destruct (member (PyStr.lower val) false_words) eqn:Ef;
     [apply member_In in Ef | ]).
  - repeat split; try reflexivity; try contradiction.
    intros _. exfalso. revert Et Ef. generalize (PyStr.lower val).
    intros s Hs Hs'. simpl in Hs, Hs'.
    repeat (destruct Hs as [<- | Hs];
            [ repeat (destruct Hs' as [Hs' | Hs']; [discriminate Hs' |]);
              destruct Hs' | ]).
    destruct Hs.
  - repeat split; try reflexivity; try contradiction.
    intros H. apply member_In in H. congruence.
  - repeat split; try reflexivity; try contradiction.
    intros H. apply member_In in H. congruence.
  - repeat split; try reflexivity.
    + intros H. apply member_In in H. congruence.
    + intros H. apply member_In in H. congruence.
Qed.

Lemma true_words_known (w : string) :
  In w true_words -> In w (true_words ++ false_words).
Proof. intros Hw. apply in_or_app. left. exact Hw. Qed.

Lemma false_words_known (w : string) :
  In w false_words -> In w (true_words ++ false_words).
Proof. intros Hw. apply in_or_app. right. exact Hw. Qed.

(** C1. [strtobool] returns 1 for [y], [yes], [t], [true], [on], [1] in
    any letter case, 0 for [n], [no], [f], [false], [off], [0] in any
    letter case, and raises [ValueError] for every other string. *)
Theorem strtobool_keywords (val : string) :
  (any_case true_words val -> strtobool val = Ok 1%Z)
  /\ (any_case false_words val -> strtobool val = Ok 0%Z)
  /\ (~ any_case true_words val -> ~ any_case false_words val ->
      strtobool val
      = Raise (ValueError "invalid truth value %r" (PyStr.lower val))).
Proof.
  rewrite (any_case_lower true_words val true_words_known),
          (any_case_lower false_words val false_words_known).
  apply strtobool_by_lower.
Qed.

Lemma strtobool_keywords_witness :
  (any_case true_words "YeS" /\ strtobool "YeS" = Ok 1%Z)
  /\ (any_case false_words "OFF" /\ strtobool "OFF" = Ok 0%Z)
  /\ (~ any_case true_words "maybe" /\ ~ any_case false_words "maybe"
      /\ strtobool "maybe"
         = Raise (ValueError "invalid truth value %r" "maybe")).
Proof.
  assert (Hyes : any_case true_words "YeS").
  { apply (any_case_lower true_words "YeS" true_words_known).
    simpl. tauto. }
  assert (Hoff : any_case false_words "OFF").
  { apply (any_case_lower false_words "OFF" false_words_known).
    simpl. tauto. }
  assert (Hnt : ~ any_case true_words "maybe").
  { rewrite (any_case_lower true_words "maybe" true_words_known).
    simpl. intros H.
    repeat (destruct H as [H | H]; [discriminate H |]). exact H. }
  assert (Hnf : ~ any_case false_words "maybe").
  { rewrite (any_case_lower false_words "maybe" false_words_known).
    simpl. intros H.
    repeat (destruct H as [H | H]; [discriminate H |]). exact H. }
  split; [| split].
  - split; [exact Hyes | exact (proj1 (strtobool_keywords "YeS") Hyes)].
  - split; [exact Hoff
           | exact (proj1 (proj2 (strtobool_keywords "OFF")) Hoff)].
  - split; [exact Hnt | split; [exact Hnf |]].
    exact (proj2 (proj2 (strtobool_keywords "maybe")) Hnt Hnf).
Defined.

(** [validate] turns a keyword that is not an integer literal into the
    boolean. *)
Lemma validate_keyword `{PythonRuntime} (s : string) (e : exn) :
  int_of_str s = Raise e ->
  (any_case true_words s -> validate (VStr s) = VBool true)
  /\ (any_case false_words s -> validate (VStr s) = VBool false).
Proof.
  intros Hint. unfold validate. rewrite Hint.
  rewrite (any_case_lower true_words s true_words_known),
          (any_case_lower false_words s false_words_known).
  destruct (strtobool_by_lower s) as [Ht [Hf _]].
  split; intros Hs; [rewrite (Ht Hs) | rewrite (Hf Hs)]; reflexivity.
Qed.

End Strtobool.


(** ** get_full_command *)

Section GetFullCommand.
Import Utils.

(** The example of the command-prefix splitting. *)
Lemma get_full_command_example :
  get_full_command_with ["."; "!"] (Some ".ping arg1 arg2")
  = Ok (".", "ping", "arg1 arg2").
Proof. reflexivity. Qed.

Lemma scan_prefixes_none (text : string) (prefixes : list string) :
  (forall p, In p prefixes -> prefix_matches text p = false) ->
  scan_prefixes text prefixes = None.
Proof.
  induction prefixes as [|p rest IH]; intros Hnone; simpl.
  - reflexivity.
  - rewrite (Hnone p (or_introl eq_refl)).
    apply IH. intros q Hq. apply Hnone. right. exact Hq.
Qed.

(** The loop stops at the first prefix that matches. *)
Lemma scan_prefixes_first (text : string) (before after : list string)
    (p : string) :
  (forall q, In q before -> prefix_matches text q = false) ->
  prefix_matches text p = true ->
  scan_prefixes text (before ++ p :: after)
  = Some (unpack_command
            (PyStr.split_maxsplit1 (PyStr.drop (PyStr.len p) text))).
Proof.
  induction before as [|q before IH]; intros Hbefore Hp; simpl.
  - rewrite Hp. reflexivity.
  - rewrite (Hbefore q (or_introl eq_refl)).
    apply IH; [| exact Hp]. intros r Hr. apply Hbefore. right. exact Hr.
Qed.

(** With no prefix matching the result is the empty triple. *)
Lemma get_full_command_no_match (prefixes : list string)
    (message_text : option string) :
  (forall p, In p prefixes ->
             prefix_matches (str_of_text message_text) p = false) ->
  get_full_command_with prefixes message_text = Ok ("", "", "").
Proof.
  intros Hnone. unfold get_full_command_with.
  rewrite (scan_prefixes_none _ _ Hnone). reflexivity.
Qed.

(** An empty text gives the empty triple. *)
Lemma get_full_command_empty_text (prefixes : list string) :
  get_full_command_with prefixes (Some "") = Ok ("", "", "").
Proof.
  apply get_full_command_no_match. intros p _. reflexivity.
Qed.

(** X1. The command and the arguments are cut after the first prefix that
    matches; the prefix of the result is the head of the list. *)
Lemma get_full_command_first_match (before after : list string)
    (p : string) (message_text : option string) :
  let text := str_of_text message_text in
  (forall q, In q before -> prefix_matches text q = false) ->
  prefix_matches text p = true ->
  get_full_command_with (before ++ p :: after) message_text
  = match PyStr.split_maxsplit1 (PyStr.drop (PyStr.len p) text) with
    | [] => Raise (ValueError "not enough values to unpack" "")
    | command :: args =>
        Ok (List.hd "" (before ++ p :: after), PyStr.lower command,
            match last args with Some a => a | None => "" end)
    end.
Proof.
  intros text Hbefore Hp. unfold get_full_command_with. fold text.
  rewrite (scan_prefixes_first text before after p Hbefore Hp).
  destruct (PyStr.split_maxsplit1 (PyStr.drop (PyStr.len p) text));
    reflexivity.
Qed.

(** On a string the condition for an item is [prefix_matches]. *)
Lemma item_matches_str (text p : string) :
  item_matches text (VStr p) = Ok (prefix_matches text p).
Proof.
  unfold item_matches, prefix_matches, py_len, py_startswith.
  destruct (String.eqb text ""); [reflexivity |].
  destruct (PyStr.len p <? PyStr.len text)%nat; reflexivity.
Qed.

Lemma scan_items_strings (text : string) (prefixes : list string) :
  scan_items text (List.map VStr prefixes) = scan_prefixes text prefixes.
Proof.
  induction prefixes as [|p rest IH]; [reflexivity |].
  cbn [List.map scan_items scan_prefixes]. rewrite item_matches_str, IH.
  destruct (prefix_matches text p); reflexivity.
Qed.

(** For a stored list of strings the function is
    [get_full_command_with]. *)
Lemma get_full_command_of_strings (db : Database.t)
    (prefixes : list string) (message_text : option string) :
  Database.get db "teagram.loader" "prefixes" (VList [VStr "."])
  = VList (List.map VStr prefixes) ->
  get_full_command db message_text
  = match get_full_command_with prefixes message_text with
    | Ok (p, c, a) => Ok (VStr p, c, a)
    | Raise e => Raise e
    end.
Proof.
  intros Hstored. unfold get_full_command, get_full_command_with.
  rewrite Hstored. cbn [iterate]. rewrite scan_items_strings.
  destruct (scan_prefixes (str_of_text message_text) prefixes)
    as [[[command args] | e] |] eqn:Hscan; try reflexivity.
  destruct prefixes as [|p rest]; [discriminate Hscan | reflexivity].
Qed.

(** The loop does not look at the items that follow the match, and an
    item that is no string raises only when the loop reaches it with a
    text that is not empty. *)
Lemma get_full_command_mixed_items :
  get_full_command
    (Database.set ∅ "teagram.loader" "prefixes" (VList [VStr "."; VInt 1]))
    (Some ".ping")
  = Ok (VStr ".", "ping", "")
  /\ get_full_command
       (Database.set ∅ "teagram.loader" "prefixes" (VList [VInt 1; VStr "."]))
       (Some ".ping")
     = Raise TypeError
  /\ get_full_command
       (Database.set ∅ "teagram.loader" "prefixes" (VList [VInt 1; VNone]))
       (Some "")
     = Ok (VStr "", "", "").
Proof. vm_compute. repeat split. Qed.

(** C2. With the prefixes [.] and [/] registered in this order, the text
    [/command arg1 arg2] of the docstring is split after [/], its first
    matching prefix, and the prefix of the result is [.], the first
    registered one. *)
Theorem get_full_command_reports_first_registered :
  get_full_command
    (Database.set ∅ "teagram.loader" "prefixes" (VList [VStr "."; VStr "/"]))
    (Some "/command arg1 arg2")
  = Ok (VStr ".", "command", "arg1 arg2").
Proof. vm_compute. reflexivity. Qed.

(** A matching prefix followed by blanks only: the unpacking raises. *)
Lemma get_full_command_blank_command :
  get_full_command_with ["."] (Some ". ")
  = Raise (ValueError "not enough values to unpack" "").
Proof. reflexivity. Qed.

(** A prefix is only taken for matching when the text is strictly longer. *)
Lemma prefix_matches_longer (text p : string) :
  prefix_matches text p = true ->
  (PyStr.len p < PyStr.len text)%nat /\ PyStr.startswith text p = true.
Proof.
  unfold prefix_matches. intros H.
  apply andb_prop in H as [H Hstart]. apply andb_prop in H as [_ Hlen].
  split; [apply Nat.ltb_lt, Hlen | exact Hstart].
Qed.

(** C10, as stated, fails: with [.] and [..] registered, the text [..]
    equals a registered prefix and the result is not the empty triple. *)
Lemma text_equal_to_prefix_counterexample :
  ~ (forall (prefixes : list string) (p : string),
       In p prefixes ->
       get_full_command_with prefixes (Some p) = Ok ("", "", "")).
Proof.
  intros H. specialize (H ["."; ".."] ".." (or_intror (or_introl eq_refl))).
  discriminate H.
Qed.

(** C10, amended. A prefix matches only a text that is strictly longer
    than itself; a text equal to a registered prefix gives the empty
    triple when no registered prefix is a strictly shorter beginning of
    that text. *)
Theorem text_equal_to_prefix (prefixes : list string) (p : string) :
  In p prefixes ->
  (forall q, In q prefixes ->
     ~ ((PyStr.len q < PyStr.len p)%nat /\ PyStr.startswith p q = true)) ->
  (forall text q, prefix_matches text q = true ->
                  (PyStr.len q < PyStr.len text)%nat)
  /\ prefix_matches p p = false
  /\ get_full_command_with prefixes (Some p) = Ok ("", "", "").
Proof.
  intros Hin Hshort. split; [| split].
  - intros text q Hq. apply (prefix_matches_longer text q Hq).
  - destruct (prefix_matches p p) eqn:E; [| reflexivity].
    apply prefix_matches_longer in E as [E _]. lia.
  - apply get_full_command_no_match. intros q Hq. simpl.
    destruct (prefix_matches p q) eqn:E; [| reflexivity].
    exfalso. apply (Hshort q Hq). apply prefix_matches_longer. exact E.
Qed.

Lemma text_equal_to_prefix_witness :
  In "!" ["."; "!"]
  /\ get_full_command_with ["."; "!"] (Some "!") = Ok ("", "", "").
Proof.
  assert (Hin : In "!" ["."; "!"]) by (simpl; tauto).
  split; [exact Hin |].
  refine (proj2 (proj2 (text_equal_to_prefix ["."; "!"] "!" Hin _))).
  intros q Hq [Hlen Hstart]. simpl in Hq.
  destruct Hq as [<- | [<- | []]].
  - discriminate Hstart.
  - simpl in Hlen. lia.
Defined.

End GetFullCommand.


(** ** The monad *)

Section Monad.
Context {S A B : Type}.

(** A sequence that ends well went well at each step. *)
Lemma bind_ok (m : M S A) (k : A -> M S B) (s s' : S) (b : B) :
  bind m k s = (Ok b, s') ->
  exists a s0, m s = (Ok a, s0) /\ k a s0 = (Ok b, s').
Proof.
  unfold bind. destruct (m s) as [[a | e] s0]; intros H.
  - exists a, s0. split; [reflexivity | exact H].
  - discriminate H.
Qed.

Lemma bind_step (m : M S A) (k : A -> M S B) (s s0 : S) (a : A) :
  m s = (Ok a, s0) -> bind m k s = k a s0.
Proof. unfold bind. intros ->. reflexivity. Qed.

End Monad.

(** ** Strings *)

Section Strings.

Lemma append_cons (c : ascii) (s t : string) :
  String c s +:+ t = String c (s +:+ t).
Proof. reflexivity. Qed.

Lemma append_empty (t : string) : "" +:+ t = t.
Proof. reflexivity. Qed.

Lemma startswith_append (s p : string) :
  PyStr.startswith s p = true -> exists t, s = p +:+ t.
Proof.
  unfold PyStr.startswith. revert s.
  induction p as [|c p IH]; intros s Hs.
  - exists s. reflexivity.
  - destruct s as [|x s]; simpl in Hs; [discriminate |].
    destruct (ascii_dec c x) as [-> |]; [| discriminate].
    destruct (IH s Hs) as [t ->]. exists t. reflexivity.
Qed.

Lemma take_drop (n : nat) (s : string) :
  PyStr.take n s +:+ PyStr.drop n s = s.
Proof.
  revert s. induction n as [|n IH]; intros s.
  - destruct s; reflexivity.
  - destruct s as [|c s]; [reflexivity |].
    simpl. rewrite append_cons, IH. reflexivity.
Qed.

Lemma take_plus (n m : nat) (s : string) :
  PyStr.take (n + m) s = PyStr.take n s +:+ PyStr.take m (PyStr.drop n s).
Proof.
  revert s. induction n as [|n IH]; intros s.
  - destruct s; reflexivity.
  - destruct s as [|c s]; simpl.
    + destruct m; reflexivity.
    + rewrite append_cons, IH. reflexivity.
Qed.

Lemma append_assoc (a b c : string) : (a +:+ b) +:+ c = a +:+ b +:+ c.
Proof.
  induction a as [|x a IH]; [reflexivity |].
  rewrite !append_cons, IH. reflexivity.
Qed.

Lemma substring_take_drop (n m : nat) (s : string) :
  String.substring n m s = PyStr.take m (PyStr.drop n s).
Proof.
  revert m s. induction n as [|n IH]; intros m s.
  - assert (Hd : PyStr.drop 0 s = s) by (destruct s; reflexivity).
    rewrite Hd. clear Hd. revert s. induction m as [|m IHm]; intros s.
    + destruct s; reflexivity.
    + destruct s as [|c s]; simpl; [reflexivity |]. rewrite IHm. reflexivity.
  - destruct s as [|c s]; simpl.
    + destruct m; reflexivity.
    + apply IH.
Qed.

Lemma drop_drop (n m : nat) (s : string) :
  PyStr.drop m (PyStr.drop n s) = PyStr.drop (n + m) s.
Proof.
  revert s. induction n as [|n IH]; intros s.
  - destruct s; reflexivity.
  - destruct s as [|c s]; simpl.
    + destruct m; reflexivity.
    + apply IH.
Qed.

Lemma drop_next (i : nat) (text s' : string) (c : ascii) :
  PyStr.drop i text = String c s' -> PyStr.drop (S i) text = s'.
Proof.
  intros H. replace (S i) with (i + 1)%nat by lia.
  rewrite <- drop_drop, H. reflexivity.
Qed.

Lemma length_append (a b : string) :
  String.length (a +:+ b) = (String.length a + String.length b)%nat.
Proof.
  induction a as [|x a IH]; [reflexivity |].
  rewrite append_cons. simpl. rewrite IH. reflexivity.
Qed.

(** Two ways of cutting a string at the same place are the same. *)
Lemma append_same_length (a b c d : string) :
  a +:+ b = c +:+ d -> String.length a = String.length c ->
  a = c /\ b = d.
Proof.
  revert c. induction a as [|x a IH]; intros c Heq Hlen.
  - destruct c; [| discriminate Hlen]. split; [reflexivity | exact Heq].
  - destruct c as [|y c]; [discriminate Hlen |].
    rewrite !append_cons in Heq. inversion Heq; subst y.
    destruct (IH c) as [-> ->]; [assumption | simpl in Hlen; lia |].
    split; reflexivity.
Qed.

Lemma startswith_here (p t : string) : PyStr.startswith (p +:+ t) p = true.
Proof.
  unfold PyStr.startswith. induction p as [|c p IH].
  - destruct t; reflexivity.
  - rewrite append_cons. simpl. destruct (ascii_dec c c); [exact IH | contradiction].
Qed.

Lemma drop_append (a b : string) : PyStr.drop (String.length a) (a +:+ b) = b.
Proof.
  induction a as [|x a IH]; [destruct b; reflexivity |].
  rewrite append_cons. simpl. exact IH.
Qed.

Lemma take_append (a b : string) : PyStr.take (String.length a) (a +:+ b) = a.
Proof.
  induction a as [|x a IH]; [destruct b; reflexivity |].
  rewrite append_cons. simpl. rewrite IH. reflexivity.
Qed.

Lemma append_empty_r (a : string) : a +:+ "" = a.
Proof.
  induction a as [|x a IH]; [reflexivity |].
  rewrite append_cons, IH. reflexivity.
Qed.

End Strings.

(** ** What the two token patterns match *)

Section PatternMeaning.
Import TokenManager Spec.

(** *** The tag pattern *)

(** The lazy run stops at the first place where the closing tag stands. *)
Lemma lazy_until_shape (close s m : string) :
  lazy_until close s = Some m ->
  has_char "010" m = false /\ exists rest, s = m +:+ close +:+ rest.
Proof.
  revert m. induction s as [|c s IH]; intros m; cbn [lazy_until].
  - destruct (PyStr.startswith "" close) eqn:E; [| discriminate].
    intros H. inversion H; subst m. split; [reflexivity |].
    apply startswith_append in E as [t Ht]. exists t. exact Ht.
  - destruct (PyStr.startswith (String c s) close) eqn:E.
    + intros H. inversion H; subst m. split; [reflexivity |].
      apply startswith_append in E as [t Ht]. exists t. exact Ht.
    + destruct (Ascii.eqb c "010") eqn:Hc; [discriminate |].
      destruct (lazy_until close s) as [m' |]; [| discriminate].
      intros H. inversion H; subst m.
      destruct (IH m' eq_refl) as [Hnl [rest Hrest]].
      split; [simpl; rewrite Hc; exact Hnl |].
      exists rest. rewrite append_cons, <- Hrest. reflexivity.
Qed.

(** The lazy run is the shortest: the closing tag stands nowhere before
    its end. *)
Lemma lazy_until_least (close s m : string) :
  lazy_until close s = Some m ->
  forall m' rest', s = m' +:+ close +:+ rest' ->
                   (String.length m <= String.length m')%nat.
Proof.
  revert m. induction s as [|c s IH]; intros m; cbn [lazy_until].
  - destruct (PyStr.startswith "" close); [| discriminate].
    intros Hm. inversion Hm. intros. simpl. lia.
  - destruct (PyStr.startswith (String c s) close) eqn:E.
    + intros Hm. inversion Hm. intros. simpl. lia.
    + destruct (Ascii.eqb c "010"); [discriminate |].
      destruct (lazy_until close s) as [m0 |]; [| discriminate].
      intros Hm. inversion Hm; subst m. intros m' rest' Hs.
      destruct m' as [|x m'].
      * rewrite append_empty in Hs. rewrite Hs, startswith_here in E.
        discriminate E.
      * rewrite append_cons in Hs. inversion Hs; subst.
        specialize (IH m0 eq_refl m' rest' eq_refl). simpl. lia.
Qed.

(** Where the lazy run fails, a line break stands before every closing
    tag. *)
Lemma lazy_until_none (close s : string) :
  lazy_until close s = None ->
  forall m' rest', s = m' +:+ close +:+ rest' -> has_char "010" m' = true.
Proof.
  induction s as [|c s IH]; cbn [lazy_until].
  - destruct (PyStr.startswith "" close) eqn:E; [discriminate |].
    intros _ m' rest' Hs. destruct m' as [|x m']; [| discriminate Hs].
    rewrite append_empty in Hs. rewrite Hs, startswith_here in E.
    discriminate E.
  - destruct (PyStr.startswith (String c s) close) eqn:E; [discriminate |].
    intros Hnone m' rest' Hs. destruct m' as [|x m'].
    + rewrite append_empty in Hs. rewrite Hs, startswith_here in E.
      discriminate E.
    + rewrite append_cons in Hs. inversion Hs; subst x. simpl.
      destruct (Ascii.eqb c "010"); [reflexivity |].
      destruct (lazy_until close s) as [m0 |]; [discriminate |].
      apply (IH eq_refl m' rest'). assumption.
Qed.

(** The lookbehind holds where the text before the place ends with the
    opening tag. *)
Lemma behind_code_true (pre s : string) :
  behind_code (pre +:+ s) (String.length pre) = true <->
  exists p, pre = p +:+ "<code>".
Proof.
  unfold behind_code. rewrite substring_take_drop. split.
  - intros Hb. apply andb_prop in Hb as [Hlen Htag].
    apply Nat.leb_le in Hlen. apply String.eqb_eq in Htag.
    exists (PyStr.take (String.length pre - 6) pre).
    pose proof (take_drop (String.length pre - 6) pre) as Hcut.
    assert (Hl : String.length (PyStr.take (String.length pre - 6) pre)
                 = (String.length pre - 6)%nat).
    { pose proof (f_equal String.length Hcut) as Hl.
      rewrite length_append in Hl.
      assert (Hd : forall n t, (n <= String.length t)%nat ->
                String.length (PyStr.drop n t) = (String.length t - n)%nat).
      { induction n as [|n IHn]; intros t Hn.
        - destruct t; simpl; lia.
        - destruct t as [|y t]; simpl in *; [lia |]. apply IHn. lia. }
      rewrite Hd in Hl by lia. lia. }
    rewrite <- Hcut in Htag at 2. rewrite append_assoc in Htag.
    rewrite <- Hl in Htag at 1. rewrite drop_append in Htag.
    assert (Hd6 : String.length (PyStr.drop (String.length pre - 6) pre)
                  = 6%nat).
    { pose proof (f_equal String.length Hcut) as Hl'.
      rewrite length_append in Hl'. lia. }
    rewrite <- Hd6 in Htag at 1. rewrite take_append in Htag.
    rewrite <- Htag. symmetry. exact Hcut.
  - intros [p ->]. rewrite length_append. simpl String.length.
    replace (String.length p + 6 - 6)%nat with (String.length p) by lia.
    rewrite append_assoc, drop_append.
    replace (6 <=? String.length p + 6)%nat with true
      by (symmetry; apply Nat.leb_le; lia).
    reflexivity.
Qed.

(** The pattern at one place: the match there, the shortest of those that
    begin there, or no match there. *)
Lemma match_here (pre0 s : string) :
  match (if behind_code (pre0 +:+ s) (String.length pre0)
         then lazy_until "</code>" s else None) with
  | Some m =>
      exists pre post,
        tagged (pre0 +:+ s) pre m post
        /\ (String.length pre + 6 = String.length pre0)%nat
        /\ forall pre' m' post',
             tagged (pre0 +:+ s) pre' m' post' ->
             (String.length pre' + 6 = String.length pre0)%nat ->
             (String.length m <= String.length m')%nat
  | None =>
      forall pre' m' post',
        tagged (pre0 +:+ s) pre' m' post' ->
        (String.length pre' + 6 = String.length pre0)%nat -> False
  end.
Proof.
  assert (Hrest : forall pre' m' post',
            tagged (pre0 +:+ s) pre' m' post' ->
            (String.length pre' + 6 = String.length pre0)%nat ->
            pre0 = pre' +:+ "<code>" /\ s = m' +:+ "</code>" +:+ post').
  { intros pre' m' post' [Htext _] Hlen.
    rewrite <- append_assoc in Htext.
    apply append_same_length in Htext.
    - exact Htext.
    - rewrite length_append. simpl. lia. }
  destruct (behind_code (pre0 +:+ s) (String.length pre0)) eqn:Hb.
  - apply behind_code_true in Hb as [p Hp].
    destruct (lazy_until "</code>" s) as [m |] eqn:Hl.
    + destruct (lazy_until_shape _ _ _ Hl) as [Hnl [rest Hs]].
      exists p, rest. split; [| split].
      * split; [| exact Hnl]. rewrite Hp, Hs, append_assoc. reflexivity.
      * rewrite Hp, length_append. reflexivity.
      * intros pre' m' post' Ht Hlen.
        destruct (Hrest pre' m' post' Ht Hlen) as [_ Hs'].
        apply (lazy_until_least _ _ _ Hl m' post' Hs').
    + intros pre' m' post' Ht Hlen.
      destruct (Hrest pre' m' post' Ht Hlen) as [_ Hs'].
      pose proof (lazy_until_none _ _ Hl m' post' Hs') as Hnl.
      destruct Ht as [_ Hone]. congruence.
  - intros pre' m' post' Ht Hlen.
    destruct (Hrest pre' m' post' Ht Hlen) as [Hp _].
    assert (Htrue : behind_code (pre0 +:+ s) (String.length pre0) = true)
      by (apply behind_code_true; exists pre'; exact Hp).
    congruence.
Qed.

Lemma append_last (pre0 : string) (c : ascii) (s : string) :
  pre0 +:+ String c s = (pre0 +:+ String c "") +:+ s.
Proof. rewrite append_assoc. reflexivity. Qed.

(** The search from a place on: the leftmost match from there, and the
    shortest at its place. *)
Lemma search_code_from_spec (s pre0 : string) :
  match search_code_from (pre0 +:+ s) (String.length pre0) s with
  | Some m =>
      exists pre post,
        tagged (pre0 +:+ s) pre m post
        /\ forall pre' m' post',
             tagged (pre0 +:+ s) pre' m' post' ->
             (String.length pre0 <= String.length pre' + 6)%nat ->
             (String.length pre < String.length pre')%nat
             \/ (String.length pre = String.length pre'
                 /\ (String.length m <= String.length m')%nat)
  | None =>
      forall pre' m' post',
        tagged (pre0 +:+ s) pre' m' post' ->
        (String.length pre0 <= String.length pre' + 6)%nat -> False
  end.
Proof.
  revert pre0. induction s as [|c s IH]; intros pre0.
  - cbn [search_code_from]. pose proof (match_here pre0 "") as Hhere.
    assert (Hshort : forall pre' m' post',
              tagged (pre0 +:+ "") pre' m' post' ->
              (String.length pre0 <= String.length pre' + 6)%nat ->
              (String.length pre' + 6 = String.length pre0)%nat).
    { intros pre' m' post' [Htext _] Hle.
      apply (f_equal String.length) in Htext.
      rewrite !length_append in Htext. simpl in Htext. lia. }
    destruct (if behind_code (pre0 +:+ "") (String.length pre0)
              then lazy_until "</code>" "" else None) as [m |].
    + destruct Hhere as (pre & post & Ht & Hlen & Hmin).
      exists pre, post. split; [exact Ht |].
      intros pre' m' post' Ht' Hle. right.
      pose proof (Hshort pre' m' post' Ht' Hle) as Heq.
      split; [lia | apply (Hmin pre' m' post' Ht' Heq)].
    + intros pre' m' post' Ht' Hle.
      apply (Hhere pre' m' post' Ht' (Hshort pre' m' post' Ht' Hle)).
  - cbn [search_code_from]. pose proof (match_here pre0 (String c s)) as Hhere.
    destruct (if behind_code (pre0 +:+ String c s) (String.length pre0)
              then lazy_until "</code>" (String c s) else None) as [m |].
    + destruct Hhere as (pre & post & Ht & Hlen & Hmin).
      exists pre, post. split; [exact Ht |].
      intros pre' m' post' Ht' Hle.
      destruct (Nat.eq_dec (String.length pre' + 6) (String.length pre0))
        as [Heq | Hne].
      * right. split; [lia | apply (Hmin pre' m' post' Ht' Heq)].
      * left. lia.
    + specialize (IH (pre0 +:+ String c "")).
      rewrite <- append_last in IH.
      replace (String.length (pre0 +:+ String c ""))
        with (S (String.length pre0)) in IH
        by (rewrite length_append; simpl; lia).
      destruct (search_code_from (pre0 +:+ String c s)
                  (S (String.length pre0)) s) as [m |].
      * destruct IH as (pre & post & Ht & Hmin).
        exists pre, post. split; [exact Ht |].
        intros pre' m' post' Ht' Hle.
        destruct (Nat.eq_dec (String.length pre' + 6) (String.length pre0))
          as [Heq | Hne].
        -- exfalso. apply (Hhere pre' m' post' Ht' Heq).
        -- apply (Hmin pre' m' post' Ht'). lia.
      * intros pre' m' post' Ht' Hle.
        destruct (Nat.eq_dec (String.length pre' + 6) (String.length pre0))
          as [Heq | Hne].
        -- apply (Hhere pre' m' post' Ht' Heq).
        -- apply (IH pre' m' post' Ht'). lia.
Qed.

(** [search_code] is the tag pattern under [re.search]. *)
Lemma search_code_spec (text : string) :
  match search_code text with
  | Some m => tag_match text m
  | None => no_tag_match text
  end.
Proof.
  pose proof (search_code_from_spec text "") as Hs.
  rewrite append_empty in Hs. simpl String.length in Hs.
  unfold search_code.
  destruct (search_code_from text 0 text) as [m |].
  - destruct Hs as (pre & post & Ht & Hmin). exists pre, post.
    split; [exact Ht |]. intros pre' m' post' Ht'.
    apply (Hmin pre' m' post' Ht'). lia.
  - intros pre m post Ht. apply (Hs pre m post Ht). lia.
Qed.

(** The match of the tag pattern is unique. *)
Lemma tag_match_unique (text m1 m2 : string) :
  tag_match text m1 -> tag_match text m2 -> m1 = m2.
Proof.
  intros (pre1 & post1 & T1 & Min1) (pre2 & post2 & T2 & Min2).
  pose proof (Min1 _ _ _ T2) as H12. pose proof (Min2 _ _ _ T1) as H21.
  destruct T1 as [E1 _], T2 as [E2 _]. rewrite E1 in E2.
  apply append_same_length in E2 as [_ E2]; [| lia].
  change ("<code>" +:+ m1 +:+ "</code>" +:+ post1)
    with (String "<" (String "c" (String "o" (String "d" (String "e"
            (String ">" (m1 +:+ "</code>" +:+ post1))))))) in E2.
  change ("<code>" +:+ m2 +:+ "</code>" +:+ post2)
    with (String "<" (String "c" (String "o" (String "d" (String "e"
            (String ">" (m2 +:+ "</code>" +:+ post2))))))) in E2.
  inversion E2 as [E]. apply append_same_length in E as [E _]; [exact E | lia].
Qed.

Lemma tag_match_search (text m : string) :
  tag_match text m -> search_code text = Some m.
Proof.
  intros Hm. pose proof (search_code_spec text) as Hs.
  destruct (search_code text) as [m' |].
  - f_equal. apply (tag_match_unique text m' m Hs Hm).
  - destruct Hm as (pre & post & Ht & _). destruct (Hs pre m post Ht).
Qed.

Lemma no_tag_match_search (text : string) :
  no_tag_match text -> search_code text = None.
Proof.
  intros Hnone. pose proof (search_code_spec text) as Hs.
  destruct (search_code text) as [m |]; [| reflexivity].
  destruct Hs as (pre & post & Ht & _). destruct (Hnone pre m post Ht).
Qed.

(** *** The raw pattern *)

Lemma repeat_class_take (cls : ascii -> bool) (n : nat) (s : string) :
  repeat_class cls n s = true ->
  all_chars cls (PyStr.take n s) = true
  /\ String.length (PyStr.take n s) = n.
Proof.
  revert s. induction n as [|n IH]; intros s H.
  - destruct s; split; reflexivity.
  - destruct s as [|c s]; simpl in H; [discriminate |].
    apply andb_prop in H as [Hc Hs]. destruct (IH s Hs) as [Hall Hlen].
    simpl. rewrite Hc, Hall, Hlen. split; reflexivity.
Qed.

Lemma digit_run_take (k : nat) (s : string) :
  (k <= digit_run s)%nat ->
  all_chars PyStr.is_digit (PyStr.take k s) = true
  /\ String.length (PyStr.take k s) = k.
Proof.
  revert s. induction k as [|k IH]; intros s H.
  - destruct s; split; reflexivity.
  - destruct s as [|c s]; simpl in H; [lia |].
    destruct (PyStr.is_digit c) eqn:Hc; [| lia].
    destruct (IH s) as [Hall Hlen]; [lia |].
    simpl. rewrite Hc, Hall, Hlen. split; reflexivity.
Qed.

Lemma backtrack_digits_some (k0 k : nat) (s : string) :
  backtrack_digits k0 s = Some k ->
  (1 <= k <= k0)%nat /\ colon_secret (PyStr.drop k s) = true.
Proof.
  induction k0 as [|k0 IH]; cbn [backtrack_digits]; intros H.
  - discriminate.
  - destruct (colon_secret (PyStr.drop (S k0) s)) eqn:E.
    + inversion H; subst. split; [lia | exact E].
    + destruct (IH H) as [Hk Hc]. split; [lia | exact Hc].
Qed.

(** A match at the head of [s]. *)
Lemma match_token_at_shape (s m : string) :
  match_token_at s = Some m ->
  exists number secret,
    m = number +:+ ":" +:+ secret
    /\ number <> ""
    /\ all_chars PyStr.is_digit number = true
    /\ String.length secret = 35%nat
    /\ all_chars token_char secret = true
    /\ exists rest, s = m +:+ rest.
Proof.
  unfold match_token_at.
  destruct (backtrack_digits (digit_run s) s) as [k |] eqn:Hk; [| discriminate].
  intros Hm. inversion Hm; subst m. clear Hm.
  apply backtrack_digits_some in Hk as [Hrange Hcolon].
  destruct (digit_run_take k s) as [Hdigits Hlen]; [lia |].
  unfold colon_secret in Hcolon.
  destruct (PyStr.drop k s) as [|c tail] eqn:Hdrop; [discriminate |].
  apply andb_prop in Hcolon as [Hc Hsecret].
  apply Ascii.eqb_eq in Hc. subst c.
  destruct (repeat_class_take token_char 35 tail Hsecret) as [Hall Hl35].
  exists (PyStr.take k s), (PyStr.take 35 tail).
  assert (Htake : PyStr.take (k + 1 + 35) s
                  = PyStr.take k s +:+ ":" +:+ PyStr.take 35 tail).
  { replace (k + 1 + 35)%nat with (k + 36)%nat by lia.
    rewrite take_plus, Hdrop. reflexivity. }
  repeat split; try assumption.
  - intros Hempty. rewrite Hempty in Hlen. simpl in Hlen. lia.
  - exists (PyStr.drop (k + 1 + 35) s). apply eq_sym, take_drop.
Qed.

Lemma digit_class (c : ascii) :
  has_char c "0123456789" = PyStr.is_digit c.
Proof. destruct c as [[] [] [] [] [] [] [] []]; vm_compute; reflexivity. Qed.

Lemma token_class (c : ascii) :
  has_char c token_alphabet = token_char c.
Proof. destruct c as [[] [] [] [] [] [] [] []]; vm_compute; reflexivity. Qed.

Lemma all_chars_ext (f g : ascii -> bool) (s : string) :
  (forall c, f c = g c) -> all_chars f s = all_chars g s.
Proof.
  intros Hfg. induction s as [|c s IH]; [reflexivity |].
  simpl. rewrite Hfg, IH. reflexivity.
Qed.

Lemma digit_run_number (number rest : string) :
  all_chars PyStr.is_digit number = true ->
  digit_run (number +:+ ":" +:+ rest) = String.length number.
Proof.
  induction number as [|c number IH]; intros Hd.
  - reflexivity.
  - simpl in Hd. apply andb_prop in Hd as [Hc Hd].
    rewrite append_cons. simpl. rewrite Hc, (IH Hd). reflexivity.
Qed.

Lemma repeat_class_append (cls : ascii -> bool) (secret rest : string) :
  all_chars cls secret = true ->
  repeat_class cls (String.length secret) (secret +:+ rest) = true.
Proof.
  induction secret as [|c secret IH]; intros Hs.
  - reflexivity.
  - simpl in Hs. apply andb_prop in Hs as [Hc Hs].
    rewrite append_cons. simpl. rewrite Hc, (IH Hs). reflexivity.
Qed.

(** A token at the head of a string is what the pattern matches there. *)
Lemma match_token_at_complete (m post : string) :
  raw_token m -> match_token_at (m +:+ post) = Some m.
Proof.
  intros (number & secret & -> & Hne & Hd & Hlen & Hs).
  rewrite (all_chars_ext _ _ _ digit_class) in Hd.
  rewrite (all_chars_ext _ _ _ token_class) in Hs.
  unfold match_token_at. rewrite !append_assoc.
  rewrite (digit_run_number number _ Hd).
  destruct number as [|d number]; [contradiction |].
  cbn [String.length backtrack_digits].
  change (S (String.length number)) with (String.length (String d number)).
  rewrite drop_append.
  change (colon_secret (":" +:+ secret +:+ post))
    with (Ascii.eqb ":" ":" && repeat_class token_char 35 (secret +:+ post)).
  rewrite <- Hlen, (repeat_class_append _ _ _ Hs). cbn [Ascii.eqb andb].
  f_equal.
  replace (String.length (String d number) + 1 + String.length secret)%nat
    with (String.length (String d number +:+ ":" +:+ secret))
    by (rewrite !length_append; simpl; lia).
  rewrite <- (append_assoc (String d number)), <- (append_assoc _ secret post).
  rewrite <- !append_assoc.
  rewrite (append_assoc (String d number) ":" secret).
  apply take_append.
Qed.

Lemma match_token_at_token (s m : string) :
  match_token_at s = Some m -> raw_token m /\ exists rest, s = m +:+ rest.
Proof.
  intros Hm. destruct (match_token_at_shape s m Hm)
    as (number & secret & Htok & Hne & Hd & Hl & Hs & Hrest).
  split; [| exact Hrest]. exists number, secret.
  rewrite (all_chars_ext _ _ _ digit_class), (all_chars_ext _ _ _ token_class).
  repeat split; assumption.
Qed.

(** [search_token] is the raw pattern under [re.search]. *)
Lemma search_token_spec (s : string) :
  match search_token s with
  | Some m => raw_match s m
  | None => no_raw_match s
  end.
Proof.
  assert (Hhead : forall t m post,
            raw t "" m post -> match_token_at t = Some m).
  { intros t m post [Ht Htok]. rewrite append_empty in Ht. subst t.
    apply match_token_at_complete, Htok. }
  induction s as [|c s IH]; cbn [search_token].
  - destruct (match_token_at "") as [m |] eqn:Hm.
    + destruct (match_token_at_token _ _ Hm) as [Htok [rest Hrest]].
      exists "", rest. split; [split; assumption |].
      intros. simpl. lia.
    + intros pre m post Hraw. destruct pre as [|x pre].
      * rewrite (Hhead _ _ _ Hraw) in Hm. discriminate Hm.
      * destruct Hraw as [Ht _]. discriminate Ht.
  - destruct (match_token_at (String c s)) as [m |] eqn:Hm.
    + destruct (match_token_at_token _ _ Hm) as [Htok [rest Hrest]].
      exists "", rest. split; [split; assumption |].
      intros. simpl. lia.
    + destruct (search_token s) as [m |].
      * destruct IH as (pre & post & [Ht Htok] & Hmin).
        exists (String c pre), post. split.
        -- split; [rewrite append_cons, <- Ht; reflexivity | exact Htok].
        -- intros pre' m' post' Hraw. destruct pre' as [|x pre'].
           ++ rewrite (Hhead _ _ _ Hraw) in Hm. discriminate Hm.
           ++ destruct Hraw as [Ht' Htok']. rewrite append_cons in Ht'.
              inversion Ht'; subst x.
              assert (Hraw' : raw s pre' m' post') by (split; assumption).
              pose proof (Hmin _ _ _ Hraw'). simpl. lia.
      * intros pre' m' post' Hraw. destruct pre' as [|x pre'].
        -- rewrite (Hhead _ _ _ Hraw) in Hm. discriminate Hm.
        -- destruct Hraw as [Ht' Htok']. rewrite append_cons in Ht'.
           inversion Ht'; subst x.
           apply (IH pre' m' post'). split; assumption.
Qed.

(** The match of the raw pattern is unique: at its place the digits run
    up to the colon, whichever way the quantifier tries them. *)
Lemma raw_match_unique (text m1 m2 : string) :
  raw_match text m1 -> raw_match text m2 -> m1 = m2.
Proof.
  intros (pre1 & post1 & R1 & Min1) (pre2 & post2 & R2 & Min2).
  pose proof (Min1 _ _ _ R2) as H12. pose proof (Min2 _ _ _ R1) as H21.
  destruct R1 as [E1 Tok1], R2 as [E2 Tok2]. rewrite E1 in E2.
  apply append_same_length in E2 as [_ E2]; [| lia].
  pose proof (match_token_at_complete m1 post1 Tok1) as M1.
  pose proof (match_token_at_complete m2 post2 Tok2) as M2.
  rewrite E2 in M1. congruence.
Qed.

Lemma raw_match_search (text m : string) :
  raw_match text m -> search_token text = Some m.
Proof.
  intros Hm. pose proof (search_token_spec text) as Hs.
  destruct (search_token text) as [m' |].
  - f_equal. apply (raw_match_unique text m' m Hs Hm).
  - destruct Hm as (pre & post & Hr & _). destruct (Hs pre m post Hr).
Qed.

Lemma no_raw_match_search (text : string) :
  no_raw_match text -> search_token text = None.
Proof.
  intros Hnone. pose proof (search_token_spec text) as Hs.
  destruct (search_token text) as [m |]; [| reflexivity].
  destruct Hs as (pre & post & Hr & _). destruct (Hnone pre m post Hr).
Qed.

End PatternMeaning.

(** ** _create_bot *)

Section CreateBot.
Import TokenManager.

Lemma ask_unblocked (s : string) (w w' : World) :
  ask s w = (Ok tt, w') -> blocked w' = false.
Proof.
  unfold ask. destruct (blocked w) eqn:E; intros H; inversion H; subst.
  exact E.
Qed.

Lemma get_response_blocked (m : Message) (w w' : World) :
  get_response w = (Ok m, w') -> blocked w' = blocked w.
Proof.
  unfold get_response. destruct (inbox w); intros H; inversion H; subst.
  reflexivity.
Qed.

(** Once the reply to the username is there, the account is not blocked. *)
Lemma request_username_unblocked (w w1 : World) (u : string) (r : Message) :
  request_username w = (Ok (u, r), w1) -> blocked w1 = false.
Proof.
  unfold request_username. intros H.
  do 9 (apply bind_ok in H as (? & ? & _ & H)).
  apply bind_ok in H as ([] & wa & Hask & H).
  apply ask_unblocked in Hask.
  apply bind_ok in H as (? & wb & Hsleep & H). inversion Hsleep; subst wb.
  apply bind_ok in H as (m & wc & Hget & H).
  apply get_response_blocked in Hget. inversion H; subst.
  congruence.
Qed.

(** With six more replies the rest of the script runs to its end. *)
Lemma configure_bot_returns (u token : string) (w : World) :
  blocked w = false -> (6 <= length (inbox w))%nat ->
  exists w', configure_bot u token w = (Ok (Some token), w').
Proof.
  intros Hb Hin.
  destruct w as [inb out blk lg rg m bu]. simpl in Hb, Hin. subst blk.
  do 6 (destruct inb as [|? inb]; [simpl in Hin; lia |]).
  eexists.
  cbv [configure_bot bind ask ask_media get_response logger modify ret send
       blocked inbox outbox log rng me bot_username].
  reflexivity.
Qed.

(** The two patterns on the replies of the specification. *)
Lemma scrape_token_tagged :
  scrape_token
    "Done! <code>123456:ABCDEFGHIJKLMNOPQRSTUVWXYZabcdef012</code> Keep it."
  = Some "123456:ABCDEFGHIJKLMNOPQRSTUVWXYZabcdef012".
Proof. vm_compute. reflexivity. Qed.

Lemma scrape_token_bare :
  search_code "Token: 123456:ABCDEFGHIJKLMNOPQRSTUVWXYZabcdef012xyz" = None
  /\ scrape_token "Token: 123456:ABCDEFGHIJKLMNOPQRSTUVWXYZabcdef012xyz"
     = Some "123456:ABCDEFGHIJKLMNOPQRSTUVWXYZabcdef012".
Proof. vm_compute. split; reflexivity. Qed.

(** The tag pattern wins over the raw pattern, and its match can be any
    text between the tags, the empty one included. *)
Lemma scrape_token_prefers_tags :
  scrape_token
    "1:ABCDEFGHIJKLMNOPQRSTUVWXYZabcdef012 and <code></code>" = Some "".
Proof. vm_compute. reflexivity. Qed.

(** C3. The token is scraped with the tag-delimited pattern first and
    with the raw pattern only when the first finds nothing, the patterns
    being taken by what [re.search] finds for them. Every reply to the
    username is of one of three kinds. When the tag pattern matches, the
    function returns its match, whatever the raw pattern would find;
    when it does not and the raw pattern matches, the function returns
    the match of the raw pattern (in both cases the later steps of the
    script being answered); when neither matches, it logs the error and
    returns [None]. *)
Theorem create_bot_scrapes (w w1 : World) (u : string) (r : Message) :
  request_username w = (Ok (u, r), w1) ->
  (forall token,
     Spec.tag_match (text r) token
     \/ (Spec.no_tag_match (text r) /\ Spec.raw_match (text r) token) ->
     (6 <= length (inbox w1))%nat ->
     exists w2, _create_bot w = (Ok (Some token), w2))
  /\ (Spec.no_tag_match (text r) -> Spec.no_raw_match (text r) ->
      exists w2,
        _create_bot w = (Ok None, w2)
        /\ outbox w2 = outbox w1
        /\ log w2
           = log w1
             ++ [(ERROR,
                  "An error occurred while creating the bot. @BotFather's response:");
                 (ERROR, text r)])
  /\ ((exists token, Spec.tag_match (text r) token)
      \/ (Spec.no_tag_match (text r)
          /\ exists token, Spec.raw_match (text r) token)
      \/ (Spec.no_tag_match (text r) /\ Spec.no_raw_match (text r))).
Proof.
  intros Hreq. split; [| split].
  - intros token Hmatch Hin.
    destruct (configure_bot_returns u token w1
                (request_username_unblocked w w1 u r Hreq) Hin) as [w2 Hw2].
    exists w2. unfold _create_bot. rewrite (bind_step _ _ _ _ _ Hreq).
    assert (Hs : scrape_token (text r) = Some token).
    { unfold scrape_token. destruct Hmatch as [Htag | [Hnone Hraw]].
      - rewrite (tag_match_search _ _ Htag). reflexivity.
      - rewrite (no_tag_match_search _ Hnone).
        apply (raw_match_search _ _ Hraw). }
    rewrite Hs. exact Hw2.
  - intros Hcode Htoken. eexists. split; [| split].
    + unfold _create_bot. rewrite (bind_step _ _ _ _ _ Hreq).
      unfold scrape_token.
      rewrite (no_tag_match_search _ Hcode), (no_raw_match_search _ Htoken).
      reflexivity.
    + reflexivity.
    + simpl. rewrite <- app_assoc. reflexivity.
  - pose proof (search_code_spec (text r)) as Hcode.
    pose proof (search_token_spec (text r)) as Htoken.
    destruct (search_code (text r)) as [m |].
    + left. exists m. exact Hcode.
    + right. destruct (search_token (text r)) as [m |].
      * left. split; [exact Hcode | exists m; exact Htoken].
      * right. split; assumption.
Qed.

Lemma create_bot_scrapes_witness :
  (exists w2,
     _create_bot Samples.creation_tagged
     = (Ok (Some "123456:ABCDEFGHIJKLMNOPQRSTUVWXYZabcdef012"), w2))
  /\ (Spec.raw_match
        "Not 1:ABCDEFGHIJKLMNOPQRSTUVWXYZabcdef012 but <code>987654:zyxwvutsrqponmlkjihgfedcba_-ZYXWVUT</code>"
        "1:ABCDEFGHIJKLMNOPQRSTUVWXYZabcdef012"
      /\ exists w2,
           _create_bot Samples.creation_both
           = (Ok (Some "987654:zyxwvutsrqponmlkjihgfedcba_-ZYXWVUT"), w2))
  /\ (exists w2,
        _create_bot Samples.creation_bare
        = (Ok (Some "123456:ABCDEFGHIJKLMNOPQRSTUVWXYZabcdef012"), w2))
  /\ (exists w2, _create_bot Samples.creation_refused = (Ok None, w2)).
Proof.
  assert (Htagged :
    request_username Samples.creation_tagged
    = (Ok ("teagram_abcdef_bot",
           Samples.plain_message
             "Done! <code>123456:ABCDEFGHIJKLMNOPQRSTUVWXYZabcdef012</code>"),
       snd (request_username Samples.creation_tagged)))
    by (vm_compute; reflexivity).
  assert (Hboth :
    request_username Samples.creation_both
    = (Ok ("teagram_abcdef_bot",
           Samples.plain_message
             "Not 1:ABCDEFGHIJKLMNOPQRSTUVWXYZabcdef012 but <code>987654:zyxwvutsrqponmlkjihgfedcba_-ZYXWVUT</code>"),
       snd (request_username Samples.creation_both)))
    by (vm_compute; reflexivity).
  assert (Hbare :
    request_username Samples.creation_bare
    = (Ok ("teagram_abcdef_bot",
           Samples.plain_message
             "Done! Token: 123456:ABCDEFGHIJKLMNOPQRSTUVWXYZabcdef012 keep it"),
       snd (request_username Samples.creation_bare)))
    by (vm_compute; reflexivity).
  assert (Hrefused :
    request_username Samples.creation_refused
    = (Ok ("teagram_abcdef_bot",
           Samples.plain_message "This username is already taken."),
       snd (request_username Samples.creation_refused)))
    by (vm_compute; reflexivity).
  assert (Hcode : forall t m,
            search_code t = Some m -> Spec.tag_match t m).
  { intros t m E. pose proof (search_code_spec t) as Hs.
    rewrite E in Hs. exact Hs. }
  assert (Hnocode : forall t,
            search_code t = None -> Spec.no_tag_match t).
  { intros t E. pose proof (search_code_spec t) as Hs.
    rewrite E in Hs. exact Hs. }
  assert (Htoken : forall t m,
            search_token t = Some m -> Spec.raw_match t m).
  { intros t m E. pose proof (search_token_spec t) as Hs.
    rewrite E in Hs. exact Hs. }
  assert (Hnotoken : forall t,
            search_token t = None -> Spec.no_raw_match t).
  { intros t E. pose proof (search_token_spec t) as Hs.
    rewrite E in Hs. exact Hs. }
  split; [| split; [| split]].
  - apply (proj1 (create_bot_scrapes _ _ _ _ Htagged)).
    + left. apply Hcode. vm_compute. reflexivity.
    + vm_compute. lia.
  - split; [apply Htoken; vm_compute; reflexivity |].
    apply (proj1 (create_bot_scrapes _ _ _ _ Hboth)).
    + left. apply Hcode. vm_compute. reflexivity.
    + vm_compute. lia.
  - apply (proj1 (create_bot_scrapes _ _ _ _ Hbare)).
    + right. split; [apply Hnocode | apply Htoken]; vm_compute; reflexivity.
    + vm_compute. lia.
  - destruct (proj1 (proj2 (create_bot_scrapes _ _ _ _ Hrefused)))
      as [w2 [Hw2 _]];
      [apply Hnocode; vm_compute; reflexivity
      | apply Hnotoken; vm_compute; reflexivity |].
    exists w2. exact Hw2.
Defined.

End CreateBot.

(** ** _revoke_token *)

Section RevokeToken.
Import TokenManager.

(** A row without a matching button is passed without sending anything. *)
Lemma scan_row_no_match (row : list string) (w : World) :
  existsb search_bot row = false -> scan_row row w = (Ok Next, w).
Proof.
  unfold scan_row. induction row as [|button row IH]; simpl; intros H.
  - reflexivity.
  - apply orb_false_elim in H as [Hb Hrow].
    unfold bind at 1. rewrite Hb. simpl. apply IH, Hrow.
Qed.

(** The first matching button of a row is clicked and the row is left. *)
Lemma scan_row_match (before after : list string) (button : string)
    (w : World) :
  existsb search_bot before = false -> search_bot button = true ->
  blocked w = false ->
  scan_row (before ++ button :: after) w
  = (Ok Break,
     {| inbox := inbox w; outbox := outbox w ++ [SentText button];
        blocked := false; log := log w; rng := rng w; me := me w;
        bot_username := Some button |}).
Proof.
  unfold scan_row. induction before as [|b before IH]; simpl; intros Hbefore Hb Hw.
  - unfold bind at 1. rewrite Hb.
    destruct w as [inb out blk lg rg m bu]. simpl in Hw. subst blk.
    reflexivity.
  - apply orb_false_elim in Hbefore as [Hb0 Hbefore].
    unfold bind at 1. rewrite Hb0. simpl. apply IH; assumption.
Qed.

(** When the first row has no matching button the loop returns [False]
    there, whatever the rows below hold. *)
Lemma scan_rows_first_row_only (row : list string)
    (rest : list (list string)) (w : World) :
  existsb search_bot row = false ->
  scan_rows (row :: rest) w = (Ok (Return RFalse), w).
Proof.
  intros H. unfold scan_rows. simpl. unfold bind.
  rewrite (scan_row_no_match row w H). reflexivity.
Qed.

(** Without any row the loop ends and nothing is returned from it. *)
Lemma scan_rows_empty (w : World) : scan_rows [] w = (Ok Next, w).
Proof. reflexivity. Qed.

(** C4. The matching button is on the second row of the grid: the
    function returns [False] and has clicked nothing. *)
Theorem revoke_token_misses_second_row :
  fst (_revoke_token Samples.revocation_second_row) = Ok RFalse
  /\ outbox (snd (_revoke_token Samples.revocation_second_row))
     = [SentText "/cancel"; SentText "/revoke"]
  /\ existsb (existsb search_bot)
       [["@shop_helper_bot"]; ["@teagram_abc123_bot"]] = true.
Proof. vm_compute. repeat split. Qed.

End RevokeToken.

(** ** paste_neko *)

Section PasteNeko.
Import Utils.
Context `{PythonRuntime}.

(** Whatever the upload raises becomes the failure string. *)
Lemma paste_neko_upload_fails (net : Network) (code : string) (e : exn) :
  upload net code = Raise e -> paste_neko net code = Ok "Pasting failed".
Proof. unfold paste_neko. intros ->. reflexivity. Qed.

(** X9. No connection, an error status, a body that is not JSON: the
    failure string is returned and nothing is raised. *)
Lemma upload_failures (net : Network) (code : string) :
  (forall e, net "https://nekobin.com/api/documents"
                 (VDict [("content", VStr code)]) = NoResponse e ->
             paste_neko net code = Ok "Pasting failed")
  /\ (forall status json,
        net "https://nekobin.com/api/documents"
            (VDict [("content", VStr code)]) = Response status json ->
        (400 <= status)%Z -> paste_neko net code = Ok "Pasting failed")
  /\ (forall status e,
        net "https://nekobin.com/api/documents"
            (VDict [("content", VStr code)]) = Response status (Raise e) ->
        paste_neko net code = Ok "Pasting failed").
Proof.
  split; [| split].
  - intros e Hnet. apply (paste_neko_upload_fails net code e).
    unfold upload. rewrite Hnet. reflexivity.
  - intros status json Hnet Hstatus.
    apply (paste_neko_upload_fails net code
             (OtherError "ClientResponseError")).
    unfold upload. rewrite Hnet.
    destruct (400 <=? status)%Z eqn:E; [reflexivity |].
    apply Z.leb_gt in E. lia.
  - intros status e Hnet. unfold paste_neko, upload. rewrite Hnet.
    destruct (400 <=? status)%Z; reflexivity.
Qed.

(** A response of the expected shape gives the URL. *)
Lemma paste_neko_success (net : Network) (code key : string)
    (status : Z) (others inner_others : list (string * PyVal)) :
  net "https://nekobin.com/api/documents" (VDict [("content", VStr code)])
  = Response status
      (Ok (VDict (("result", VDict (("key", VStr key) :: inner_others))
                  :: others))) ->
  (status < 400)%Z ->
  paste_neko net code = Ok ("nekobin.com/" +:+ key +:+ ".py").
Proof.
  intros Hnet Hstatus. unfold paste_neko, upload. rewrite Hnet.
  destruct (400 <=? status)%Z eqn:E.
  - apply Z.leb_le in E. lia.
  - reflexivity.
Qed.

(** C7. The service answers 200 with a JSON object without [result]: the
    subscript in the [else] clause raises [KeyError], which nothing
    catches. *)
Theorem paste_neko_raises_on_odd_json (code : string) :
  paste_neko Samples.odd_service code = Raise (KeyError "result").
Proof. reflexivity. Qed.

End PasteNeko.

(** ** get_langpack *)

Section GetLangpack.
Import Utils.
Context `{PythonRuntime}.

(** One frame of the recursion. *)
Lemma get_langpack_frame (depth : nat) :
  get_langpack (S depth)
  = bind (db_get "teagram.loader" "lang" VNone)
      (fun lang =>
         if negb (truthy lang) then
           bind (db_set "teagram.loader" "lang" (VStr "en"))
             (fun _ => bind (get_langpack depth) (fun _ => ret VNone))
         else
           bind (open_file ("teagram/langpacks/" +:+ py_str lang +:+ ".yml"))
             (fun file => bind (lift (yaml_safe_load file))
                               (fun pack => ret pack))).
Proof. reflexivity. Qed.

(** With a language stored, what loading its file gives is returned and
    nothing is written. *)
Lemma get_langpack_stored (depth : nat) (w : World) (lang content : string) :
  db w !! ("teagram.loader", "lang") = Some (VStr lang) ->
  lang <> "" ->
  files w !! ("teagram/langpacks/" +:+ lang +:+ ".yml") = Some content ->
  get_langpack (S depth) w = (yaml_safe_load content, w).
Proof.
  intros Hlang Hne Hfile. rewrite get_langpack_frame.
  cbv [bind db_get gets Database.get]. rewrite Hlang. cbn [truthy py_str].
  destruct (String.eqb lang "") eqn:E;
    [apply String.eqb_eq in E; contradiction |].
  cbn [negb]. cbv [open_file lift ret]. rewrite Hfile.
  destruct (yaml_safe_load content); reflexivity.
Qed.

(** With no language stored, [en] is stored, the pack of [en] is loaded by
    the inner call, and the outer call returns [None]. *)
Lemma get_langpack_first_miss (depth : nat) (w : World) (content : string) :
  db w !! ("teagram.loader", "lang") = None ->
  files w !! "teagram/langpacks/en.yml" = Some content ->
  get_langpack (S (S depth)) w
  = (match yaml_safe_load content with
     | Ok _ => Ok VNone
     | Raise e => Raise e
     end,
     {| db := Database.set (db w) "teagram.loader" "lang" (VStr "en");
        files := files w |}).
Proof.
  intros Hlang Hfile. rewrite get_langpack_frame.
  cbv [bind db_get gets Database.get]. rewrite Hlang. cbn [truthy negb].
  cbv [db_set modify].
  rewrite (get_langpack_stored depth _ "en" content).
  - destruct (yaml_safe_load content); reflexivity.
  - cbn [db]. unfold Database.set. apply lookup_insert_eq.
  - discriminate.
  - exact Hfile.
Qed.

(** C8. On the first miss [en] is persisted and the pack of [en] is
    loaded, but the value of the call is [None], not the pack: here with
    an empty store and the file of [en] present, whatever the recursion
    limit above two frames. *)
Theorem get_langpack_returns_none_on_first_miss (depth : nat)
    (content : string) :
  get_langpack (S (S depth))
    {| db := ∅; files := {[ "teagram/langpacks/en.yml" := content ]} |}
  = (match yaml_safe_load content with
     | Ok _ => Ok VNone
     | Raise e => Raise e
     end,
     {| db := Database.set ∅ "teagram.loader" "lang" (VStr "en");
        files := {[ "teagram/langpacks/en.yml" := content ]} |}).
Proof.
  rewrite (get_langpack_first_miss depth _ content).
  - reflexivity.
  - apply lookup_empty.
  - apply lookup_singleton_eq.
Qed.

End GetLangpack.

(** ** The ownership check *)

Section Ownership.
Import ConfigMod Spec.
Context `{PythonRuntime} `{Loader}.

Lemma not_owner_stranger (call : CallbackQuery) (w : World) :
  me (self w) <> Some (from_user_id call) ->
  not_owner call w = (Ok true, w).
Proof.
  intros Hme. unfold not_owner, gets. destruct (me (self w)) as [owner |].
  - destruct (from_user_id call =? owner)%Z eqn:E; [| reflexivity].
    apply Z.eqb_eq in E. subst owner. contradiction.
  - reflexivity.
Qed.

Lemma not_owner_owner (call : CallbackQuery) (w : World) :
  me (self w) = Some (from_user_id call) ->
  not_owner call w = (Ok false, w).
Proof.
  intros Hme. unfold not_owner, gets. rewrite Hme, Z.eqb_refl. reflexivity.
Qed.

Lemma reject_answers (w : World) (msg : string) :
  strings w !! "noowner" = Some msg -> reject w = (Ok tt, answered msg w).
Proof.
  intros Hmsg. unfold reject, bind, string_of. rewrite Hmsg. reflexivity.
Qed.

(** Without the rejection text the handler stops at the lookup, and still
    nothing has changed. *)
Lemma reject_without_text (w : World) :
  strings w !! "noowner" = None -> reject w = (Raise (KeyError "noowner"), w).
Proof.
  intros Hmsg. unfold reject, bind, string_of. rewrite Hmsg. reflexivity.
Qed.

Lemma answered_only (msg : string) (w : World) :
  only_answered msg w (Ok tt, answered msg w).
Proof. unfold only_answered. repeat split. Qed.

(** C5. For a user who is not the recorded owner each of the four handlers
    answers with the rejection text and does nothing else: the instance
    fields, the shared pending-edit map, the descriptors and the store
    are as before. *)
Theorem stranger_is_rejected (call : CallbackQuery) (w : World)
    (msg : string) :
  me (self w) <> Some (from_user_id call) ->
  strings w !! "noowner" = Some msg ->
  Forall (fun handler => only_answered msg w (handler call w))
         callback_handlers.
Proof.
  intros Hme Hmsg. unfold callback_handlers.
  constructor; [| constructor; [| constructor; [| constructor;
    [| constructor]]]].
  - unfold config_callback_handler.
    rewrite (bind_step _ _ _ _ _ (not_owner_stranger call w Hme)).
    rewrite (reject_answers w msg Hmsg). apply answered_only.
  - unfold answer_callback_handler.
    rewrite (bind_step _ _ _ _ _ (not_owner_stranger call w Hme)).
    rewrite (reject_answers w msg Hmsg). apply answered_only.
  - unfold change_attribute_callback_handler.
    rewrite (bind_step _ _ _ _ _ (not_owner_stranger call w Hme)).
    rewrite (reject_answers w msg Hmsg). apply answered_only.
  - unfold _change_callback_handler.
    rewrite (bind_step _ _ _ _ _ (not_owner_stranger call w Hme)).
    rewrite (reject_answers w msg Hmsg). apply answered_only.
Qed.

End Ownership.

Lemma stranger_is_rejected_witness :
  Forall (fun handler =>
            Spec.only_answered "You are not the owner" Samples.editing
              (handler (Samples.press 7 "change_def") Samples.editing))
         (@Spec.callback_handlers Samples.runtime Samples.loader).
Proof.
  apply (@stranger_is_rejected Samples.runtime Samples.loader
           (Samples.press 7 "change_def") Samples.editing
           "You are not the owner").
  - simpl. discriminate.
  - vm_compute. reflexivity.
Defined.


(** ** Reset to default *)

Section ResetToDefault.
Import ConfigMod.
Context `{PythonRuntime} `{Loader}.

Lemma config_lookup_setitem (c : Config.t) (key : string) (v : PyVal) :
  option_map Config.value (Config.lookup (Config.setitem c key v) key)
  = Some v.
Proof.
  unfold Config.lookup.
  induction c as [|[k cv] rest IH]; simpl.
  - rewrite String.eqb_refl. reflexivity.
  - destruct (String.eqb k key) eqn:E; simpl; rewrite E.
    + reflexivity.
    + exact IH.
Qed.

(** After [c[key] = v] the live value of [key] is [v]. *)
Lemma config_get_setitem (c : Config.t) (key : string) (v : PyVal) :
  Config.get (Config.setitem c key v) key = v.
Proof.
  pose proof (config_lookup_setitem c key v) as Hl. unfold Config.get.
  destruct (Config.lookup (Config.setitem c key v) key);
    simpl in Hl; congruence.
Qed.

(** The defaults are not touched by an assignment. *)
Lemma config_get_default_setitem (c : Config.t) (key : string)
    (v d : PyVal) :
  Config.get_default c key = Ok d ->
  Config.get_default (Config.setitem c key v) key = Ok d.
Proof.
  unfold Config.get_default, Config.lookup.
  induction c as [|[k cv] rest IH]; simpl.
  - discriminate.
  - destruct (String.eqb k key) eqn:E; simpl; rewrite E; simpl.
    + intros Hd. exact Hd.
    + exact IH.
Qed.

End ResetToDefault.


(** ** The callback data of an attribute *)

Section ChAttr.
Import ConfigMod Spec.


Lemma count_char_append (c : ascii) (s t : string) :
  count_char c (s +:+ t) = (count_char c s + count_char c t)%nat.
Proof.
  induction s as [|x s IH].
  - reflexivity.
  - rewrite append_cons. simpl. rewrite IH. lia.
Qed.

Lemma has_char_count (c : ascii) (s : string) :
  has_char c s = false <-> count_char c s = O.
Proof.
  induction s as [|x s IH]; simpl.
  - tauto.
  - destruct (Ascii.eqb x c); simpl.
    + split; [discriminate | lia].
    + exact IH.
Qed.

(** An occurrence of [ch_attr_] brings two underscores. *)
Lemma contains_ch_attr_count (s : string) :
  PyStr.contains "ch_attr_" s = true -> (2 <= count_char "_" s)%nat.
Proof.
  induction s as [|x s IH].
  - simpl. discriminate.
  - cbn [PyStr.contains]. intros H. apply orb_prop in H as [H | H].
    + apply startswith_append in H as [t ->].
      rewrite count_char_append. simpl. lia.
    + apply IH in H. simpl. lia.
Qed.

(** Where the pattern does not occur, [replace] changes nothing. *)
Lemma replace_absent (old new s : string) :
  PyStr.contains old s = false -> PyStr.replace_from old new 0 s = s.
Proof.
  induction s as [|x s IH]; intros H.
  - reflexivity.
  - cbn [PyStr.contains] in H. apply orb_false_elim in H as [Hs Hrest].
    cbn [PyStr.replace_from]. rewrite Hs, (IH Hrest). reflexivity.
Qed.

(** The occurrence at the head of the callback data is removed. *)
Lemma replace_ch_attr_head (rest : string) :
  PyStr.replace "ch_attr_" "" ("ch_attr_" +:+ rest)
  = PyStr.replace "ch_attr_" "" rest.
Proof. destruct rest; reflexivity. Qed.

Lemma split_on_not_nil (sep : ascii) (s : string) :
  PyStr.split_on sep s <> [].
Proof.
  destruct s as [|x s]; simpl; [discriminate |].
  destruct (Ascii.eqb x sep); [discriminate |].
  destruct (PyStr.split_on sep s); discriminate.
Qed.

(** The fields of [s1 sep s2] are those of [s1] followed by those of
    [s2]. *)
Lemma split_on_append (sep : ascii) (s1 s2 : string) :
  PyStr.split_on sep (s1 +:+ String sep s2)
  = PyStr.split_on sep s1 ++ PyStr.split_on sep s2.
Proof.
  induction s1 as [|x s1 IH].
  - rewrite append_empty. simpl. rewrite Ascii.eqb_refl. reflexivity.
  - rewrite append_cons. simpl. rewrite IH.
    destruct (Ascii.eqb x sep); [reflexivity |].
    destruct (PyStr.split_on sep s1) as [|f fs] eqn:E.
    + exfalso. exact (split_on_not_nil sep s1 E).
    + reflexivity.
Qed.

(** The first field is the string cut at its first separator. *)
Lemma split_on_head (sep : ascii) (s : string) :
  exists fs, PyStr.split_on sep s = until_char sep s :: fs.
Proof.
  induction s as [|x s [fs IH]]; simpl.
  - exists []. reflexivity.
  - destruct (Ascii.eqb x sep).
    + eexists. reflexivity.
    + rewrite IH. exists fs. reflexivity.
Qed.

Lemma split_on_whole (sep : ascii) (s : string) :
  has_char sep s = false -> PyStr.split_on sep s = [s].
Proof.
  induction s as [|x s IH]; simpl; intros H.
  - reflexivity.
  - apply orb_false_elim in H as [Hx Hs]. rewrite Hx, (IH Hs). reflexivity.
Qed.

Lemma split_on_fields (sep : ascii) (s : string) :
  Forall (fun f => has_char sep f = false) (PyStr.split_on sep s).
Proof.
  induction s as [|x s IH]; simpl.
  - constructor; [reflexivity | constructor].
  - destruct (Ascii.eqb x sep) eqn:E.
    + constructor; [reflexivity | exact IH].
    + destruct (PyStr.split_on sep s) as [|f fs].
      * constructor; [simpl; rewrite E; reflexivity | constructor].
      * inversion IH as [|? ? Hf Hfs]; subst.
        constructor; [simpl; rewrite E; exact Hf | exact Hfs].
Qed.

Lemma until_char_whole (c : ascii) (s : string) :
  has_char c s = false -> until_char c s = s.
Proof.
  induction s as [|x s IH]; simpl; intros H.
  - reflexivity.
  - apply orb_false_elim in H as [Hx Hs]. rewrite Hx, (IH Hs). reflexivity.
Qed.

Lemma until_char_prefix (c : ascii) (s : string) :
  PyStr.startswith s (until_char c s) = true.
Proof.
  unfold PyStr.startswith. induction s as [|x s IH]; simpl.
  - reflexivity.
  - destruct (Ascii.eqb x c); simpl; [reflexivity |].
    destruct (ascii_dec x x); [exact IH | contradiction].
Qed.

(** The parsed names never hold an underscore. *)
Lemma parse_ch_attr_fields (data module attribute : string) :
  parse_ch_attr data = Ok (module, attribute) ->
  has_char "_" module = false /\ has_char "_" attribute = false.
Proof.
  unfold parse_ch_attr.
  pose proof (split_on_fields "_" (PyStr.replace "ch_attr_" "" data)) as Hf.
  destruct (PyStr.split_on "_" (PyStr.replace "ch_attr_" "" data))
    as [|f0 [|f1 fs]]; try discriminate.
  intros E. inversion E; subst.
  inversion Hf as [|? ? H0 Hrest]; subst.
  inversion Hrest as [|? ? H1 _]; subst. split; assumption.
Qed.

(** What the handler reads back when [ch_attr_] occurs only at the head
    of the data: the first two of the fields of the module name followed
    by the fields of the attribute name. *)
Lemma parse_ch_attr_data (module_name attribute : string) :
  let module := short_name module_name in
  PyStr.contains "ch_attr_" (module +:+ "_" +:+ attribute) = false ->
  parse_ch_attr (ch_attr_data module_name attribute)
  = match PyStr.split_on "_" module ++ PyStr.split_on "_" attribute with
    | m :: a :: _ => Ok (m, a)
    | _ => Raise IndexError
    end.
Proof.
  intros module Habsent. unfold parse_ch_attr, ch_attr_data. fold module.
  rewrite replace_ch_attr_head. unfold PyStr.replace.
  rewrite (replace_absent _ _ _ Habsent).
  change (module +:+ "_" +:+ attribute)
    with (module +:+ String "_" attribute).
  rewrite split_on_append. reflexivity.
Qed.

Lemma no_underscore_no_ch_attr (module attribute : string) :
  has_char "_" module = false -> has_char "_" attribute = false ->
  PyStr.contains "ch_attr_" (module +:+ "_" +:+ attribute) = false.
Proof.
  intros Hm Ha.
  destruct (PyStr.contains "ch_attr_" (module +:+ "_" +:+ attribute)) eqn:E;
    [| reflexivity].
  apply contains_ch_attr_count in E.
  rewrite !count_char_append in E.
  apply has_char_count in Hm. apply has_char_count in Ha.
  rewrite Hm, Ha in E. simpl in E. lia.
Qed.

Lemma split_on_two (sep : ascii) (s : string) :
  has_char sep s = true ->
  exists f0 f1 fs, PyStr.split_on sep s = f0 :: f1 :: fs.
Proof.
  induction s as [|x s IH]; simpl; intros H.
  - discriminate.
  - destruct (Ascii.eqb x sep); simpl in H.
    + destruct (PyStr.split_on sep s) as [|f fs] eqn:E.
      * exfalso. exact (split_on_not_nil sep s E).
      * exists "", f, fs. reflexivity.
    + destruct (IH H) as (f0 & f1 & fs & ->).
      exists (String x f0), f1, fs. reflexivity.
Qed.

(** C9, as stated, fails: for the module [a_b] and the attribute [x] the
    parsed attribute is [b], a piece of the module name and no beginning
    of [x]. *)
Lemma ch_attr_truncation_counterexample :
  ~ (forall module_name attribute : string,
       has_char "_" (short_name module_name) = true
       \/ has_char "_" attribute = true ->
       exists m a,
         parse_ch_attr (ch_attr_data module_name attribute) = Ok (m, a)
         /\ PyStr.startswith (short_name module_name) m = true
         /\ PyStr.startswith attribute a = true).
Proof.
  intros Hclaim.
  destruct (Hclaim "a_b" "x" (or_introl eq_refl)) as (m & a & Hparse & _ & Ha).
  vm_compute in Hparse. inversion Hparse; subst. discriminate Ha.
Qed.

(** C9, amended. The pair put into [ch_attr_<module>_<attribute>] is read
    back exactly when neither name holds an underscore. When [ch_attr_]
    does not occur in [<module>_<attribute>], two names are read back:
    the module name cut at its first underscore, and then, for a module
    name without underscore, the attribute name cut at its first
    underscore, otherwise the second field of the module name. *)
Theorem ch_attr_round_trip (module_name attribute : string) :
  let module := short_name module_name in
  (parse_ch_attr (ch_attr_data module_name attribute) = Ok (module, attribute)
   <-> has_char "_" module = false /\ has_char "_" attribute = false)
  /\ (PyStr.contains "ch_attr_" (module +:+ "_" +:+ attribute) = false ->
      exists m a,
        parse_ch_attr (ch_attr_data module_name attribute) = Ok (m, a)
        /\ m = until_char "_" module
        /\ PyStr.startswith module m = true
        /\ (has_char "_" module = false ->
            m = module /\ a = until_char "_" attribute
            /\ PyStr.startswith attribute a = true)
        /\ (has_char "_" module = true ->
            exists rest, PyStr.split_on "_" module = m :: a :: rest)).
Proof.
  intros module. split.
  - split.
    + apply parse_ch_attr_fields.
    + intros [Hm Ha].
      rewrite (parse_ch_attr_data module_name attribute
                 (no_underscore_no_ch_attr module attribute Hm Ha)).
      fold module.
      rewrite (split_on_whole "_" module Hm),
              (split_on_whole "_" attribute Ha).
      reflexivity.
  - intros Habsent.
    rewrite (parse_ch_attr_data module_name attribute Habsent). fold module.
    destruct (split_on_head "_" attribute) as [gs Hattr]. rewrite Hattr.
    destruct (has_char "_" module) eqn:Hm.
    + destruct (split_on_two "_" module Hm) as (f0 & f1 & fs & Hsplit).
      destruct (split_on_head "_" module) as [fs' Hhead].
      rewrite Hsplit in Hhead. inversion Hhead; subst f0 fs'.
      rewrite Hsplit. exists (until_char "_" module), f1.
      repeat split.
      * apply until_char_prefix.
      * discriminate.
      * discriminate.
      * discriminate.
      * intros _. exists fs. reflexivity.
    + rewrite (split_on_whole "_" module Hm).
      exists module, (until_char "_" attribute).
      repeat split.
      * symmetry. apply until_char_whole, Hm.
      * rewrite <- (until_char_whole "_" module Hm) at 2.
        apply until_char_prefix.
      * apply until_char_prefix.
      * discriminate.
Qed.

Lemma ch_attr_round_trip_witness :
  parse_ch_attr (ch_attr_data "teagram.modules.greeter" "log_level")
  = Ok ("greeter", "log")
  /\ parse_ch_attr (ch_attr_data "teagram.modules.greeter" "greeting")
     = Ok ("greeter", "greeting").
Proof.
  split.
  - destruct (proj2 (ch_attr_round_trip "teagram.modules.greeter"
                       "log_level"))
      as (m & a & Hparse & Hm & _ & Hplain & _);
      [vm_compute; reflexivity |].
    destruct (Hplain eq_refl) as (_ & Ha & _).
    rewrite Hparse, Hm, Ha. reflexivity.
  - apply (proj1 (ch_attr_round_trip "teagram.modules.greeter" "greeting")).
    split; reflexivity.
Defined.

End ChAttr.

(** ** A session of the owner *)

Section Session.
Import ConfigMod.

(** The owner picks [greeting] of the plugin [greeter] and resets it: after
    the first step the edit is pending in the instance and in the shared
    map, after the second the default is in the descriptor and in the
    store and the instance has no pending edit; the entry of the shared
    map is still there. *)
Lemma pick_then_reset :
  let picked :=
    snd (@change_attribute_callback_handler Samples.runtime Samples.loader
           (Samples.press 1000 "ch_attr_greeter_greeting")
           Samples.browsing) in
  let restored :=
    snd (@_change_callback_handler Samples.runtime
           (Samples.press 1000 "change_def") picked) in
  pending (self picked) = VStr "greeting"
  /\ option_map name (pending_module (self picked)) = Some "greeter"
  /\ pending_id (self picked) = "abc"
  /\ option_map edit_attr (bot_cfg picked !! "abc") = Some "greeting"
  /\ pending (self restored) = VBool false
  /\ pending_module (self restored) = None
  /\ option_map (fun c => Config.get c "greeting") (configs restored !! 0%nat)
     = Some (VStr "hello")
  /\ db restored !! ("greeter", "greeting") = Some (VStr "hello")
  /\ option_map edit_attr (bot_cfg restored !! "abc") = Some "greeting".
Proof. vm_compute. repeat split. Qed.

End Session.

(** * Further properties *)

(** ** get_full_command: the shape of the result *)

Section CommandShape.
Import Utils Spec.

Lemma get_full_command_first_match_witness :
  get_full_command_with ["."; "!"] (Some "!Ping  a  b ")
  = Ok (".", "ping", "a  b ").
Proof.
  apply (get_full_command_first_match ["."] [] "!" (Some "!Ping  a  b ")).
  - intros q [<- | []]. reflexivity.
  - reflexivity.
Defined.

Lemma lstrip_no_leading_blank (s : string) :
  no_leading_blank (PyStr.lstrip s) = true.
Proof.
  induction s as [|c s IH]; simpl.
  - reflexivity.
  - destruct (PyStr.isspace c) eqn:E; [exact IH | simpl; rewrite E; reflexivity].
Qed.

Lemma lstrip_blank (s : string) :
  all_chars PyStr.isspace s = true -> PyStr.lstrip s = "".
Proof.
  induction s as [|c s IH]; simpl; intros H.
  - reflexivity.
  - apply andb_prop in H as [Hc Hs]. rewrite Hc. apply IH, Hs.
Qed.

Lemma span_word_no_blank (s : string) :
  all_chars (fun c => negb (PyStr.isspace c)) (fst (PyStr.span_word s)) = true.
Proof.
  induction s as [|c s IH]; simpl.
  - reflexivity.
  - destruct (PyStr.isspace c) eqn:E; simpl.
    + reflexivity.
    + destruct (PyStr.span_word s) as [w r]. simpl in *. rewrite E, IH.
      reflexivity.
Qed.

Lemma span_word_not_empty (c : ascii) (s : string) :
  PyStr.isspace c = false -> fst (PyStr.span_word (String c s)) <> "".
Proof.
  intros E. simpl. rewrite E. destruct (PyStr.span_word s). discriminate.
Qed.

(** Lowering a character makes no blank of it and leaves a blank one. *)
Lemma lower_char_no_blank (c : ascii) :
  PyStr.isspace (PyStr.lower_char c) = PyStr.isspace c.
Proof.
  destruct c as [[] [] [] [] [] [] [] []]; vm_compute; reflexivity.
Qed.

Lemma lower_not_empty (w : string) : w <> "" -> PyStr.lower w <> "".
Proof. destruct w; [contradiction | discriminate]. Qed.

(** [lstrip] takes a run of blanks off. *)
Lemma lstrip_parts (s : string) :
  exists blanks,
    s = blanks +:+ PyStr.lstrip s /\ all_chars PyStr.isspace blanks = true.
Proof.
  induction s as [|c s IH].
  - exists "". split; reflexivity.
  - simpl. destruct (PyStr.isspace c) eqn:E.
    + destruct IH as (blanks & Hs & Hb). exists (String c blanks).
      split; [rewrite append_cons, <- Hs; reflexivity |].
      simpl. rewrite E, Hb. reflexivity.
    + exists "". split; reflexivity.
Qed.

(** [span_word] cuts the string, and what it leaves is empty or begins
    with a blank. *)
Lemma span_word_parts (s : string) :
  s = fst (PyStr.span_word s) +:+ snd (PyStr.span_word s)
  /\ (snd (PyStr.span_word s) <> "" ->
      no_leading_blank (snd (PyStr.span_word s)) = false).
Proof.
  induction s as [|c s IH]; simpl.
  - split; [reflexivity | contradiction].
  - destruct (PyStr.isspace c) eqn:E; simpl.
    + split; [reflexivity |]. intros _. rewrite E. reflexivity.
    + destruct (PyStr.span_word s) as [w r]. simpl in *.
      destruct IH as [Hs Hr]. split; [rewrite append_cons, <- Hs; reflexivity |].
      exact Hr.
Qed.

Lemma lstrip_all_blank (s : string) :
  PyStr.lstrip s = "" -> all_chars PyStr.isspace s = true.
Proof.
  induction s as [|c s IH]; simpl; intros Hs.
  - reflexivity.
  - destruct (PyStr.isspace c); [exact (IH Hs) | discriminate].
Qed.

(** What [split(maxsplit=1)] gives, and where it stands in the string:
    nothing for blanks only; else the first word, and the rest after the
    blanks that follow the word when there is one. *)
Lemma split_maxsplit1_parts (s : string) :
  match PyStr.split_maxsplit1 s with
  | [] => all_chars PyStr.isspace s = true
  | [w] =>
      w <> "" /\ all_chars (fun c => negb (PyStr.isspace c)) w = true
      /\ exists blanks gap,
           s = blanks +:+ w +:+ gap
           /\ all_chars PyStr.isspace blanks = true
           /\ all_chars PyStr.isspace gap = true
  | [w; r] =>
      w <> "" /\ all_chars (fun c => negb (PyStr.isspace c)) w = true
      /\ r <> "" /\ no_leading_blank r = true
      /\ exists blanks gap,
           s = blanks +:+ w +:+ gap +:+ r
           /\ all_chars PyStr.isspace blanks = true
           /\ all_chars PyStr.isspace gap = true
           /\ gap <> ""
  | _ => False
  end.
Proof.
  unfold PyStr.split_maxsplit1.
  pose proof (lstrip_no_leading_blank s) as Hhead.
  destruct (lstrip_parts s) as (blanks & Hs & Hblanks).
  destruct (PyStr.lstrip s) as [|c s1] eqn:Hstrip.
  - apply lstrip_all_blank, Hstrip.
  - simpl in Hhead. apply negb_true_iff in Hhead.
    pose proof (span_word_no_blank (String c s1)) as Hw.
    pose proof (span_word_not_empty c s1 Hhead) as Hne.
    destruct (span_word_parts (String c s1)) as [Hcut Hrest].
    destruct (PyStr.span_word (String c s1)) as [w r].
    cbn [fst snd] in Hw, Hne, Hcut, Hrest.
    pose proof (lstrip_no_leading_blank r) as Hr.
    destruct (lstrip_parts r) as (gap & Hgap & Hgapb).
    destruct (PyStr.lstrip r) as [|c' r'] eqn:Hstrip'.
    + repeat split; try assumption.
      exists blanks, r. rewrite Hs, Hcut. repeat split; [assumption |].
      apply lstrip_all_blank, Hstrip'.
    + repeat split; try assumption; [discriminate |].
      exists blanks, gap. rewrite Hs, Hcut, <- Hgap.
      repeat split; try assumption.
      intros ->. rewrite append_empty in Hgap. subst r.
      assert (Hnb : no_leading_blank (String c' r') = false)
        by (apply Hrest; discriminate).
      congruence.
Qed.

(** The prefix that the loop stopped at. *)
Lemma scan_prefixes_some (text : string) (prefixes : list string)
    (r : result (string * list string)) :
  scan_prefixes text prefixes = Some r ->
  exists q,
    In q prefixes /\ prefix_matches text q = true
    /\ r = unpack_command
             (PyStr.split_maxsplit1 (PyStr.drop (PyStr.len q) text)).
Proof.
  induction prefixes as [|q rest IH]; simpl; intros Hscan.
  - discriminate.
  - destruct (prefix_matches text q) eqn:E.
    + exists q. inversion Hscan. repeat split; [left; reflexivity | exact E].
    + destruct (IH Hscan) as (q' & Hin & Hq' & Hr).
      exists q'. repeat split; [right; exact Hin | exact Hq' | exact Hr].
Qed.

Lemma lower_word_no_blank (w : string) :
  all_chars (fun c => negb (PyStr.isspace c)) w = true ->
  all_chars (fun c => negb (PyStr.isspace c)) (PyStr.lower w) = true.
Proof.
  induction w as [|c w IH]; simpl; intros Hw.
  - reflexivity.
  - apply andb_prop in Hw as [Hc Hw].
    rewrite lower_char_no_blank, Hc, (IH Hw).
    reflexivity.
Qed.

(** X2. For a stored list of strings, a result of [get_full_command] is
    the empty triple, or its prefix is the first registered one and the
    text is made of a registered prefix, blanks, a word, blanks again and
    the arguments: the command is that word lowered, it is not empty and
    holds no blank, and the arguments, when there are some, are parted
    from the word by a blank and do not begin with one. *)
Theorem get_full_command_shape (prefixes : list string)
    (message_text : option string) (p c a : string) :
  get_full_command_with prefixes message_text = Ok (p, c, a) ->
  (p = "" /\ c = "" /\ a = "")
  \/ ((exists rest, prefixes = p :: rest)
      /\ c <> ""
      /\ all_chars (fun x => negb (PyStr.isspace x)) c = true
      /\ no_leading_blank a = true
      /\ exists q blanks word gap,
           In q prefixes
           /\ str_of_text message_text
              = q +:+ blanks +:+ word +:+ gap +:+ a
           /\ all_chars PyStr.isspace blanks = true
           /\ all_chars (fun x => negb (PyStr.isspace x)) word = true
           /\ all_chars PyStr.isspace gap = true
           /\ (a <> "" -> gap <> "")
           /\ c = PyStr.lower word).
Proof.
  unfold get_full_command_with.
  destruct (scan_prefixes (str_of_text message_text) prefixes)
    as [[[command args] | e] |] eqn:Hscan.
  - intros H. inversion H; subst. clear H. right.
    destruct (scan_prefixes_some _ _ _ Hscan) as (q & Hin & Hq & Hunpack).
    apply prefix_matches_longer in Hq as [_ Hstart].
    apply startswith_append in Hstart as [tail Htext].
    rewrite Htext in Hunpack. unfold PyStr.len in Hunpack.
    rewrite drop_append in Hunpack.
    pose proof (split_maxsplit1_parts tail) as Hsplit.
    destruct (PyStr.split_maxsplit1 tail) as [|w [|r [|]]];
      simpl in Hunpack; try discriminate; inversion Hunpack; subst.
    + destruct Hsplit as (Hw & Hnb & blanks & gap & Htail & Hb & Hg).
      split; [| repeat split].
      * destruct prefixes as [|p0 rest]; [contradiction |].
        exists rest. reflexivity.
      * apply lower_not_empty, Hw.
      * apply lower_word_no_blank, Hnb.
      * exists q, blanks, w, gap. rewrite Htext, Htail, append_empty_r.
        repeat split; try assumption.
        intros Hne. exfalso. apply Hne. reflexivity.
    + destruct Hsplit as (Hw & Hnb & Hr & Hlead & blanks & gap & Htail
                          & Hb & Hg & Hgne).
      split; [| repeat split].
      * destruct prefixes as [|p0 rest]; [contradiction |].
        exists rest. reflexivity.
      * apply lower_not_empty, Hw.
      * apply lower_word_no_blank, Hnb.
      * exact Hlead.
      * exists q, blanks, w, gap. rewrite Htext, Htail.
        repeat split; try assumption. intros _. exact Hgne.
    + contradiction.
  - discriminate.
  - intros H. inversion H; subst. left. repeat split.
Qed.

Lemma get_full_command_shape_witness :
  get_full_command_with ["."; "!"] (Some "!Ping  a  b ")
  = Ok (".", "ping", "a  b ")
  /\ exists q blanks word gap,
       In q ["."; "!"]
       /\ "!Ping  a  b " = q +:+ blanks +:+ word +:+ gap +:+ "a  b "
       /\ all_chars PyStr.isspace gap = true
       /\ "ping" = PyStr.lower word.
Proof.
  split; [reflexivity |].
  destruct (get_full_command_shape ["."; "!"] (Some "!Ping  a  b ")
              "." "ping" "a  b " eq_refl)
    as [(Hp & _) | (_ & _ & _ & _ & q & blanks & word & gap & Hin & Htext
                    & _ & _ & Hgap & _ & Hc)].
  - discriminate Hp.
  - exists q, blanks, word, gap. repeat split; assumption.
Defined.

(** X3. A message that is a matching prefix followed by blanks only makes
    [get_full_command] raise [ValueError]: there is no word to unpack. *)
Theorem get_full_command_blank (before after : list string) (p : string)
    (message_text : option string) :
  let text := str_of_text message_text in
  (forall q, In q before -> prefix_matches text q = false) ->
  prefix_matches text p = true ->
  all_chars PyStr.isspace (PyStr.drop (PyStr.len p) text) = true ->
  get_full_command_with (before ++ p :: after) message_text
  = Raise (ValueError "not enough values to unpack" "").
Proof.
  intros text Hbefore Hp Hblank. unfold get_full_command_with. fold text.
  rewrite (scan_prefixes_first text before after p Hbefore Hp).
  unfold PyStr.split_maxsplit1. rewrite (lstrip_blank _ Hblank). reflexivity.
Qed.

Lemma get_full_command_blank_witness :
  get_full_command_with ["!"; "."] (Some ".   ")
  = Raise (ValueError "not enough values to unpack" "").
Proof.
  apply (get_full_command_blank ["!"] [] "." (Some ".   ")).
  - intros q [<- | []]. reflexivity.
  - reflexivity.
  - reflexivity.
Defined.

End CommandShape.

(** ** random_id *)

Section RandomId.
Import Utils Spec.

Lemma alphabet_length : PyStr.len (ascii_letters +:+ digits) = 62%nat.
Proof. reflexivity. Qed.

Lemma alphabet_alnum (k : nat) :
  (k < 62)%nat ->
  exists c, String.get k (ascii_letters +:+ digits) = Some c
            /\ PyStr.is_alnum c = true.
Proof.
  intros Hk.
  do 62 (destruct k as [|k]; [eexists; split; reflexivity |]).
  lia.
Qed.

(** A draw is a letter or a digit and moves the generator by one. *)
Lemma choice_alnum (r : Rng) :
  PyStr.is_alnum (fst (choice (ascii_letters +:+ digits) r)) = true
  /\ cursor (snd (choice (ascii_letters +:+ digits) r)) = S (cursor r)
  /\ draws (snd (choice (ascii_letters +:+ digits) r)) = draws r.
Proof.
  unfold choice. rewrite alphabet_length.
  destruct (alphabet_alnum (draws r (cursor r) mod 62)) as [c [Hget Hc]].
  - apply Nat.mod_upper_bound. discriminate.
  - rewrite Hget. cbn [fst snd cursor draws]. repeat split. exact Hc.
Qed.

(** X4. [random_id n] is a string of exactly [n] ASCII letters and digits,
    and it takes [n] draws from the generator. *)
Theorem random_id_alnum (n : nat) (r : Rng) :
  String.length (fst (random_id n r)) = n
  /\ all_chars PyStr.is_alnum (fst (random_id n r)) = true
  /\ cursor (snd (random_id n r)) = (cursor r + n)%nat
  /\ draws (snd (random_id n r)) = draws r.
Proof.
  revert r. induction n as [|n IH]; intros r.
  - simpl. repeat split. lia.
  - cbn [random_id].
    destruct (choice_alnum r) as (Hc & Hcur & Hdr).
    destruct (choice (ascii_letters +:+ digits) r) as [c r1].
    destruct (IH r1) as (Hlen & Hall & Hcur' & Hdr').
    destruct (random_id n r1) as [s r2]. simpl in *.
    rewrite Hlen, Hc, Hall, Hcur', Hcur, Hdr', Hdr.
    repeat split. lia.
Qed.

End RandomId.

(** ** get_display_name *)

Section DisplayName.
Import Utils.

(** X5. For a user with a first name the display name is the first name
    alone, whatever the last name; without a first name it is the last
    name after a blank, or the empty string; it never raises for a user.
    A chat gives its title, and a chat without title has no
    [first_name] to fall back on. *)
Theorem get_display_name_cases (first last title : string) :
  first <> "" ->
  last <> "" ->
  title <> "" ->
  (forall l, get_display_name (User (Some first) l) = Ok first)
  /\ get_display_name (User None (Some last)) = Ok (" " +:+ last)
  /\ get_display_name (User (Some "") (Some last)) = Ok (" " +:+ last)
  /\ get_display_name (User None None) = Ok ""
  /\ get_display_name (Chat (Some title)) = Ok title
  /\ get_display_name (Chat None) = Raise AttributeError
  /\ get_display_name (Chat (Some "")) = Raise AttributeError.
Proof.
  intros Hf Hl Ht.
  assert (E : forall s, s <> "" -> String.eqb s "" = false).
  { intros s Hs. destruct (String.eqb s "") eqn:E; [| reflexivity].
    apply String.eqb_eq in E. contradiction. }
  unfold get_display_name, str_truthy. simpl.
  rewrite (E first Hf), (E last Hl), (E title Ht). simpl.
  repeat split.
Qed.

Lemma get_display_name_cases_witness :
  get_display_name (User (Some "Ada") (Some "Lovelace")) = Ok "Ada"
  /\ get_display_name (User None (Some "Lovelace")) = Ok " Lovelace".
Proof.
  destruct (get_display_name_cases "Ada" "Lovelace" "Chat")
    as (Hfirst & Hlast & _); try discriminate.
  split; [apply Hfirst | exact Hlast].
Defined.

End DisplayName.

(** ** get_langpack: the recursion and the failures *)

Section LangpackMore.
Import Utils.
Context `{PythonRuntime}.

(** With a truthy value stored the call does not recurse. *)
Lemma get_langpack_truthy (depth : nat) (w : World) :
  truthy (Database.get (db w) "teagram.loader" "lang" VNone) = true ->
  get_langpack (S depth) w
  = (let path := "teagram/langpacks/"
                 +:+ py_str (Database.get (db w) "teagram.loader" "lang" VNone)
                 +:+ ".yml" in
     match files w !! path with
     | Some content => yaml_safe_load content
     | None => Raise (FileNotFoundError path)
     end, w).
Proof.
  intros Hlang. rewrite get_langpack_frame.
  cbv [bind db_get gets]. rewrite Hlang. cbn [negb].
  cbv [open_file lift ret].
  destruct (files w !! _) as [content |]; [| reflexivity].
  destruct (yaml_safe_load content); reflexivity.
Qed.

Lemma healed_lang (w : World) :
  Database.get (db (Spec.healed w)) "teagram.loader" "lang" VNone = VStr "en".
Proof.
  unfold Spec.healed, Database.get, Database.set. cbn [db].
  rewrite lookup_insert_eq. reflexivity.
Qed.

(** With a falsy value stored, or none, the call stores [en] and calls
    itself once. *)
Lemma get_langpack_falsy (depth : nat) (w : World) :
  truthy (Database.get (db w) "teagram.loader" "lang" VNone) = false ->
  get_langpack (S (S depth)) w
  = (match files w !! "teagram/langpacks/en.yml" with
     | Some content =>
         match yaml_safe_load content with
         | Ok _ => Ok VNone
         | Raise e => Raise e
         end
     | None => Raise (FileNotFoundError "teagram/langpacks/en.yml")
     end, Spec.healed w).
Proof.
  intros Hlang. rewrite get_langpack_frame.
  cbv [bind db_get gets]. rewrite Hlang. cbn [negb].
  cbv [db_set modify]. fold (Spec.healed w).
  rewrite (get_langpack_truthy depth (Spec.healed w));
    rewrite healed_lang; [| reflexivity].
  cbn [py_str]. cbn [files Spec.healed].
  change ("teagram/langpacks/" +:+ "en" +:+ ".yml")
    with "teagram/langpacks/en.yml".
  destruct (files w !! "teagram/langpacks/en.yml") as [content |];
    [| reflexivity].
  destruct (yaml_safe_load content); reflexivity.
Qed.

(** X6. [get_langpack] never needs more than two frames: with any
    recursion limit of at least two the run is the run with limit two, so
    the self-call cannot loop. *)
Theorem get_langpack_two_frames (depth : nat) (w : World) :
  get_langpack (S (S depth)) w = get_langpack 2 w.
Proof.
  destruct (truthy (Database.get (db w) "teagram.loader" "lang" VNone))
    eqn:Hlang.
  - rewrite (get_langpack_truthy (S depth) w Hlang),
            (get_langpack_truthy 1 w Hlang). reflexivity.
  - rewrite (get_langpack_falsy depth w Hlang),
            (get_langpack_falsy 0 w Hlang). reflexivity.
Qed.

(** X7. With a language stored, [get_langpack] only reads: it returns what
    the YAML loader makes of the file of that language, raises
    [FileNotFoundError] when the file is missing, and leaves the store as
    it is. *)
Theorem get_langpack_reads_only (depth : nat) (w : World) (lang : string) :
  db w !! ("teagram.loader", "lang") = Some (VStr lang) ->
  lang <> "" ->
  get_langpack (S depth) w
  = (match files w !! ("teagram/langpacks/" +:+ lang +:+ ".yml") with
     | Some content => yaml_safe_load content
     | None =>
         Raise (FileNotFoundError ("teagram/langpacks/" +:+ lang +:+ ".yml"))
     end, w).
Proof.
  intros Hlang Hne.
  assert (Hget : Database.get (db w) "teagram.loader" "lang" VNone = VStr lang).
  { unfold Database.get. rewrite Hlang. reflexivity. }
  rewrite (get_langpack_truthy depth w); rewrite Hget.
  - reflexivity.
  - simpl. destruct (String.eqb lang "") eqn:E; [| reflexivity].
    apply String.eqb_eq in E. contradiction.
Qed.

(** X8. When no language is stored, or an empty one, [en] is written to
    the store before the file is opened: the store holds [en] afterwards
    even when the pack of [en] is missing and the call raises
    [FileNotFoundError]. *)
Theorem get_langpack_heals_before_loading (depth : nat) (w : World) :
  truthy (Database.get (db w) "teagram.loader" "lang" VNone) = false ->
  files w !! "teagram/langpacks/en.yml" = None ->
  get_langpack (S (S depth)) w
  = (Raise (FileNotFoundError "teagram/langpacks/en.yml"), Spec.healed w)
  /\ db (snd (get_langpack (S (S depth)) w)) !! ("teagram.loader", "lang")
     = Some (VStr "en").
Proof.
  intros Hlang Hfile.
  rewrite (get_langpack_falsy depth w Hlang), Hfile.
  split; [reflexivity |].
  cbn [snd Spec.healed db]. unfold Database.set. apply lookup_insert_eq.
Qed.

End LangpackMore.

Lemma get_langpack_reads_only_witness :
  @Utils.get_langpack Samples.runtime 1 Samples.russian
  = (Ok (VDict [("text", VStr "name: ru")]), Samples.russian).
Proof.
  rewrite (@get_langpack_reads_only Samples.runtime 0 Samples.russian "ru").
  - vm_compute. reflexivity.
  - vm_compute. reflexivity.
  - discriminate.
Defined.

Lemma get_langpack_heals_before_loading_witness :
  fst (@Utils.get_langpack Samples.runtime 2 Samples.no_packs)
  = Raise (FileNotFoundError "teagram/langpacks/en.yml")
  /\ Utils.db (snd (@Utils.get_langpack Samples.runtime 2 Samples.no_packs))
     !! ("teagram.loader", "lang") = Some (VStr "en").
Proof.
  destruct (@get_langpack_heals_before_loading Samples.runtime 0
              Samples.no_packs) as [Hrun Hdb].
  - vm_compute. reflexivity.
  - vm_compute. reflexivity.
  - split; [rewrite Hrun; reflexivity | exact Hdb].
Defined.

(** ** paste_neko: the outcomes *)

Section PasteOutcomes.
Import Utils.
Context `{PythonRuntime}.

(** X10. Whatever the service does, [paste_neko] returns the failure
    string or a URL [nekobin.com/<key>.py], or it raises from the
    subscripts of the decoded body: [KeyError] for a missing [result] or
    [key], [TypeError] for a body or a [result] that is no object.
    Nothing else comes out of it. *)
Theorem paste_neko_outcomes (net : Network) (code : string) :
  match paste_neko net code with
  | Ok s =>
      s = "Pasting failed"
      \/ exists key, s = "nekobin.com/" +:+ key +:+ ".py"
  | Raise e =>
      (e = TypeError \/ e = KeyError "result" \/ e = KeyError "key")
      /\ exists body, upload net code = Ok body
  end.
Proof.
  unfold paste_neko.
  destruct (upload net code) as [body | e] eqn:Hup.
  - assert (Hget : forall v k,
              match getitem v k with
              | Ok _ => True
              | Raise e => e = TypeError \/ e = KeyError k
              end).
    { intros v k. unfold getitem. destruct v; try (left; reflexivity).
      destruct (List.find _ entries); [exact I | right; reflexivity]. }
    pose proof (Hget body "result") as H1.
    destruct (getitem body "result") as [inner | e1].
    + pose proof (Hget inner "key") as H2.
      destruct (getitem inner "key") as [key | e2].
      * right. exists (py_str key). reflexivity.
      * split; [tauto | exists body; reflexivity].
    + split; [tauto | exists body; reflexivity].
  - left. reflexivity.
Qed.

End PasteOutcomes.

Lemma upload_failures_witness :
  @Utils.paste_neko Samples.runtime Samples.unreachable "print(1)"
  = Ok "Pasting failed"
  /\ @Utils.paste_neko Samples.runtime Samples.overloaded "print(1)"
     = Ok "Pasting failed"
  /\ @Utils.paste_neko Samples.runtime Samples.garbled "print(1)"
     = Ok "Pasting failed".
Proof.
  split; [| split].
  - apply (proj1 (@upload_failures Samples.runtime Samples.unreachable
                    "print(1)") (OtherError "ClientConnectorError")).
    reflexivity.
  - apply (proj1 (proj2 (@upload_failures Samples.runtime Samples.overloaded
                           "print(1)")) 503%Z (Ok (VDict []))).
    + reflexivity.
    + lia.
  - apply (proj2 (proj2 (@upload_failures Samples.runtime Samples.garbled
                           "print(1)")) 200%Z (OtherError "ContentTypeError")).
    reflexivity.
Defined.

Lemma paste_neko_success_witness :
  @Utils.paste_neko Samples.runtime Samples.working "print(1)"
  = Ok "nekobin.com/abcdef.py".
Proof.
  apply (@paste_neko_success Samples.runtime Samples.working "print(1)"
           "abcdef" 201%Z [("ok", VBool true)] [("length", VInt 3)]).
  - vm_compute. reflexivity.
  - lia.
Defined.

(** ** answer *)

Section Answer.
Import Utils.

(** X11. A text answer edits the message in place and returns it; when the
    client refuses the edit, whatever the exception, the text is sent as
    a reply and the new message is returned. Nothing is uploaded or
    deleted, and exactly one message comes back. *)
Theorem answer_text (m : Msg) (text caption parse_mode : string)
    (cl cl' : Client) (msgs : list Msg) :
  answer (OneMessage m) (RText text) false false caption parse_mode cl
  = (Ok msgs, cl') ->
  (refuses cl (EditMessage (get_chat m) (msg_id m) text parse_mode) = None
   /\ msgs = [m]
   /\ calls cl'
      = calls cl ++ [EditMessage (get_chat m) (msg_id m) text parse_mode]
   /\ next_id cl' = next_id cl)
  \/ (refuses cl (EditMessage (get_chat m) (msg_id m) text parse_mode) <> None
      /\ refuses cl (Reply (msg_id m) text parse_mode) = None
      /\ msgs = [{| msg_id := next_id cl; msg_chat := msg_chat m;
                    msg_chat_peer := msg_chat_peer m |}]
      /\ calls cl' = calls cl ++ [Reply (msg_id m) text parse_mode]).
Proof.
  unfold answer. cbn [orb negb].
  cbv [bind try_except perform ret new_message every_exception].
  destruct (refuses cl (EditMessage (get_chat m) (msg_id m) text parse_mode))
    as [e |] eqn:Hedit.
  - destruct (refuses cl (Reply (msg_id m) text parse_mode)) as [e' |] eqn:Hr.
    + discriminate.
    + cbn [calls refuses next_id]. intros Hrun. inversion Hrun; subst.
      right. repeat split; try assumption; discriminate.
  - cbn [calls refuses next_id]. intros Hrun. inversion Hrun; subst.
    left. repeat split.
Qed.

(** When both the edit and the reply are refused, the exception of the
    reply comes out and the client has done nothing. *)
Lemma answer_text_refused (m : Msg) (text caption parse_mode : string)
    (cl : Client) (e e' : exn) :
  refuses cl (EditMessage (get_chat m) (msg_id m) text parse_mode) = Some e ->
  refuses cl (Reply (msg_id m) text parse_mode) = Some e' ->
  answer (OneMessage m) (RText text) false false caption parse_mode cl
  = (Raise e', cl).
Proof.
  intros Hedit Hr. unfold answer. cbn [orb negb].
  cbv [bind try_except perform ret new_message every_exception].
  rewrite Hedit, Hr. reflexivity.
Qed.

(** X12. With [photo] or [document] set the response is uploaded as a
    reply to the message and the message is then deleted; the message is
    never edited, even when the response is a string, and one message,
    the upload, comes back. When the client refuses the deletion the
    upload has already been made and the exception comes out. *)
Theorem answer_file (m : Msg) (response : ResponseValue)
    (photo document : bool) (caption parse_mode : string) (cl : Client) :
  photo || document = true ->
  refuses cl (SendFile (get_chat m) response caption parse_mode (msg_id m))
  = None ->
  let upload := SendFile (get_chat m) response caption parse_mode (msg_id m) in
  let removal := DeleteMessages (get_chat m) (msg_id m) in
  let sent := {| msg_id := next_id cl; msg_chat := msg_chat m;
                 msg_chat_peer := msg_chat_peer m |} in
  answer (OneMessage m) response photo document caption parse_mode cl
  = match refuses cl removal with
    | None =>
        (Ok [sent],
         {| calls := calls cl ++ [upload; removal]; refuses := refuses cl;
            next_id := (next_id cl + 1)%Z |})
    | Some e =>
        (Raise e,
         {| calls := calls cl ++ [upload]; refuses := refuses cl;
            next_id := (next_id cl + 1)%Z |})
    end.
Proof.
  intros Hflag Hup upload removal sent. subst upload removal sent.
  unfold answer. rewrite Hflag.
  cbn [negb].
  assert (Hfirst : forall (A : Type) (k : list Msg -> M Client A),
            bind (match response with
                  | RText _ => ret []
                  | RObject _ => ret []
                  end) k cl = k [] cl).
  { intros A k. destruct response; reflexivity. }
  rewrite Hfirst.
  cbv [bind perform new_message ret]. rewrite Hup.
  cbn [calls refuses next_id].
  destruct (refuses cl (DeleteMessages (get_chat m) (msg_id m)));
    [reflexivity |].
  cbn [calls]. rewrite <- app_assoc. reflexivity.
Qed.

(** [answer] does nothing at all in two cases: given a list of
    messages it raises [AttributeError] at once, since the client is read
    off the list itself, and given a response that is not a string without
    [photo] or [document] it returns the empty list. *)
Theorem answer_without_call (l : list Msg) (m : Msg)
    (response : ResponseValue) (descr caption parse_mode : string)
    (photo document : bool) (cl : Client) :
  answer (MessageList l) response photo document caption parse_mode cl
  = (Raise AttributeError, cl)
  /\ answer (OneMessage m) (RObject descr) false false caption parse_mode cl
     = (Ok [], cl).
Proof. split; reflexivity. Qed.

End Answer.

Lemma answer_text_witness :
  Utils.answer (Utils.OneMessage Samples.hello) (Utils.RText "pong")
    false false "" "html" Samples.no_edit
  = (Ok [{| Utils.msg_id := 42; Utils.msg_chat := Some 7%Z;
            Utils.msg_chat_peer := 7 |}],
     {| Utils.calls := [Utils.Reply 41 "pong" "html"];
        Utils.refuses := Utils.refuses Samples.no_edit;
        Utils.next_id := 43 |})
  /\ Utils.calls
       (snd (Utils.answer (Utils.OneMessage Samples.hello)
               (Utils.RText "pong") false false "" "html" Samples.no_edit))
     = [Utils.Reply 41 "pong" "html"].
Proof.
  assert (Hrun :
    Utils.answer (Utils.OneMessage Samples.hello) (Utils.RText "pong")
      false false "" "html" Samples.no_edit
    = (Ok [{| Utils.msg_id := 42; Utils.msg_chat := Some 7%Z;
              Utils.msg_chat_peer := 7 |}],
       {| Utils.calls := [Utils.Reply 41 "pong" "html"];
          Utils.refuses := Utils.refuses Samples.no_edit;
          Utils.next_id := 43 |})) by reflexivity.
  split; [exact Hrun |].
  destruct (answer_text _ _ _ _ _ _ _ Hrun)
    as [(Hedit & _) | (_ & _ & _ & Hcalls)].
  - discriminate Hedit.
  - rewrite Hrun. exact Hcalls.
Defined.

Lemma answer_file_witness :
  Utils.answer (Utils.OneMessage Samples.hello) (Utils.RText "cat.png")
    true false "A cat" "html" Samples.willing
  = (Ok [{| Utils.msg_id := 42; Utils.msg_chat := Some 7%Z;
            Utils.msg_chat_peer := 7 |}],
     {| Utils.calls :=
          [Utils.SendFile (Utils.ById 7) (Utils.RText "cat.png") "A cat"
             "html" 41;
           Utils.DeleteMessages (Utils.ById 7) 41];
        Utils.refuses := Utils.refuses Samples.willing;
        Utils.next_id := 43 |}).
Proof.
  rewrite (answer_file Samples.hello (Utils.RText "cat.png") true false
             "A cat" "html" Samples.willing); reflexivity.
Defined.

(** ** The patterns of the token manager *)

Section Patterns.
Import TokenManager Spec.


(** X13. Whatever the raw pattern finds is a piece of the text made of
    one digit or more, a colon, and exactly 35 characters among letters,
    digits, [_] and [-]. *)
Theorem search_token_shape (text token : string) :
  search_token text = Some token ->
  exists before number secret after,
    text = before +:+ token +:+ after
    /\ token = number +:+ ":" +:+ secret
    /\ number <> ""
    /\ all_chars PyStr.is_digit number = true
    /\ String.length secret = 35%nat
    /\ all_chars token_char secret = true.
Proof.
  induction text as [|c text IH]; cbn [search_token]; intros H.
  - destruct (match_token_at "") as [m |] eqn:Hm; [| discriminate].
    inversion H; subst m.
    destruct (match_token_at_shape "" token Hm)
      as (number & secret & Htok & Hne & Hd & Hl & Hs & rest & Hrest).
    exists "", number, secret, rest. repeat split; assumption.
  - destruct (match_token_at (String c text)) as [m |] eqn:Hm.
    + inversion H; subst m.
      destruct (match_token_at_shape _ token Hm)
        as (number & secret & Htok & Hne & Hd & Hl & Hs & rest & Hrest).
      exists "", number, secret, rest. repeat split; assumption.
    + destruct (IH H)
        as (before & number & secret & after & Htext & Htok & Hrest).
      exists (String c before), number, secret, after.
      split; [rewrite append_cons, <- Htext; reflexivity |].
      split; [exact Htok | exact Hrest].
Qed.

Lemma search_token_shape_witness :
  exists before number secret after,
    "Use 99:ABCDEFGHIJKLMNOPQRSTUVWXYZabcdef012!"
    = before +:+ "99:ABCDEFGHIJKLMNOPQRSTUVWXYZabcdef012" +:+ after
    /\ "99:ABCDEFGHIJKLMNOPQRSTUVWXYZabcdef012" = number +:+ ":" +:+ secret
    /\ number <> ""
    /\ all_chars PyStr.is_digit number = true
    /\ String.length secret = 35%nat
    /\ all_chars token_char secret = true.
Proof.
  apply (search_token_shape "Use 99:ABCDEFGHIJKLMNOPQRSTUVWXYZabcdef012!").
  vm_compute. reflexivity.
Defined.


Lemma search_code_from_shape (text : string) (i : nat) (s m : string) :
  s = PyStr.drop i text ->
  search_code_from text i s = Some m ->
  has_char "010" m = false
  /\ exists before after,
       text = before +:+ "<code>" +:+ m +:+ "</code>" +:+ after.
Proof.
  revert i. induction s as [|c s IH]; intros i Hs; cbn [search_code_from].
  - destruct (behind_code text i) eqn:Hb; [| discriminate].
    destruct (lazy_until "</code>" "") as [m' |] eqn:Hl; [| discriminate].
    intros H. inversion H; subst m'.
    apply lazy_until_shape in Hl as [_ [rest Hrest]].
    destruct m; discriminate Hrest.
  - destruct (if behind_code text i
              then lazy_until "</code>" (String c s) else None)
      as [m' |] eqn:Hhere.
    + intros H. inversion H; subst m'.
      destruct (behind_code text i) eqn:Hb; [| discriminate].
      apply lazy_until_shape in Hhere as [Hnl [rest Hrest]].
      split; [exact Hnl |].
      unfold behind_code in Hb. apply andb_prop in Hb as [Hi Htag].
      apply Nat.leb_le in Hi. apply String.eqb_eq in Htag.
      rewrite substring_take_drop in Htag.
      exists (PyStr.take (i - 6) text), rest.
      rewrite <- Hrest, Hs.
      replace i with ((i - 6) + 6)%nat at 2 by lia.
      rewrite <- drop_drop, <- Htag, take_drop, take_drop. reflexivity.
    + intros H. apply (IH (S i)); [| exact H].
      symmetry. apply (drop_next i text s c). symmetry. exact Hs.
Qed.

(** X14. Whatever the tag pattern finds stands in the text between
    [<code>] and [</code>] and holds no newline. *)
Theorem search_code_shape (text m : string) :
  search_code text = Some m ->
  has_char "010" m = false
  /\ exists before after,
       text = before +:+ "<code>" +:+ m +:+ "</code>" +:+ after.
Proof.
  unfold search_code. apply search_code_from_shape.
  destruct text; reflexivity.
Qed.

Lemma search_code_shape_witness :
  has_char "010" "1:abc" = false
  /\ exists before after,
       "Done <code>1:abc</code>!"
       = before +:+ "<code>" +:+ "1:abc" +:+ "</code>" +:+ after.
Proof.
  apply (search_code_shape "Done <code>1:abc</code>!").
  vm_compute. reflexivity.
Defined.

End Patterns.

(** ** The scripts of the token manager *)

Section Scripts.
Import TokenManager Spec.

(** The characters of a random id. *)
Lemma random_id_word (n : nat) (r : Rng) :
  String.length (fst (Utils.random_id n r)) = n
  /\ all_chars PyStr.is_alnum (fst (Utils.random_id n r)) = true.
Proof.
  revert r. induction n as [|n IH]; intros r.
  - split; reflexivity.
  - cbn [Utils.random_id].
    destruct (choice_alnum r) as (Hc & _).
    destruct (choice (ascii_letters +:+ digits) r) as [c r1].
    destruct (IH r1) as (Hlen & Hall).
    destruct (Utils.random_id n r1) as [s r2]. simpl in *.
    rewrite Hlen, Hc, Hall. split; reflexivity.
Qed.

(** A username made of [teagram_], six letters or digits and [_bot] is
    found by the pattern of the revocation. *)
Lemma generated_username_matches (rid : string) :
  String.length rid = 6%nat -> all_chars PyStr.is_alnum rid = true ->
  search_bot ("@" +:+ "teagram_" +:+ rid +:+ "_bot") = true.
Proof.
  intros Hlen Hall.
  do 6 (destruct rid as [|? rid]; [discriminate Hlen |]).
  destruct rid; [| discriminate Hlen].
  simpl in Hall.
  repeat (apply andb_prop in Hall as [? Hall]).
  cbv [search_bot match_bot_at String.append PyStr.drop repeat_class].
  repeat match goal with E : PyStr.is_alnum _ = true |- _ => rewrite E; clear E end.
  reflexivity.
Qed.

(** X15. The username that [_create_bot] registers is [teagram_], six
    letters or digits, [_bot]; it has been sent to BotFather, and with [@]
    in front it is a label that the button scan of [_revoke_token]
    recognises. *)
Theorem created_username_is_recognised (w w1 : World) (u : string)
    (r : Message) :
  request_username w = (Ok (u, r), w1) ->
  (exists rid, u = "teagram_" +:+ rid +:+ "_bot"
               /\ String.length rid = 6%nat
               /\ all_chars PyStr.is_alnum rid = true)
  /\ search_bot ("@" +:+ u) = true
  /\ In (SentText u) (outbox w1).
Proof.
  unfold request_username. intros H.
  do 7 (apply bind_ok in H as (? & ? & _ & H)).
  apply bind_ok in H as (? & w8 & _ & H).
  apply bind_ok in H as (rid & w9 & Hrid & H).
  assert (Hword : String.length rid = 6%nat
                  /\ all_chars PyStr.is_alnum rid = true).
  { unfold random_id in Hrid.
    pose proof (random_id_word 6 (rng w8)) as Hw.
    destruct (Utils.random_id 6 (rng w8)) as [s r']. inversion Hrid; subst.
    exact Hw. }
  apply bind_ok in H as ([] & wa & Hask & H).
  apply bind_ok in H as ([] & wb & Hsleep & H). inversion Hsleep; subst wb.
  apply bind_ok in H as (m & wc & Hget & H).
  inversion H; subst u r w1. clear H.
  destruct Hword as [Hlen Hall].
  split; [exists rid; repeat split; assumption |].
  split; [apply generated_username_matches; assumption |].
  unfold ask in Hask. destruct (blocked w9); [discriminate |].
  inversion Hask; subst wa.
  unfold get_response in Hget. cbn [inbox send] in Hget.
  destruct (inbox w9); [discriminate |].
  inversion Hget; subst. cbn [outbox send].
  apply in_or_app. right. left. reflexivity.
Qed.

(** X16. The opening of both scripts: when the account has blocked
    BotFather, [/cancel] is not sent; the account is unblocked instead,
    and the script goes on with the next reply. Afterwards the account
    is not blocked. Without any reply the wait does not end. *)
Theorem cancel_recovers (w : World) :
  cancel w
  = match inbox w with
    | _ :: rest =>
        (Ok tt,
         {| inbox := rest;
            outbox := outbox w ++ [if blocked w then Unblocked "@BotFather"
                                   else SentText "/cancel"];
            blocked := false; log := log w; rng := rng w; me := me w;
            bot_username := bot_username w |})
    | [] =>
        (Raise NoReply,
         {| inbox := [];
            outbox := outbox w ++ [if blocked w then Unblocked "@BotFather"
                                   else SentText "/cancel"];
            blocked := false; log := log w; rng := rng w; me := me w;
            bot_username := bot_username w |})
    end.
Proof.
  destruct w as [inb out blk lg rg m bu].
  cbv [cancel bind try_except ask is_blocked_error unblock modify
       get_response ret send inbox outbox blocked log rng me bot_username].
  destruct blk; destruct inb; reflexivity.
Qed.

(** X17. When the reply to [/revoke] mentions [/newbot] (no bot exists),
    the function logs the error and returns [None]; nothing is sent after
    [/revoke], and the replies that follow are left unread. *)
Theorem revoke_without_bots (w : World) (r1 r2 : Message)
    (rest : list Message) :
  inbox w = r1 :: r2 :: rest ->
  PyStr.contains "/newbot" (text r2) = true ->
  _revoke_token w
  = (Ok RNone,
     {| inbox := rest;
        outbox := outbox w
                  ++ [if blocked w then Unblocked "@BotFather"
                      else SentText "/cancel"; SentText "/revoke"];
        blocked := false;
        log := log w ++ [(ERROR, "No created bots")];
        rng := rng w; me := me w; bot_username := bot_username w |}).
Proof.
  intros Hin Hnew.
  destruct w as [inb out blk lg rg m bu]. simpl in Hin. subst inb.
  destruct blk;
    cbv [_revoke_token cancel bind try_except ask is_blocked_error unblock
         get_response ret send logger modify
         inbox outbox blocked log rng me bot_username];
    rewrite Hnew; cbv beta iota; rewrite <- !app_assoc; reflexivity.
Qed.

(** X18. When the first row of the grid holds a matching button, the
    first such button of that row is sent and remembered as
    [bot_username]; the function then returns the token found in the
    next reply, or, when the pattern finds none, the last word of that
    reply, raising [IndexError] for a reply without words. *)
Theorem revoke_clicks_first_match (w : World) (r1 r2 r3 : Message)
    (rest : list Message) (before after : list string) (button : string)
    (rows : list (list string)) :
  blocked w = false ->
  inbox w = r1 :: r2 :: r3 :: rest ->
  PyStr.contains "/newbot" (text r2) = false ->
  reply_markup r2 = Some ((before ++ button :: after) :: rows) ->
  existsb search_bot before = false ->
  search_bot button = true ->
  _revoke_token w
  = (match search_token (text r3) with
     | Some token => Ok (RStr token)
     | None =>
         match last (PyStr.split (text r3)) with
         | Some word => Ok (RStr word)
         | None => Raise IndexError
         end
     end,
     {| inbox := rest;
        outbox := outbox w
                  ++ [SentText "/cancel"; SentText "/revoke"; SentText button];
        blocked := false; log := log w; rng := rng w; me := me w;
        bot_username := Some button |}).
Proof.
  intros Hb Hin Hnew Hmarkup Hbefore Hbutton.
  destruct w as [inb out blk lg rg m bu]. simpl in Hb, Hin. subst inb blk.
  cbv [_revoke_token cancel bind try_except ask is_blocked_error
       get_response ret send logger modify sleep raise lift scan_rows
       inbox outbox blocked log rng me bot_username].
  rewrite Hnew, Hmarkup. cbv beta iota. rewrite Hmarkup. cbv beta iota.
  cbn [for_each]. unfold bind at 1.
  rewrite (scan_row_match before after button);
    [| exact Hbefore | exact Hbutton | reflexivity].
  cbv [bind ret PyStr.index_last inbox outbox blocked log rng me
       bot_username].
  rewrite <- !app_assoc. cbn [app].
  destruct (search_token (text r3)); [reflexivity |].
  destruct (last (PyStr.split (text r3))); reflexivity.
Qed.

(** X19. When the message with the grid is slow, the function warns and
    takes the next reply instead; a reply that still has no markup makes
    it raise [AttributeError]. With a grid without rows nothing is
    clicked and [False] is not returned either: the next reply is read
    for the token as if a button had been pressed. *)
Theorem revoke_without_grid (w : World) (r1 r2 r3 : Message)
    (rest : list Message) :
  blocked w = false ->
  inbox w = r1 :: r2 :: r3 :: rest ->
  PyStr.contains "/newbot" (text r2) = false ->
  (reply_markup r2 = None -> reply_markup r3 = None ->
   _revoke_token w
   = (Raise AttributeError,
      {| inbox := rest;
         outbox := outbox w ++ [SentText "/cancel"; SentText "/revoke"];
         blocked := false;
         log := log w ++ [(WARNING, "reply_markup not found")];
         rng := rng w; me := me w; bot_username := bot_username w |}))
  /\ (reply_markup r2 = Some [] ->
      _revoke_token w
      = (match search_token (text r3) with
         | Some token => Ok (RStr token)
         | None =>
             match last (PyStr.split (text r3)) with
             | Some word => Ok (RStr word)
             | None => Raise IndexError
             end
         end,
         {| inbox := rest;
            outbox := outbox w ++ [SentText "/cancel"; SentText "/revoke"];
            blocked := false; log := log w; rng := rng w; me := me w;
            bot_username := bot_username w |})).
Proof.
  intros Hb Hin Hnew.
  destruct w as [inb out blk lg rg m bu]. simpl in Hb, Hin. subst inb blk.
  split; intros Hmarkup; [intros Hmarkup3 |];
    cbv [_revoke_token cancel bind try_except ask is_blocked_error
         get_response ret send logger modify sleep raise lift scan_rows
         for_each PyStr.index_last
         inbox outbox blocked log rng me bot_username];
    rewrite Hnew, Hmarkup; cbv beta iota.
  - rewrite Hmarkup3. rewrite <- !app_assoc. reflexivity.
  - rewrite Hmarkup. cbv beta iota. rewrite <- !app_assoc. cbn [app].
    destruct (search_token (text r3)); [reflexivity |].
    destruct (last (PyStr.split (text r3))); reflexivity.
Qed.

End Scripts.

Lemma created_username_is_recognised_witness :
  TokenManager.search_bot ("@" +:+ "teagram_abcdef_bot") = true
  /\ In (TokenManager.SentText "teagram_abcdef_bot")
        (TokenManager.outbox
           (snd (TokenManager.request_username Samples.creation_tagged))).
Proof.
  assert (Hrun :
    TokenManager.request_username Samples.creation_tagged
    = (Ok ("teagram_abcdef_bot",
           Samples.plain_message
             "Done! <code>123456:ABCDEFGHIJKLMNOPQRSTUVWXYZabcdef012</code>"),
       snd (TokenManager.request_username Samples.creation_tagged)))
    by (vm_compute; reflexivity).
  destruct (created_username_is_recognised _ _ _ _ Hrun) as (_ & Hfound & Hsent).
  split; assumption.
Defined.

Lemma revoke_without_bots_witness :
  fst (TokenManager._revoke_token Samples.revocation_no_bots)
  = Ok TokenManager.RNone.
Proof.
  rewrite (revoke_without_bots Samples.revocation_no_bots
             (Samples.plain_message "No active command.")
             (Samples.plain_message
                "You have no bots yet. Use /newbot to create one.") []).
  - reflexivity.
  - reflexivity.
  - vm_compute. reflexivity.
Defined.

Lemma revoke_clicks_first_match_witness :
  TokenManager._revoke_token Samples.revocation_first_row
  = (Ok (TokenManager.RStr "123456:ABCDEFGHIJKLMNOPQRSTUVWXYZabcdef012"),
     {| TokenManager.inbox := [];
        TokenManager.outbox :=
          [TokenManager.SentText "/cancel"; TokenManager.SentText "/revoke";
           TokenManager.SentText "@teagram_abc123_bot"];
        TokenManager.blocked := false;
        TokenManager.log := [];
        TokenManager.rng := Samples.counting;
        TokenManager.me := Utils.User (Some "Alice") None;
        TokenManager.bot_username := Some "@teagram_abc123_bot" |}).
Proof.
  rewrite (revoke_clicks_first_match Samples.revocation_first_row
             (Samples.plain_message "No active command.")
             {| TokenManager.text := "Choose a bot to revoke its token.";
                TokenManager.reply_markup :=
                  Some [["@shop_helper_bot"; "@teagram_abc123_bot"];
                        ["@teagram_zzz999_bot"]] |}
             Samples.token_reply [] ["@shop_helper_bot"] []
             "@teagram_abc123_bot" [["@teagram_zzz999_bot"]]);
    vm_compute; reflexivity.
Defined.

Lemma revoke_without_grid_witness :
  fst (TokenManager._revoke_token Samples.revocation_no_grid)
  = Raise AttributeError
  /\ fst (TokenManager._revoke_token Samples.revocation_empty_grid)
     = Ok (TokenManager.RStr "bots").
Proof.
  split.
  - rewrite (proj1 (revoke_without_grid Samples.revocation_no_grid
                      (Samples.plain_message "No active command.")
                      (Samples.plain_message
                         "Choose a bot to revoke its token.")
                      (Samples.plain_message "Still loading.") []
                      eq_refl eq_refl eq_refl) eq_refl eq_refl).
    reflexivity.
  - rewrite (proj2 (revoke_without_grid Samples.revocation_empty_grid
                      (Samples.plain_message "No active command.")
                      {| TokenManager.text :=
                           "Choose a bot to revoke its token.";
                         TokenManager.reply_markup := Some [] |}
                      (Samples.plain_message "Pick one of your bots") []
                      eq_refl eq_refl eq_refl) eq_refl).
    vm_compute. reflexivity.
Defined.

(** ** validate *)

Section Validate.
Import ConfigMod Spec.
Context `{PythonRuntime}.

(** X20. [validate] tries the integer first: a string that [int()] accepts
    becomes that integer even when it is a truth keyword such as [1] or
    [0]; otherwise a truth keyword in any letter case becomes the
    boolean, and every other string stays as it is. *)
Theorem validate_cases (s : string) :
  (forall z, int_of_str s = Ok z -> validate (VStr s) = VInt z)
  /\ (forall e, int_of_str s = Raise e -> any_case true_words s ->
      validate (VStr s) = VBool true)
  /\ (forall e, int_of_str s = Raise e -> any_case false_words s ->
      validate (VStr s) = VBool false)
  /\ (forall e, int_of_str s = Raise e ->
      ~ any_case true_words s -> ~ any_case false_words s ->
      validate (VStr s) = VStr s).
Proof.
  unfold validate.
  pose proof (any_case_lower true_words s true_words_known) as Et.
  pose proof (any_case_lower false_words s false_words_known) as Ef.
  destruct (strtobool_by_lower s) as (Ht & Hf & Hn).
  split; [| split; [| split]].
  - intros z ->. reflexivity.
  - intros e -> Hs. rewrite (Ht (proj1 Et Hs)). reflexivity.
  - intros e -> Hs. rewrite (Hf (proj1 Ef Hs)). reflexivity.
  - intros e -> Hnt Hnf. rewrite Hn; [reflexivity | |].
    + intros Hin. apply Hnt, Et, Hin.
    + intros Hin. apply Hnf, Ef, Hin.
Qed.

(** X21. A value that went through [validate] is not changed by a second
    pass. *)
Theorem validate_idempotent (v : PyVal) :
  validate (validate v) = validate v.
Proof.
  destruct v; try reflexivity.
  unfold validate at 2 3.
  destruct (int_of_str s) as [z | e] eqn:Hint; [reflexivity |].
  destruct (strtobool s) as [z | e'] eqn:Hbool; [reflexivity |].
  unfold validate. rewrite Hint, Hbool. reflexivity.
Qed.

End Validate.

Lemma validate_cases_witness :
  @ConfigMod.validate Samples.runtime (VStr "1") = VInt 1
  /\ @ConfigMod.validate Samples.runtime (VStr "Yes") = VBool true
  /\ @ConfigMod.validate Samples.runtime (VStr "OFF") = VBool false
  /\ @ConfigMod.validate Samples.runtime (VStr "maybe") = VStr "maybe".
Proof.
  split; [| split; [| split]].
  - apply (proj1 (@validate_cases Samples.runtime "1")). reflexivity.
  - apply (proj1 (proj2 (@validate_cases Samples.runtime "Yes"))
             (ValueError "invalid literal for int()" "Yes")).
    + reflexivity.
    + apply (any_case_lower ConfigMod.true_words "Yes" true_words_known).
      simpl. tauto.
  - apply (proj1 (proj2 (proj2 (@validate_cases Samples.runtime "OFF")))
             (ValueError "invalid literal for int()" "OFF")).
    + reflexivity.
    + apply (any_case_lower ConfigMod.false_words "OFF" false_words_known).
      simpl. tauto.
  - apply (proj2 (proj2 (proj2 (@validate_cases Samples.runtime "maybe")))
             (ValueError "invalid literal for int()" "maybe")).
    + reflexivity.
    + rewrite (any_case_lower ConfigMod.true_words "maybe" true_words_known).
      simpl. intros Hm.
      repeat (destruct Hm as [Hm | Hm]; [discriminate Hm |]). exact Hm.
    + rewrite (any_case_lower ConfigMod.false_words "maybe"
                 false_words_known).
      simpl. intros Hm.
      repeat (destruct Hm as [Hm | Hm]; [discriminate Hm |]). exact Hm.
Defined.

(** ** get_attrs and the button rows *)

Section Attrs.
Import ConfigMod Spec.

Lemma same_but_config_refl (w : World) : same_but_config w w.
Proof. unfold same_but_config. repeat split. Qed.


(** [get_attrs] never raises and writes nothing but the two fields. *)
Lemma get_attrs_runs (module : Plugin) (w : World) :
  exists a w', get_attrs module w = (Ok a, w') /\ same_but_config w w'.
Proof.
  unfold get_attrs.
  destruct (List.filter _ (members module)) as [|[k0 a0] [|[k1 a1] rest]].
  - exists (AValue (VList [])), w. split; [reflexivity |].
    apply same_but_config_refl.
  - exists (AValue (VList [])), w. split; [reflexivity |].
    apply same_but_config_refl.
  - eexists _, _. split; [reflexivity |].
    unfold same_but_config. repeat split.
Qed.

(** A member is kept exactly when it is not passed over. *)
Lemma eligible_kept (k : string) (a : Attr) :
  eligible (k, a) = true <-> kept k.
Proof.
  unfold eligible, kept. cbn [fst].
  rewrite andb_true_iff, !negb_true_iff. split.
  - intros [Hd Hm]. split; [exact Hd |]. intros Hin.
    apply (proj2 (member_In k DEFAULT_ATTRS)) in Hin. congruence.
  - intros [Hd Hn]. split; [exact Hd |].
    destruct (member k DEFAULT_ATTRS) eqn:Hm; [| reflexivity].
    exfalso. apply Hn, (proj1 (member_In k DEFAULT_ATTRS)), Hm.
Qed.

Lemma eligible_skipped (kv : string * Attr) :
  eligible kv = false <-> skipped kv.
Proof.
  unfold eligible, skipped. rewrite andb_false_iff, !negb_false_iff.
  rewrite member_In. reflexivity.
Qed.

Lemma filter_skipped (l : list (string * Attr)) :
  Forall skipped l -> List.filter eligible l = [].
Proof.
  induction 1 as [|kv l Hkv _ IH]; [reflexivity |].
  simpl. rewrite (proj2 (eligible_skipped kv) Hkv). exact IH.
Qed.

(** The first of the members that are kept, and what stands before it. *)
Lemma filter_head (l : list (string * Attr)) (x : string * Attr)
    (rest : list (string * Attr)) :
  List.filter eligible l = x :: rest ->
  exists before after,
    l = before ++ x :: after /\ Forall skipped before
    /\ eligible x = true /\ List.filter eligible after = rest.
Proof.
  induction l as [|kv l IH]; simpl; intros Hf.
  - discriminate.
  - destruct (eligible kv) eqn:E.
    + inversion Hf; subst. exists [], l. repeat split; [constructor | exact E].
    + destruct (IH Hf) as (before & after & -> & Hb & Hx & Ha).
      exists (kv :: before), after. repeat split; try assumption.
      constructor; [apply eligible_skipped, E | exact Hb].
Qed.

(** The first two members that are kept are the first two items of the
    filtered list. *)
Lemma first_two_filter (module : Plugin) (k0 k1 : string) (a0 a1 : Attr) :
  first_two module k0 a0 k1 a1 <->
  exists rest,
    List.filter eligible (members module) = (k0, a0) :: (k1, a1) :: rest.
Proof.
  split.
  - intros (before & between & after & Hm & Hb & Hbt & Hk0 & Hk1).
    exists (List.filter eligible after). rewrite Hm.
    rewrite List.filter_app. cbn [List.filter].
    rewrite (proj2 (eligible_kept k0 a0) Hk0), List.filter_app.
    cbn [List.filter]. rewrite (proj2 (eligible_kept k1 a1) Hk1).
    rewrite (filter_skipped _ Hb), (filter_skipped _ Hbt). reflexivity.
  - intros [rest Hf].
    apply filter_head in Hf as (before & tail & Hm & Hb & Hk0 & Hf).
    apply filter_head in Hf as (between & after & -> & Hbt & Hk1 & _).
    exists before, between, after. repeat split; try assumption.
    + apply (proj1 (eligible_kept k0 a0) Hk0).
    + apply (proj1 (eligible_kept k0 a0) Hk0).
    + apply (proj1 (eligible_kept k1 a1) Hk1).
    + apply (proj1 (eligible_kept k1 a1) Hk1).
Qed.

(** The two outcomes of [get_attrs]. *)
Lemma get_attrs_cases (module : Plugin) (w : World) :
  (get_attrs module w = (Ok (AValue (VList [])), w)
   /\ forall k0 a0 k1 a1, ~ first_two module k0 a0 k1 a1)
  \/ exists k0 a0 k1 a1,
       first_two module k0 a0 k1 a1
       /\ get_attrs module w = (Ok a0, with_self (set_config a0 a1) w).
Proof.
  unfold get_attrs.
  change (fun kv : string * Attr =>
            negb (is_dunder (fst kv)) && negb (member (fst kv) DEFAULT_ATTRS))
    with eligible.
  destruct (List.filter eligible (members module))
    as [|[k0 a0] [|[k1 a1] rest]] eqn:Hf.
  - left. split; [reflexivity |]. intros k0 a0 k1 a1 Hft.
    apply first_two_filter in Hft as [rest Hrest]. congruence.
  - left. split; [reflexivity |]. intros k0' a0' k1 a1 Hft.
    apply first_two_filter in Hft as [rest Hrest]. congruence.
  - right. exists k0, a0, k1, a1. split; [| reflexivity].
    apply first_two_filter. exists rest. exact Hf.
Qed.

(** X22. [get_attrs] never raises and touches only [self.config] and
    [self.config_db]. When the module has no two members outside the
    dunder and the reserved names, it returns the empty list and changes
    nothing. Otherwise it returns the first of these members, which is
    then [self.config], and the second of them is then [self.config_db]:
    in the order of the members, every member before the first and
    between the two has a dunder or a reserved name. *)
Theorem get_attrs_frame (module : Plugin) (w : World) :
  exists a w',
    get_attrs module w = (Ok a, w')
    /\ same_but_config w w'
    /\ ((forall k0 a0 k1 a1, ~ first_two module k0 a0 k1 a1)
         /\ a = AValue (VList []) /\ w' = w
        \/ exists k0 k1 a1,
             first_two module k0 a k1 a1
             /\ config (self w') = a /\ config_db (self w') = Some a1).
Proof.
  destruct (get_attrs_cases module w)
    as [[Hrun Hnone] | (k0 & a0 & k1 & a1 & Hft & Hrun)].
  - exists (AValue (VList [])), w.
    split; [exact Hrun | split; [apply same_but_config_refl |]].
    left. repeat split. exact Hnone.
  - exists a0, (with_self (set_config a0 a1) w).
    split; [exact Hrun | split; [unfold same_but_config; repeat split |]].
    right. exists k0, k1, a1. repeat split. exact Hft.
Qed.

(** The row is flushed exactly when the third button has been added. *)
Lemma flush_every_third (q l : nat) :
  (l < 3)%nat ->
  ((3 * q + l + 1) mod 3 =? 0)%nat = (l =? 2)%nat.
Proof.
  intros Hl. destruct l as [|[|[|l]]]; try lia.
  - replace (3 * q + 0 + 1)%nat with (1 + q * 3)%nat by lia.
    rewrite Nat.Div0.mod_add. reflexivity.
  - replace (3 * q + 1 + 1)%nat with (2 + q * 3)%nat by lia.
    rewrite Nat.Div0.mod_add. reflexivity.
  - replace (3 * q + 2 + 1)%nat with (0 + (q + 1) * 3)%nat by lia.
    rewrite Nat.Div0.mod_add. reflexivity.
Qed.

(** The rows built so far hold three buttons each and fewer than three
    buttons wait for the next row; no button is lost and the order is
    kept. *)
Lemma attribute_buttons_rows (module_name : string) (names : list string)
    (count : nat) (buttons : list InlineKeyboardButton)
    (keyboard : InlineKeyboardMarkup) (q : nat) :
  count = (3 * q + length buttons + 1)%nat ->
  (length buttons < 3)%nat ->
  Forall (fun row => length row = 3%nat) keyboard ->
  let '(buttons', keyboard') :=
    attribute_buttons module_name names count buttons keyboard in
  Forall (fun row => length row = 3%nat) keyboard'
  /\ (length buttons' < 3)%nat
  /\ concat keyboard' ++ buttons'
     = concat keyboard ++ buttons
       ++ List.map (attribute_button module_name) names.
Proof.
  revert count buttons keyboard q.
  induction names as [|name names IH]; intros count buttons keyboard q
    Hcount Hlen Hrows.
  - cbn [attribute_buttons List.map]. rewrite app_nil_r. repeat split;
      assumption.
  - cbn [attribute_buttons List.map]. fold (attribute_button module_name name).
    unfold flush_row. rewrite Hcount, (flush_every_third q _ Hlen).
    rewrite <- Hcount.
    destruct (length buttons =? 2)%nat eqn:Hl.
    + apply Nat.eqb_eq in Hl.
      specialize (IH (count + 1)%nat [] (keyboard ++ [buttons
                        ++ [attribute_button module_name name]]) (q + 1)%nat).
      destruct (attribute_buttons module_name names (count + 1) []
                  (keyboard ++ [buttons ++ [attribute_button module_name name]]))
        as [buttons' keyboard'].
      destruct IH as (Hr & Hb & Hc).
      * simpl. lia.
      * simpl. lia.
      * apply Forall_app. split; [exact Hrows |].
        constructor; [| constructor]. rewrite length_app. simpl. lia.
      * repeat split; [exact Hr | exact Hb |].
        rewrite Hc, concat_app. simpl. rewrite !app_nil_r, <- !app_assoc.
        reflexivity.
    + apply Nat.eqb_neq in Hl.
      specialize (IH (count + 1)%nat
                     (buttons ++ [attribute_button module_name name])
                     keyboard q).
      destruct (attribute_buttons module_name names (count + 1)
                  (buttons ++ [attribute_button module_name name]) keyboard)
        as [buttons' keyboard'].
      destruct IH as (Hr & Hb & Hc).
      * rewrite length_app. simpl. lia.
      * rewrite length_app. simpl. lia.
      * exact Hrows.
      * repeat split; [exact Hr | exact Hb |].
        rewrite Hc, <- !app_assoc. reflexivity.
Qed.

(** X23. The attribute list is laid out in rows of three: every attribute
    has its button, in the order of the descriptor, each row but the last
    holds exactly three buttons, and the last holds one to three. *)
Theorem attribute_rows_of_three (module_name : string) (names : list string) :
  let '(buttons, keyboard) :=
    attribute_buttons module_name names 1 [] [] in
  let rows := last_row buttons keyboard in
  concat rows = List.map (attribute_button module_name) names
  /\ Forall (fun row => length row = 3%nat) keyboard
  /\ Forall (fun row => (1 <= length row <= 3)%nat) rows
  /\ (rows = keyboard \/ exists row, rows = keyboard ++ [row]).
Proof.
  assert (Hnone : Forall (fun row : list InlineKeyboardButton =>
                              length row = 3%nat) []) by constructor.
  pose proof (attribute_buttons_rows module_name names 1 [] [] 0
                eq_refl ltac:(simpl; lia) Hnone) as Hrows.
  destruct (attribute_buttons module_name names 1 [] [])
    as [buttons keyboard].
  destruct Hrows as (Hthree & Hlen & Hconcat). simpl in Hconcat.
  assert (Hwide : Forall (fun row => (1 <= length row <= 3)%nat) keyboard).
  { eapply Forall_impl; [exact Hthree |]. simpl. intros row Hrow. lia. }
  unfold last_row. destruct buttons as [|b bs].
  - rewrite app_nil_r in Hconcat. repeat split; try assumption.
    left. reflexivity.
  - repeat split; try assumption.
    + rewrite concat_app. simpl. rewrite app_nil_r. exact Hconcat.
    + apply Forall_app. split; [exact Hwide |].
      constructor; [simpl in *; lia | constructor].
    + right. eexists. reflexivity.
Qed.

End Attrs.

(** ** The handlers of the owner *)

Section OwnerHandlers.
Import ConfigMod Spec.
Context `{PythonRuntime} `{Loader}.



(** What [get_attrs] returns, when it is not the empty list, is what it
    has put into [self.config]. *)
Lemma get_attrs_config (module : Plugin) (w w' : World) (id : nat) :
  get_attrs module w = (Ok (AConfig id), w') ->
  config (self w') = AConfig id /\ same_but_config w w'.
Proof.
  intros Hg. destruct (get_attrs_runs module w) as (a & w2 & Hrun & Hsame).
  rewrite Hg in Hrun. inversion Hrun; subst a w2. split; [| exact Hsame].
  unfold get_attrs in Hg.
  destruct (List.filter _ (members module)) as [|[k0 a0] [|[k1 a1] rest]];
    try discriminate.
  inversion Hg; subst. reflexivity.
Qed.

Lemma the_config_ok (a : Attr) (w w' : World) (id : nat) (c : Config.t) :
  the_config a w = (Ok (id, c), w') ->
  a = AConfig id /\ configs w !! id = Some c /\ w' = w.
Proof.
  unfold the_config. destruct a as [id0 | |]; try discriminate.
  destruct (configs w !! id0) as [c0 |] eqn:E; [| discriminate].
  intros Hrun. inversion Hrun; subst. repeat split. exact E.
Qed.

Lemma string_of_ok (key s : string) (w w' : World) :
  string_of key w = (Ok s, w') -> w' = w.
Proof.
  unfold string_of. destruct (strings w !! key); intros Hrun;
    inversion Hrun; reflexivity.
Qed.

Lemma string_or_ok (b : bool) (key other s : string) (w w' : World) :
  (if b then string_of key else ret other) w = (Ok s, w') -> w' = w.
Proof.
  destruct b; [apply string_of_ok |]. intros Hrun. inversion Hrun.
  reflexivity.
Qed.

Lemma string_or_ok' (b : bool) (key other s : string) (w w' : World) :
  (if b then ret other else string_of key) w = (Ok s, w') -> w' = w.
Proof.
  destruct b; [| apply string_of_ok]. intros Hrun. inversion Hrun.
  reflexivity.
Qed.

Lemma lift_ok {A : Type} (r : result A) (a : A) (w w' : World) :
  lift r w = (Ok a, w') -> r = Ok a /\ w' = w.
Proof. unfold lift. intros Hrun. inversion Hrun. split; reflexivity. Qed.

(** What a successful pick leaves behind. *)
Lemma pick_inversion (call : CallbackQuery) (w w1 : World) :
  me (self w) = Some (from_user_id call) ->
  change_attribute_callback_handler call w = (Ok tt, w1) ->
  exists mname attribute id c d,
    parse_ch_attr (data call) = Ok (mname, attribute)
    /\ pending (self w1) = VStr attribute
    /\ pending_module (self w1) = Some (lookup (modules w) mname)
    /\ pending_id (self w1) = PyStr.lower (fst (Utils.random_id 3 (rng w)))
    /\ config (self w1) = AConfig id
    /\ configs w !! id = Some c
    /\ Config.get_default c attribute = Ok d
    /\ bot_cfg w1
       = <[pending_id (self w1) :=
             {| edit_cfg := AConfig id; edit_attr := attribute;
                edit_mod := lookup (modules w) mname |}]> (bot_cfg w)
    /\ configs w1 = configs w /\ db w1 = db w /\ strings w1 = strings w
    /\ me (self w1) = me (self w)
    /\ config_db (self w1)
       = config_db (self (snd (get_attrs (lookup (modules w) mname) w)))
    /\ fst (get_attrs (lookup (modules w) mname) w) = Ok (AConfig id).
Proof.
  intros Hme. unfold change_attribute_callback_handler.
  rewrite (bind_step _ _ _ _ _ (not_owner_owner call w Hme)).
  intros Hrun.
  apply bind_ok in Hrun as ([mname attribute] & w0 & Hparse & Hrun).
  apply lift_ok in Hparse as [Hparse ->].
  apply bind_ok in Hrun as (module & w0 & Hlook & Hrun).
  inversion Hlook; subst module w0. clear Hlook.
  apply bind_ok in Hrun as (attrs & w2 & Hattrs & Hrun).
  apply bind_ok in Hrun as ([id0 shown] & w0 & Hshown & Hrun).
  apply the_config_ok in Hshown as (-> & Hheap0 & ->).
  destruct (get_attrs_config _ _ _ _ Hattrs) as [Hcfg Hsame].
  apply bind_ok in Hrun as (cfg & w0 & Hget & Hrun).
  inversion Hget; subst cfg w0. clear Hget. rewrite Hcfg in Hrun.
  apply bind_ok in Hrun as ([id c] & w0 & Hc & Hrun).
  apply the_config_ok in Hc as (Hid & Hheap & ->).
  inversion Hid; subst id. clear Hid.
  apply bind_ok in Hrun as (docs & w0 & Hdoc & Hrun).
  apply lift_ok in Hdoc as [Hdoc ->].
  apply bind_ok in Hrun as (d & w0 & Hdefault & Hrun).
  apply lift_ok in Hdefault as [Hdefault ->].
  apply bind_ok in Hrun as (rid & w3 & Hrid & Hrun).
  apply bind_ok in Hrun as ([] & w4 & Hset & Hrun).
  apply bind_ok in Hrun as (pid & w0 & Hpid & Hrun).
  inversion Hpid; subst pid w0. clear Hpid.
  apply bind_ok in Hrun as ([] & w5 & Hshare & Hrun).
  apply bind_ok in Hrun as (ch & w0 & Hs & Hrun).
  apply string_of_ok in Hs as ->.
  apply bind_ok in Hrun as (def & w0 & Hs & Hrun).
  apply string_of_ok in Hs as ->.
  apply bind_ok in Hrun as (back & w0 & Hs & Hrun).
  apply string_of_ok in Hs as ->.
  apply bind_ok in Hrun as (attr_label & w0 & Hs & Hrun).
  apply string_of_ok in Hs as ->.
  apply bind_ok in Hrun as (value_label & w0 & Hs & Hrun).
  apply string_of_ok in Hs as ->.
  apply bind_ok in Hrun as (value_text & w0 & Hs & Hrun).
  apply string_or_ok in Hs as ->.
  apply bind_ok in Hrun as (def_label & w0 & Hs & Hrun).
  apply string_of_ok in Hs as ->.
  apply bind_ok in Hrun as (default_text & w0 & Hs & Hrun).
  apply string_or_ok' in Hs as ->.
  unfold emit, modify in Hrun. inversion Hrun; subst w1. clear Hrun.
  unfold bot_cfg_set, modify in Hshare. inversion Hshare; subst w5.
  clear Hshare.
  unfold modify in Hset. inversion Hset; subst w4. clear Hset.
  unfold random_id in Hrid.
  unfold same_but_config in Hsame.
  destruct Hsame as (S1 & S2 & S3 & S4 & S5 & S6 & S7 & S8 & S9 & S10
                     & S11 & S12).
  rewrite S11 in Hrid.
  destruct (Utils.random_id 3 (rng w)) as [s r'] eqn:Erid.
  inversion Hrid; subst rid w3. clear Hrid.
  exists mname, attribute, id0, c, d.
  cbn [self strings modules configs db bot_cfg rng effects me pending
       pending_id pending_module config config_db _def with_self
       set_pending fst].
  rewrite Hattrs. cbn [fst snd].
  rewrite <- S8. repeat split; try assumption; try reflexivity.
  rewrite S10. reflexivity.
Qed.

(** The run of a reset whose default is found. *)
Lemma change_def_run (call : CallbackQuery) (w : World)
    (attribute msg : string) (module : Plugin) (id : nat) (c : Config.t)
    (d : PyVal) :
  me (self w) = Some (from_user_id call) ->
  data call = "change_def" ->
  pending (self w) = VStr attribute ->
  pending_module (self w) = Some module ->
  config (self w) = AConfig id ->
  configs w !! id = Some c ->
  Config.get_default c attribute = Ok d ->
  config_db (self w) = Some ADatabase ->
  strings w !! "chdef" = Some msg ->
  exists w',
    _change_callback_handler call w = (Ok tt, w')
    /\ configs w' = <[id := Config.setitem c attribute d]> (configs w)
    /\ db w' = Database.set (db w) (name module) attribute d
    /\ pending (self w') = VBool false
    /\ pending_module (self w') = None
    /\ bot_cfg w' = bot_cfg w.
Proof.
  intros Hme Hdata Hpending Hmodule Hconfig Hheap Hdefault Hstore Hmsg.
  unfold _change_callback_handler.
  rewrite (bind_step _ _ _ _ _ (not_owner_owner call w Hme)).
  rewrite Hdata.
  change (PyStr.contains "def" "change_def") with true. cbv iota.
  destruct w as [s strs mods cfgs database shared r eff].
  destruct s as [owner cfg cfg_db pend pid pmod df].
  cbn [self me config configs pending config_db pending_module strings]
    in Hme, Hpending, Hmodule, Hconfig, Hheap, Hstore, Hmsg. subst.
  cbv [bind gets the_config as_key ret lift store_config modify raise
       config_db_set reset_pending random_id with_self set_pending set_def
       string_of answer emit
       self config configs pending config_db pending_module strings db
       bot_cfg rng effects me modules pending_id _def].
  rewrite Hheap, Hdefault.
  destruct (Utils.random_id 50 r) as [rid r'] eqn:Hrid.
  cbv beta iota. rewrite Hmsg.
  eexists. split; [reflexivity |].
  cbn [self configs db effects pending pending_module pending_id _def
       bot_cfg].
  repeat split.
Qed.

(** X25. Picking an attribute and resetting it compose. After a pick
    that succeeded, the descriptor that the edit works on is the first
    member of the picked module outside the dunder and the reserved
    names, and the edit is recorded in the shared map under the new
    three-character id. A press on "reset to default" (the second such
    member of the module being the database) then writes the default of
    exactly that attribute into that descriptor and into the store under
    the name of the picked module, and drops the pending edit of the
    instance while the entry of the shared map stays. *)
Theorem pick_then_reset_default (pick reset : CallbackQuery)
    (w w1 : World) (msg : string) :
  me (self w) = Some (from_user_id pick) ->
  from_user_id reset = from_user_id pick ->
  data reset = "change_def" ->
  change_attribute_callback_handler pick w = (Ok tt, w1) ->
  config_db (self w1) = Some ADatabase ->
  strings w !! "chdef" = Some msg ->
  exists mname attribute id c d w2,
    parse_ch_attr (data pick) = Ok (mname, attribute)
    /\ (exists k0 k1,
          first_two (lookup (modules w) mname) k0 (AConfig id) k1 ADatabase)
    /\ String.length (pending_id (self w1)) = 3%nat
    /\ bot_cfg w1 !! pending_id (self w1)
       = Some {| edit_cfg := AConfig id; edit_attr := attribute;
                 edit_mod := lookup (modules w) mname |}
    /\ configs w !! id = Some c
    /\ Config.get_default c attribute = Ok d
    /\ _change_callback_handler reset w1 = (Ok tt, w2)
    /\ configs w2 !! id = Some (Config.setitem c attribute d)
    /\ Config.get (Config.setitem c attribute d) attribute = d
    /\ db w2
       = Database.set (db w) (name (lookup (modules w) mname)) attribute d
    /\ pending (self w2) = VBool false
    /\ pending_module (self w2) = None
    /\ bot_cfg w2 = bot_cfg w1.
Proof.
  intros Hme Hsame Hdata Hpick Hstore Hmsg.
  destruct (pick_inversion pick w w1 Hme Hpick)
    as (mname & attribute & id & c & d & Hparse & Hp & Hpm & Hpid & Hcfg
        & Hheap & Hdefault & Hshared & Hconfigs & Hdb & Hstrings & Hme1
        & Hcfgdb & Hfirst).
  destruct (change_def_run reset w1 attribute msg (lookup (modules w) mname)
              id c d) as (w2 & Hrun & Hc2 & Hdb2 & Hp2 & Hpm2 & Hshared2);
    try assumption.
  - rewrite Hme1, Hme, Hsame. reflexivity.
  - rewrite Hconfigs. exact Hheap.
  - rewrite Hstrings. exact Hmsg.
  - exists mname, attribute, id, c, d, w2.
    repeat split; try assumption.
    + destruct (get_attrs_cases (lookup (modules w) mname) w)
        as [[Hnone _] | (k0 & a0 & k1 & a1 & Hft & Htwo)].
      * rewrite Hnone in Hfirst. discriminate Hfirst.
      * rewrite Htwo in Hfirst, Hcfgdb. cbn [fst snd] in Hfirst, Hcfgdb.
        inversion Hfirst; subst a0.
        rewrite Hstore in Hcfgdb. cbn [self with_self set_config config_db]
          in Hcfgdb. inversion Hcfgdb; subst a1.
        exists k0, k1. exact Hft.
    + rewrite Hpid.
      assert (Hlen : forall s, String.length (PyStr.lower s)
                               = String.length s).
      { induction s as [|x s IH]; simpl; [reflexivity | rewrite IH];
          reflexivity. }
      rewrite Hlen. apply (random_id_word 3 (rng w)).
    + rewrite Hshared. apply lookup_insert_eq.
    + rewrite Hc2. apply lookup_insert_eq.
    + apply config_get_setitem.
    + rewrite Hdb2, Hdb. reflexivity.
Qed.

(** X26. A pick that fails on its data or on the attribute leaves no
    pending edit: data without a second field raises [IndexError] with
    nothing changed, and an attribute that the descriptor of the module
    does not hold raises [KeyError] with the instance fields of the edit
    and the shared map as before. *)
Theorem pick_failures (call : CallbackQuery) (w : World) :
  me (self w) = Some (from_user_id call) ->
  (has_char "_" (PyStr.replace "ch_attr_" "" (data call)) = false ->
   change_attribute_callback_handler call w = (Raise IndexError, w))
  /\ (forall mname attribute id c w2,
        parse_ch_attr (data call) = Ok (mname, attribute) ->
        get_attrs (lookup (modules w) mname) w = (Ok (AConfig id), w2) ->
        configs w !! id = Some c ->
        Config.lookup c attribute = None ->
        change_attribute_callback_handler call w
        = (Raise (KeyError attribute), w2)
        /\ pending (self w2) = pending (self w)
        /\ pending_id (self w2) = pending_id (self w)
        /\ pending_module (self w2) = pending_module (self w)
        /\ bot_cfg w2 = bot_cfg w).
Proof.
  intros Hme. split.
  - intros Hnone. unfold change_attribute_callback_handler.
    rewrite (bind_step _ _ _ _ _ (not_owner_owner call w Hme)).
    unfold parse_ch_attr. rewrite (split_on_whole "_" _ Hnone).
    reflexivity.
  - intros mname attribute id c w2 Hparse Hattrs Hheap Hlookup.
    destruct (get_attrs_config _ _ _ _ Hattrs) as [Hcfg Hsame].
    unfold same_but_config in Hsame.
    destruct Hsame as (S1 & S2 & S3 & S4 & S5 & S6 & S7 & S8 & S9 & S10
                       & S11 & S12).
    split; [| repeat split; assumption].
    unfold change_attribute_callback_handler.
    rewrite (bind_step _ _ _ _ _ (not_owner_owner call w Hme)).
    rewrite Hparse. unfold bind at 1. unfold lift at 1.
    unfold bind at 1. unfold gets at 1.
    unfold bind at 1. rewrite Hattrs.
    unfold bind at 1. unfold the_config at 1. rewrite S8, Hheap.
    unfold bind at 1. unfold gets at 1. rewrite Hcfg.
    unfold bind at 1. unfold the_config at 1. rewrite S8, Hheap.
    unfold bind at 1. unfold lift at 1. unfold Config.get_doc.
    rewrite Hlookup. reflexivity.
Qed.

(** X27. A reset that cannot find its default changes nothing: callback
    data without [def] is ignored; without a pending edit the default of
    [False] is asked for and [KeyError] comes out; without a descriptor
    in [self.config] it is [AttributeError]. *)
Theorem change_def_failures (call : CallbackQuery) (w : World) :
  me (self w) = Some (from_user_id call) ->
  (PyStr.contains "def" (data call) = false ->
   _change_callback_handler call w = (Ok tt, w))
  /\ (PyStr.contains "def" (data call) = true ->
      (forall id c,
         config (self w) = AConfig id -> configs w !! id = Some c ->
         (pending (self w) = VBool false ->
          _change_callback_handler call w = (Raise (KeyError "False"), w))
         /\ (forall attribute,
               pending (self w) = VStr attribute ->
               Config.lookup c attribute = None ->
               _change_callback_handler call w
               = (Raise (KeyError attribute), w)))
      /\ (forall v, config (self w) = AValue v ->
          _change_callback_handler call w = (Raise AttributeError, w))).
Proof.
  intros Hme. split; [| intros Hdef; split].
  - intros Hdef. unfold _change_callback_handler.
    rewrite (bind_step _ _ _ _ _ (not_owner_owner call w Hme)).
    rewrite Hdef. reflexivity.
  - intros id c Hcfg Hheap.
    split.
    + intros Hp. unfold _change_callback_handler.
      rewrite (bind_step _ _ _ _ _ (not_owner_owner call w Hme)).
      rewrite Hdef. cbv [bind gets the_config]. rewrite Hcfg, Hheap, Hp.
      reflexivity.
    + intros attribute Hp Hlookup. unfold _change_callback_handler.
      rewrite (bind_step _ _ _ _ _ (not_owner_owner call w Hme)).
      rewrite Hdef. cbv [bind gets the_config]. rewrite Hcfg, Hheap, Hp.
      cbv [as_key ret lift Config.get_default]. rewrite Hlookup.
      reflexivity.
  - intros v Hcfg. unfold _change_callback_handler.
    rewrite (bind_step _ _ _ _ _ (not_owner_owner call w Hme)).
    rewrite Hdef. cbv [bind gets the_config]. rewrite Hcfg. reflexivity.
Qed.

(** X28. The reset is not atomic: when the second member taken by
    [get_attrs] is not the database, the default has already been written
    into the descriptor when [AttributeError] comes out; the store is not
    written and the edit stays pending. *)
Theorem change_def_half_done (call : CallbackQuery) (w : World)
    (attribute : string) (id : nat) (c : Config.t) (d : PyVal) :
  me (self w) = Some (from_user_id call) ->
  PyStr.contains "def" (data call) = true ->
  pending (self w) = VStr attribute ->
  config (self w) = AConfig id ->
  configs w !! id = Some c ->
  Config.get_default c attribute = Ok d ->
  config_db (self w) <> Some ADatabase ->
  exists w',
    _change_callback_handler call w = (Raise AttributeError, w')
    /\ configs w' !! id = Some (Config.setitem c attribute d)
    /\ db w' = db w
    /\ self w' = self w
    /\ effects w' = effects w.
Proof.
  intros Hme Hdef Hp Hcfg Hheap Hdefault Hstore.
  unfold _change_callback_handler.
  rewrite (bind_step _ _ _ _ _ (not_owner_owner call w Hme)).
  rewrite Hdef.
  cbv [bind gets the_config]. rewrite Hcfg, Hheap, Hp.
  cbv [as_key ret lift store_config modify]. rewrite Hdefault.
  cbn [self].
  destruct (config_db (self w)) as [[| |] |] eqn:Hdb;
    try (eexists; split; [reflexivity |];
         cbn [configs db self effects]; repeat split;
         apply lookup_insert_eq).
  exfalso. apply Hstore. reflexivity.
Qed.

End OwnerHandlers.


Lemma pick_then_reset_default_witness :
  exists w2,
    @ConfigMod._change_callback_handler Samples.runtime
      (Samples.press 1000 "change_def")
      (snd (@ConfigMod.change_attribute_callback_handler Samples.runtime
              Samples.loader (Samples.press 1000 "ch_attr_greeter_greeting")
              Samples.browsing))
    = (Ok tt, w2)
    /\ ConfigMod.db w2 !! ("greeter", "greeting") = Some (VStr "hello")
    /\ ConfigMod.pending (ConfigMod.self w2) = VBool false.
Proof.
  assert (Hpick :
    @ConfigMod.change_attribute_callback_handler Samples.runtime
      Samples.loader (Samples.press 1000 "ch_attr_greeter_greeting")
      Samples.browsing
    = (Ok tt,
       snd (@ConfigMod.change_attribute_callback_handler Samples.runtime
              Samples.loader (Samples.press 1000 "ch_attr_greeter_greeting")
              Samples.browsing))) by (vm_compute; reflexivity).
  destruct (@pick_then_reset_default Samples.runtime Samples.loader
              (Samples.press 1000 "ch_attr_greeter_greeting")
              (Samples.press 1000 "change_def")
              Samples.browsing _ "Default value restored"
              eq_refl eq_refl eq_refl Hpick)
    as (mname & attribute & id & c & d & w2 & Hparse & _ & _ & _ & Hheap
        & Hdefault & Hrun & _ & _ & Hdb & Hpending & _).
  - vm_compute. reflexivity.
  - vm_compute. reflexivity.
  - exists w2. split; [exact Hrun | split; [| exact Hpending]].
    vm_compute in Hparse. inversion Hparse; subst mname attribute.
    rewrite Hdb.
    assert (Hd : d = VStr "hello").
    { unfold Samples.browsing in Hheap. cbn [ConfigMod.configs] in Hheap.
      apply lookup_singleton_Some in Hheap as [<- <-].
      vm_compute in Hdefault. congruence. }
    subst d. vm_compute. reflexivity.
Defined.

Lemma pick_failures_witness :
  @ConfigMod.change_attribute_callback_handler Samples.runtime
    Samples.loader (Samples.press 1000 "ch_attr_greeter") Samples.browsing
  = (Raise IndexError, Samples.browsing)
  /\ fst (@ConfigMod.change_attribute_callback_handler Samples.runtime
            Samples.loader (Samples.press 1000 "ch_attr_greeter_colour")
            Samples.browsing)
     = Raise (KeyError "colour").
Proof.
  destruct (@pick_failures Samples.runtime Samples.loader
              (Samples.press 1000 "ch_attr_greeter") Samples.browsing
              eq_refl) as [Hmalformed _].
  destruct (@pick_failures Samples.runtime Samples.loader
              (Samples.press 1000 "ch_attr_greeter_colour") Samples.browsing
              eq_refl) as [_ Hunknown].
  split.
  - apply Hmalformed. vm_compute. reflexivity.
  - destruct (Hunknown "greeter" "colour" 0%nat Samples.greeter_config
                (snd (ConfigMod.get_attrs Samples.greeter Samples.browsing)))
      as [Hrun _]; [vm_compute; reflexivity .. |].
    rewrite Hrun. reflexivity.
Defined.

Lemma change_def_failures_witness :
  @ConfigMod._change_callback_handler Samples.runtime
    (Samples.press 1000 "change") Samples.idle = (Ok tt, Samples.idle)
  /\ @ConfigMod._change_callback_handler Samples.runtime
       (Samples.press 1000 "change_def") Samples.idle
     = (Raise (KeyError "False"), Samples.idle)
  /\ @ConfigMod._change_callback_handler Samples.runtime
       (Samples.press 1000 "change_def") Samples.browsing
     = (Raise AttributeError, Samples.browsing).
Proof.
  split; [| split].
  - apply (proj1 (@change_def_failures Samples.runtime
                    (Samples.press 1000 "change") Samples.idle eq_refl)).
    vm_compute. reflexivity.
  - destruct (proj2 (@change_def_failures Samples.runtime
                       (Samples.press 1000 "change_def") Samples.idle
                       eq_refl)) as [Hdescr _]; [vm_compute; reflexivity |].
    apply (proj1 (Hdescr 0%nat Samples.greeter_config eq_refl
                    ltac:(vm_compute; reflexivity))).
    reflexivity.
  - destruct (proj2 (@change_def_failures Samples.runtime
                       (Samples.press 1000 "change_def") Samples.browsing
                       eq_refl)) as [_ Hplain]; [vm_compute; reflexivity |].
    apply (Hplain VNone). reflexivity.
Defined.

Lemma change_def_half_done_witness :
  exists w',
    @ConfigMod._change_callback_handler Samples.runtime
      (Samples.press 1000 "change_def") Samples.no_store
    = (Raise AttributeError, w')
    /\ option_map (fun c => Config.get c "greeting")
         (ConfigMod.configs w' !! 0%nat) = Some (VStr "hello")
    /\ ConfigMod.db w' = ∅
    /\ ConfigMod.pending (ConfigMod.self w') = VStr "greeting".
Proof.
  destruct (@change_def_half_done Samples.runtime
              (Samples.press 1000 "change_def") Samples.no_store
              "greeting" 0%nat Samples.greeter_config (VStr "hello"))
    as (w' & Hrun & Hheap & Hdb & Hself & _);
    try (vm_compute; reflexivity).
  - discriminate.
  - exists w'. split; [exact Hrun |].
    rewrite Hheap, Hdb, Hself. vm_compute. repeat split.
Defined.
